(** * Water-quality ETL pipeline: extract, transform, load

    A shallow embedding of [scripts/transform.py] (the cleaning function
    [transform_quality_data]) and of [dags/quality.py] (the three tasks
    [extract], [transform], [load]), with the properties of the pipeline
    proved over it.

    The pandas and SQLAlchemy calls of the source are embedded as functions
    on an explicit data model:
    - a data frame is a header (the column labels, in order, duplicates
      allowed) and a list of rows of cells;
    - a cell is missing ([NaN]), a number or a text. A number is given by
      its value, a rational. The column types of pandas are not part of the
      model: a value is the same cell whether its column prints it as [2]
      or as [2.0]; boolean columns are left out;
    - an exception is a value of [exn]; a call that can raise returns a
      [result];
    - a label is a Python [str], kept as the bytes of its UTF-8 form, which
      is faithful for equality, for [startswith] with an ASCII prefix and
      for [replace(" ", "_")].

    What is taken from Python and numpy, as the [runtime]:
    - [str.strip()] and [str.lower()], which follow Unicode; on ASCII text
      they are [ascii_strip] and [ascii_lower];
    - the float64 arithmetic of line 55, the mean of the numbers of a row
      and its rounding to two decimals; on one to three of the codes 1..4
      it gives what exact arithmetic gives.

    What is taken from pandas:
    - [drop_duplicates] keeps the first of equal rows, missing values being
      equal to each other;
    - [df[label]] is a Series when the label is unique and a DataFrame when
      it is duplicated; [.map(dict)] works on a Series only, and gives a
      missing value for a key that is not in the dict;
    - [df[label] = s] appends a new column or overwrites every column
      carrying the label;
    - [mean(axis=1)] skips missing values, gives a missing value for a row
      without numbers and raises on text (pandas 2);
    - [read_csv] decides the type of a column once per parsing unit. *)

From Stdlib Require Import ZArith QArith Qround String Ascii List Bool Lia Lqa.
From stdpp Require Import gmap strings list.
Import ListNotations.

Set Warnings "-abstract-large-number".

Local Open Scope string_scope.
Local Open Scope Z_scope.
Local Open Scope list_scope.

(** ** Exceptions and results *)

Inductive exn : Type :=
  | FileNotFoundError (msg : string)
      (* raised by [extract] for a missing raw file *)
  | LabelNotUnique (label : string)
      (* [df[label].map(...)] when [label] occurs twice: [df[label]] is a
         DataFrame, and [.map(dict)] on it raises *)
  | MeanTypeError
      (* [DataFrame.mean(axis=1)] over a selection holding text *)
  | FormatTypeError (label : string)
      (* [f"{df[col].mean():.2f}"] when [col] occurs twice: the mean is a
         Series, which rejects the format string *)
  | SQLError (msg : string)
      (* any failure reported by the database *)
  | OSError (msg : string).
      (* a write or a removal that the operating system refuses *)

Inductive result (A : Type) : Type :=
  | Ok (a : A)
  | Raise (e : exn).
Arguments Ok {A} a.
Arguments Raise {A} e.

Definition rbind {A B} (m : result A) (k : A -> result B) : result B :=
  match m with
  | Ok a => k a
  | Raise e => Raise e
  end.

Declare Scope result_scope.
Delimit Scope result_scope with result.
Notation "x <- m ;; k" := (rbind m (fun x => k))
  (at level 100, m at next level, right associativity) : result_scope.

Definition is_ok {A} (r : result A) : bool :=
  match r with Ok _ => true | Raise _ => false end.

(** ** Cells, series and frames

    A cell is a value. pandas also gives every column a type, which decides
    how [to_csv] spells its numbers ([2] in a column of integers, [2.0] in
    a column of floats) and nothing else of what is stated here: whether a
    cell is missing, which number or text it holds, what [map], [fillna]
    and the row-wise mean make of it depend on the value alone. Properties
    of cells are properties of values, not of their spelling in a file. *)

Inductive cell : Type :=
  | NaN
  | Num (q : Q)
  | Str (s : string).

(** A series is a column of cells, a row one cell per column. *)
Abbreviation series := (list cell) (only parsing).
Abbreviation row := (list cell) (only parsing).

Record frame : Type := Frame {
  columns : list string;
  rows : list row
}.

(** Every row has one cell per column. *)
Definition rectangular (df : frame) : Prop :=
  Forall (fun r : row => length r = length (columns df)) (rows df).

(** Equality as [drop_duplicates] sees it: missing values are equal to each
    other, numbers are compared by value, texts character by character. *)
Definition cell_eqb (a b : cell) : bool :=
  match a, b with
  | NaN, NaN => true
  | Num p, Num q => Qeq_bool p q
  | Str s, Str t => String.eqb s t
  | _, _ => false
  end.

Fixpoint row_eqb (r1 r2 : row) : bool :=
  match r1, r2 with
  | [], [] => true
  | a :: r1', b :: r2' => cell_eqb a b && row_eqb r1' r2'
  | _, _ => false
  end.

(** [df.drop_duplicates()]: keep the first occurrence of every row. *)
Fixpoint drop_duplicates_from (seen : list row) (rs : list row) : list row :=
  match rs with
  | [] => []
  | r :: rs' =>
      if existsb (row_eqb r) seen then drop_duplicates_from seen rs'
      else r :: drop_duplicates_from (r :: seen) rs'
  end.

Definition drop_duplicates (df : frame) : frame :=
  Frame (columns df) (drop_duplicates_from [] (rows df)).

(** ** Labels on ASCII text

    What [str.strip()], [str.replace(" ", "_")] and [str.lower()] do to a
    label made of ASCII characters. *)

(** Python's ASCII whitespace: tab, LF, VT, FF, CR, FS, GS, RS, US, space. *)
Definition is_space (a : ascii) : bool :=
  let n := nat_of_ascii a in
  ((9 <=? n)%nat && (n <=? 13)%nat) || ((28 <=? n)%nat && (n <=? 32)%nat).

Fixpoint lstrip (l : list ascii) : list ascii :=
  match l with
  | a :: l' => if is_space a then lstrip l' else l
  | [] => []
  end.

Definition strip (l : list ascii) : list ascii :=
  rev (lstrip (rev (lstrip l))).

Definition space_to_underscore (a : ascii) : ascii :=
  if Ascii.eqb a " "%char then "_"%char else a.

Definition lower_ascii (a : ascii) : ascii :=
  let n := nat_of_ascii a in
  if ((65 <=? n)%nat && (n <=? 90)%nat) then ascii_of_nat (n + 32) else a.

(** Every byte is below 128: the text is ASCII. *)
Definition ascii_only (s : string) : bool :=
  forallb (fun a => (nat_of_ascii a <? 128)%nat) (list_ascii_of_string s).

Definition ascii_strip (s : string) : string :=
  string_of_list_ascii (strip (list_ascii_of_string s)).

Definition ascii_lower (s : string) : string :=
  string_of_list_ascii (map lower_ascii (list_ascii_of_string s)).

(** [str.replace(" ", "_")]. The byte 32 is the blank and nothing else, in
    ASCII as in UTF-8, so this is the replacement on any label. *)
Definition replace_blank (s : string) : string :=
  string_of_list_ascii (map space_to_underscore (list_ascii_of_string s)).

(** [df.columns = [... for c in df.columns]] *)
Definition rename_columns (f : string -> string) (df : frame) : frame :=
  Frame (map f (columns df)) (rows df).

(** ** [df.fillna(0, inplace=True)] *)

Definition fill_cell (v : cell) (c : cell) : cell :=
  match c with
  | NaN => v
  | _ => c
  end.

Definition fillna (v : cell) (df : frame) : frame :=
  Frame (columns df) (map (map (fill_cell v)) (rows df)).

(** ** Label lookup, [Series.map(dict)], column assignment *)

(** [label in df.columns] *)
Definition has_column (df : frame) (label : string) : bool :=
  existsb (String.eqb label) (columns df).

Definition count_label (cols : list string) (label : string) : nat :=
  length (List.filter (String.eqb label) cols).

(** The cells of row [r] that stand under [label], in column order. *)
Fixpoint cells_at (cols : list string) (label : string) (r : row) : list cell :=
  match cols, r with
  | c :: cols', x :: r' =>
      if String.eqb label c then x :: cells_at cols' label r'
      else cells_at cols' label r'
  | _, _ => []
  end.

(** [df[label]] used as a Series: defined when the label stands for exactly
    one column. A duplicated label selects a DataFrame, on which the
    following [.map(dict)] raises. *)
Definition get_series (df : frame) (label : string) : result series :=
  if (count_label (columns df) label =? 1)%nat
  then Ok (map (fun r => hd NaN (cells_at (columns df) label r)) (rows df))
  else Raise (LabelNotUnique label).

(** [Series.map(d)] for a dict with text keys: a key that is not in the dict
    (any number, any other text, a missing value) gives a missing value. *)
Definition map_cell (d : gmap string Z) (c : cell) : cell :=
  match c with
  | Str s => match d !! s with
             | Some code => Num (inject_Z code)
             | None => NaN
             end
  | _ => NaN
  end.

Definition series_map (d : gmap string Z) (s : series) : series :=
  map (map_cell d) s.

(** Overwrite, in row [r], every cell standing under [label]. *)
Fixpoint overwrite (cols : list string) (label : string) (v : cell) (r : row) : row :=
  match cols, r with
  | c :: cols', x :: r' =>
      (if String.eqb label c then v else x) :: overwrite cols' label v r'
  | _, _ => r
  end.

Definition set_cell (cols : list string) (label : string) (v : cell) (r : row) : row :=
  if existsb (String.eqb label) cols then overwrite cols label v r
  else r ++ [v].

Fixpoint zip_rows (f : cell -> row -> row) (s : series) (rs : list row) : list row :=
  match s, rs with
  | v :: s', r :: rs' => f v r :: zip_rows f s' rs'
  | _, _ => []
  end.

(** [df[label] = s]: a new label is appended as the last column; an existing
    label has its column (every column carrying it) overwritten in place. *)
Definition set_series (df : frame) (label : string) (s : series) : frame :=
  Frame
    (if has_column df label then columns df else columns df ++ [label])
    (zip_rows (set_cell (columns df) label) s (rows df)).

(** ** Row-wise mean and rounding *)

(** [df[labels]]: for every label of the list, in order, every column that
    carries it. *)
Definition select_row (cols : list string) (labels : list string) (r : row) : list cell :=
  flat_map (fun l => cells_at cols l r) labels.

(** The numbers of a row, missing values skipped ([skipna=True]); a text in
    the selection makes the reduction raise. *)
Fixpoint numeric_values (cs : list cell) : result (list Q) :=
  match cs with
  | [] => Ok []
  | NaN :: cs' => numeric_values cs'
  | Num q :: cs' =>
      match numeric_values cs' with
      | Ok qs => Ok (q :: qs)
      | Raise e => Raise e
      end
  | Str _ :: _ => Raise MeanTypeError
  end.

(** *** Exact arithmetic

    The mean and the rounding to two decimals as the specification words
    them. *)

Definition Qsum (qs : list Q) : Q := fold_right Qplus 0%Q qs.

(** Arithmetic mean; no number at all gives no mean. *)
Definition mean (qs : list Q) : option Q :=
  match qs with
  | [] => None
  | _ => Some (Qsum qs / inject_Z (Z.of_nat (length qs)))%Q
  end.

(** Nearest integer, ties to the even one. *)
Definition round_half_even (q : Q) : Z :=
  let f := Qfloor q in
  match Qcompare (q - inject_Z f) (1 # 2) with
  | Lt => f
  | Gt => f + 1
  | Eq => if Z.even f then f else f + 1
  end.

(** Rounding to two decimals, returned in lowest terms. *)
Definition round2 (q : Q) : Q :=
  Qred (inject_Z (round_half_even (q * 100)) / 100).

(** ** What Python and numpy supply

    [str_strip] and [str_lower] are [str.strip()] and [str.lower()].
    [f64_mean] is the float64 mean of a non-empty list of numbers, as
    [DataFrame.mean(axis=1)] computes it for the numbers of a row, and
    [f64_round2] is [Series.round(2)] on one float64. A float64 is written
    as the rational it prints as. Three facts about them are used: on ASCII
    text the two string methods are the ASCII ones, and the rounded mean of
    one to three of the codes 1..4 is the exactly rounded exact mean (the
    quotients by 1, 2 and 3 are far from a tie at the second decimal). *)
Class runtime : Type := Runtime {
  str_strip : string -> string;
  str_lower : string -> string;
  f64_mean : list Q -> Q;
  f64_round2 : Q -> Q;
  str_strip_ascii :
    forall s, ascii_only s = true -> str_strip s = ascii_strip s;
  str_lower_ascii :
    forall s, ascii_only s = true -> str_lower s = ascii_lower s;
  f64_codes :
    forall (ks : list Z) (q : Q),
      (length ks <= 3)%nat -> Forall (fun k => 1 <= k <= 4) ks ->
      mean (map inject_Z ks) = Some q ->
      f64_round2 (f64_mean (map inject_Z ks)) = round2 q
}.

Section Transform.

Context {rt : runtime}.

(** Line 17: [c.strip().replace(" ", "_").lower()] *)
Definition normalize_name (c : string) : string :=
  str_lower (replace_blank (str_strip c)).

(** *** [df[labels].mean(axis=1).round(2)] *)

(** The float64 mean of the numbers of a row; a row without numbers has a
    missing mean. *)
Definition float_mean (qs : list Q) : option Q :=
  match qs with
  | [] => None
  | _ => Some (f64_mean qs)
  end.

Definition round_cell (o : option Q) : cell :=
  match o with
  | Some q => Num (f64_round2 q)
  | None => NaN
  end.

Definition row_mean (cs : list cell) : result (option Q) :=
  match numeric_values cs with
  | Ok qs => Ok (float_mean qs)
  | Raise e => Raise e
  end.

Fixpoint mapM {A B} (f : A -> result B) (l : list A) : result (list B) :=
  match l with
  | [] => Ok []
  | a :: l' =>
      match f a with
      | Ok b => match mapM f l' with
                | Ok bs => Ok (b :: bs)
                | Raise e => Raise e
                end
      | Raise e => Raise e
      end
  end.

Definition mean_axis1_round2 (df : frame) (labels : list string) : result series :=
  mapM (fun r =>
          match row_mean (select_row (columns df) labels r) with
          | Ok o => Ok (round_cell o)
          | Raise e => Raise e
          end) (rows df).

(** ** [transform_quality_data] (scripts/transform.py) *)

Definition quality_map : gmap string Z :=
  {[ "Excelente" := 1; "Buena calidad" := 2; "Aceptable" := 3; "Contaminada" := 4 ]}.

Definition semaforo_map : gmap string Z :=
  {[ "VERDE" := 1; "AMARILLO" := 2; "ROJO" := 3 ]}.

Definition indice_prefix : string := "indice_calidad_".

(** Lines 13-20: duplicates dropped, then labels normalised, then missing
    values filled with zero. *)
Definition clean (df : frame) : frame :=
  fillna (Num 0) (rename_columns normalize_name (drop_duplicates df)).

(** [if src in df.columns: df[dst] = df[src].map(d)] *)
Definition add_mapped (d : gmap string Z) (src dst : string) (df : frame) : result frame :=
  if has_column df src then
    match get_series df src with
    | Ok s => Ok (set_series df dst (series_map d s))
    | Raise e => Raise e
    end
  else Ok df.

(** Lines 32-50: the three ordinal columns. *)
Definition add_indices (df : frame) : result frame :=
  (df <- add_mapped quality_map "calidad_dqo" "indice_calidad_dqo" df ;;
   df <- add_mapped quality_map "calidad_dbo" "indice_calidad_dbo" df ;;
   add_mapped quality_map "calidad_sst" "indice_calidad_sst" df)%result.

(** Line 53 *)
Definition indice_columns (df : frame) : list string :=
  List.filter (String.prefix indice_prefix) (columns df).

(** Lines 54-55 *)
Definition add_general (df : frame) : result frame :=
  match indice_columns df with
  | [] => Ok df
  | labels =>
      match mean_axis1_round2 df labels with
      | Ok s => Ok (set_series df "indice_calidad_general" s)
      | Raise e => Raise e
      end
  end.

(** Lines 59-61 *)
Definition add_semaforo (df : frame) : result frame :=
  add_mapped semaforo_map "semaforo" "semaforo_numerico" df.

(** The table handed to [to_csv] on line 67. *)
Definition cleaned (df : frame) : result frame :=
  (df <- add_indices (clean df) ;;
   df <- add_general df ;;
   add_semaforo df)%result.

(** Lines 74-76: the closing summary formats [df[col].mean()] with [:.2f],
    which needs [df[col]] to be a single column. *)
Fixpoint summary (df : frame) (labels : list string) : result unit :=
  match labels with
  | [] => Ok tt
  | col :: labels' =>
      if has_column df col && negb (count_label (columns df) col =? 1)%nat
      then Raise (FormatTypeError col)
      else summary df labels'
  end.

(** The whole function, from the frame read on line 7 to the normal return
    on line 78. The result is the table that was written. The labels of the
    summary are those computed on line 53, before the general index was
    added. When the summary raises, the file of line 67 is already written:
    it holds [cleaned df]. *)
Definition transform_quality_data (df : frame) : result frame :=
  (mid <- add_indices (clean df) ;;
   gen <- add_general mid ;;
   out <- add_semaforo gen ;;
   _ <- summary out (indice_columns mid ++ ["indice_calidad_general"]) ;;
   Ok out)%result.

End Transform.

(** The cell of row [r] under a label that stands for one column. *)
Definition cell_of (cols : list string) (label : string) (r : row) : option cell :=
  match cells_at cols label r with
  | [c] => Some c
  | _ => None
  end.

(** ** The raw file and the [extract] task (dags/quality.py, lines 51-64) *)

Definition BASE_DIR : string := "/opt/airflow/data".
Definition RAW_FILE : string := BASE_DIR +:+ "/calidad_agua.csv".

(** The file system as the tasks see it: the bytes stored under each path. *)
Definition file_system : Type := gmap string string.

(** [os.path.exists] and [os.path.getsize] *)
Definition path_exists (fs : file_system) (p : string) : bool :=
  match fs !! p with Some _ => true | None => false end.

Definition getsize (fs : file_system) (p : string) : option nat :=
  String.length <$> fs !! p.

(** What the task writes to its logger. *)
Inductive log_record : Type :=
  | LogStart
  | LogNotFound (path : string)
  | LogFound (file_size : nat)
  | LogError (e : exn).

(** The task returns nothing; it either ends normally or re-raises. The
    [except] clause logs the exception and raises it again. [getsize] is
    asked for a path that exists, so its failure branch is never taken. *)
Definition extract (fs : file_system) : list log_record * result unit :=
  if negb (path_exists fs RAW_FILE) then
    let e := FileNotFoundError (RAW_FILE +:+ " no existe!") in
    ([LogStart; LogNotFound RAW_FILE; LogError e], Raise e)
  else
    match getsize fs RAW_FILE with
    | Some file_size => ([LogStart; LogFound file_size], Ok tt)
    | None =>
        let e := FileNotFoundError RAW_FILE in
        ([LogStart; LogError e], Raise e)
    end.

(** ** Reading the raw file (dags/quality.py, lines 72-87)

    A delimited text file is its header line and its records, each a list
    of text fields. [pd.read_csv] decides the type of a column from the
    fields it has in hand: the column is numeric when every field is a
    missing-value marker or a numeric literal, and is kept as text
    otherwise. The C parser takes this decision once per parsing unit, and
    a read with [chunksize] once per unit of every batch. Which texts are
    markers and literals is pandas' business: the reader is stated over any
    two recognisers [na] and [number], and over the number of rows
    [buffer_lines] that the parser takes per unit for a table of a given
    width. Boolean columns are outside the model.

    The reader is the reader of pandas on the files that are [well_formed]:
    the labels of the header are distinct and none is empty, and every
    record has one field per label. On other files pandas renames labels
    ([a], [a.1]; [Unnamed: 0]), takes a leading column as the index, fills
    a short record or raises on a long one; none of this is modelled, and
    what [read_csv] returns on such a file says nothing about pandas. *)

Record csv_file : Type := CsvFile {
  header : list string;
  records : list (list string)
}.



(** Bytes of the file: fields joined by commas, one line feed per line. *)
Definition N_sum (l : list N) : N := fold_right N.add 0%N l.

Definition line_size (fields : list string) : N :=
  (N_sum (map (fun s => N.of_nat (String.length s)) fields)
   + N.of_nat (length fields))%N.

Definition file_size (f : csv_file) : N :=
  (line_size (header f) + N_sum (map line_size (records f)))%N.

(** Consecutive pieces of [n] elements, the last one possibly shorter. *)
Fixpoint chunks_fuel {A} (fuel n : nat) (l : list A) : list (list A) :=
  match fuel with
  | O => []
  | S fuel' =>
      match l with
      | [] => []
      | _ => firstn n l :: chunks_fuel fuel' n (skipn n l)
      end
  end.

Definition chunks {A} (n : nat) (l : list A) : list (list A) :=
  chunks_fuel (length l) n l.

Section Reader.

Variable na : string -> bool.
Variable number : string -> option Q.
Variable buffer_lines : nat -> nat.

Definition numeric_field (s : string) : bool :=
  na s || match number s with Some _ => true | None => false end.

(** Is column [j] numeric in this unit? *)
Definition numeric_column (unit : list (list string)) (j : nat) : bool :=
  forallb (fun rec => numeric_field (nth j rec "")) unit.

Definition read_field (numeric : bool) (s : string) : cell :=
  if na s then NaN
  else if numeric then match number s with Some q => Num q | None => Str s end
  else Str s.

(** One parsing unit: types decided column by column over the unit. *)
Definition read_unit (width : nat) (unit : list (list string)) : list row :=
  map (fun rec =>
         map (fun j => read_field (numeric_column unit j) (nth j rec ""))
             (seq 0 width))
      unit.

(** The rows of a run of records, parsed unit by unit. Cells keep the type
    their unit gave them when the units are put together. *)
Definition read_rows (width : nat) (recs : list (list string)) : list row :=
  concat (map (read_unit width) (chunks (buffer_lines width) recs)).

(** [pd.read_csv(RAW_FILE)] *)
Definition read_csv (f : csv_file) : frame :=
  Frame (header f) (read_rows (length (header f)) (records f)).

(** [pd.concat(list(pd.read_csv(RAW_FILE, chunksize=n)), ignore_index=True)] *)
Definition read_csv_chunked (n : nat) (f : csv_file) : frame :=
  Frame (header f)
        (concat (map (read_rows (length (header f))) (chunks n (records f)))).

Definition chunk_size : nat := 10000.
Definition size_threshold : N := 5 * 1024 * 1024.

(** Lines 72-87: the frame [df] that the task goes on with. *)
Definition read_raw (f : csv_file) : frame :=
  if (size_threshold <? file_size f)%N
  then read_csv_chunked chunk_size f
  else read_csv f.

End Reader.

(** pandas' heuristic for the rows per parsing unit:
    [heuristic = 2**20 // table_width], then the power of two reached by
    doubling from 1 while the double stays below the heuristic. *)
Fixpoint double_while (fuel : nat) (b heuristic : N) : N :=
  match fuel with
  | O => b
  | S fuel' =>
      if (b * 2 <? heuristic)%N then double_while fuel' (b * 2)%N heuristic
      else b
  end.

Definition pandas_buffer_lines (table_width : nat) : nat :=
  N.to_nat (double_while 20 1 (2 ^ 20 / N.of_nat table_width)).

(** Two recognisers for concrete files: decimal integer literals with an
    optional sign, and the empty field as the only missing-value marker.
    pandas recognises more (decimal fractions and exponents as numbers,
    [NA], [NaN], [null] and others as markers); the files they are used on
    hold digits, letters and blanks only, where both agree with pandas. *)
Definition digit_value (a : ascii) : option Z :=
  let n := nat_of_ascii a in
  if ((48 <=? n)%nat && (n <=? 57)%nat) then Some (Z.of_nat (n - 48)) else None.

Fixpoint digits_value (acc : Z) (l : list ascii) : option Z :=
  match l with
  | [] => Some acc
  | a :: l' =>
      match digit_value a with
      | Some d => digits_value (10 * acc + d) l'
      | None => None
      end
  end.

Definition integer_literal (s : string) : option Q :=
  match list_ascii_of_string s with
  | [] => None
  | a :: l =>
      if Ascii.eqb a "-"%char then
        match l with
        | [] => None
        | _ => (fun z => inject_Z (- z)) <$> digits_value 0 l
        end
      else if Ascii.eqb a "+"%char then
        match l with
        | [] => None
        | _ => inject_Z <$> digits_value 0 l
        end
      else inject_Z <$> digits_value 0 (a :: l)
  end.

(** The empty field is a missing value. *)
Definition empty_field (s : string) : bool := String.eqb s "".

(** ** The [load] task (dags/quality.py, lines 106-214) *)

Definition resumen_por_estado : string := "water_data.resumen_por_estado".
Definition calidad_por_periodo : string := "water_data.calidad_por_periodo".
Definition calidad_agua_clean : string := "water_data.calidad_agua_clean".

(** The two view definitions, as in the source up to blanks. *)
Definition resumen_por_estado_sql : string :=
  "SELECT estado, COUNT(*) as total_sitios, AVG(indice_calidad_general) as calidad_promedio, COUNT(CASE WHEN semaforo = 'VERDE' THEN 1 END) as sitios_verdes, COUNT(CASE WHEN semaforo = 'AMARILLO' THEN 1 END) as sitios_amarillos, COUNT(CASE WHEN semaforo = 'ROJO' THEN 1 END) as sitios_rojos FROM water_data.calidad_agua_clean GROUP BY estado ORDER BY calidad_promedio DESC;".

Definition calidad_por_periodo_sql : string :=
  "SELECT periodo, estado, COUNT(*) as mediciones, AVG(indice_calidad_general) as calidad_promedio, MIN(indice_calidad_general) as calidad_minima, MAX(indice_calidad_general) as calidad_maxima FROM water_data.calidad_agua_clean GROUP BY periodo, estado ORDER BY periodo DESC, estado;".

(** The [if_exists] argument of [DataFrame.to_sql]. *)
Inductive if_exists : Type :=
  | IfExistsFail
  | IfExistsReplace
  | IfExistsAppend.

(** The statements the task sends to the database. *)
Inductive stmt : Type :=
  | SelectVersion
      (* SELECT version(); *)
  | DropViewIfExistsCascade (view : string)
      (* DROP VIEW IF EXISTS view CASCADE; *)
  | ToSql (table : string) (df : frame) (mode : if_exists) (index : bool)
      (* DataFrame.to_sql(name, schema, con, if_exists=mode, index=index,
         method='multi', chunksize=1000); the last two arguments say how
         the rows travel, not what is stored *)
  | CreateView (view : string) (body : string)
      (* CREATE VIEW view AS body *)
  | SelectCount (table : string)
      (* SELECT COUNT( * ) FROM table *)
  | SelectSemaforoStats (table : string).
      (* SELECT semaforo, COUNT( * ) as total FROM table GROUP BY semaforo
         ORDER BY total DESC *)

(** A database server, as far as the task can tell: a state, what a query
    answers in a state, what a data-definition statement makes of a state,
    and what [to_sql] leaves behind. Queries cannot change the state. The
    two observations are what the properties of the load are about. *)
Record backend : Type := Backend {
  database : Type;
  run_query : stmt -> database -> result (list row);
  run_ddl : stmt -> database -> result database;
  run_to_sql : string -> frame -> if_exists -> bool -> database ->
               database * result unit;
  stored_table : database -> string -> option frame;
  view_definition : database -> string -> option string
}.

Section Load.

Variable B : backend.

(** The state threaded through the task: the database and the statements
    sent so far, oldest first. *)
Record world : Type := World {
  store : database B;
  sent : list stmt
}.

Definition io (A : Type) : Type := world -> world * result A.

Definition ret {A} (a : A) : io A := fun w => (w, Ok a).

Definition bind {A C} (m : io A) (k : A -> io C) : io C :=
  fun w =>
    match m w with
    | (w', Ok a) => k a w'
    | (w', Raise e) => (w', Raise e)
    end.

Definition lift {A} (r : result A) : io A := fun w => (w, r).

Declare Scope io_scope.
Delimit Scope io_scope with io.
Notation "x <- m ;; k" := (bind m (fun x => k))
  (at level 100, m at next level, right associativity) : io_scope.

Definition note (s : stmt) (w : world) : world :=
  World (store w) (sent w ++ [s]).

(** [conn.execute(text(...))] for a SELECT *)
Definition query (s : stmt) : io (list row) :=
  fun w => (note s w, run_query B s (store w)).

(** [conn.execute(text(...))] for a DROP or CREATE *)
Definition execute (s : stmt) : io unit :=
  fun w =>
    match run_ddl B s (store w) with
    | Ok d => (World d (sent w ++ [s]), Ok tt)
    | Raise e => (note s w, Raise e)
    end.

(** [with engine.begin() as conn: ...]: committed when the block ends
    normally, rolled back to the state at its start when it raises. *)
Definition transaction {A} (m : io A) : io A :=
  fun w =>
    match m w with
    | (w', Ok a) => (w', Ok a)
    | (w', Raise e) => (World (store w) (sent w'), Raise e)
    end.

(** [df.to_sql(name=..., schema=..., con=engine, if_exists=mode,
    index=index, method='multi', chunksize=1000)] *)
Definition to_sql (table : string) (df : frame) (mode : if_exists)
    (index : bool) : io unit :=
  fun w =>
    let (d, r) := run_to_sql B table df mode index (store w) in
    (World d (sent w ++ [ToSql table df mode index]), r).

(** Lines 136-138 *)
Definition drop_views : io unit :=
  transaction
    (_ <- execute (DropViewIfExistsCascade resumen_por_estado) ;;
     execute (DropViewIfExistsCascade calidad_por_periodo))%io.

(** Lines 154-183 *)
Definition create_views : io unit :=
  transaction
    (_ <- execute (CreateView resumen_por_estado resumen_por_estado_sql) ;;
     execute (CreateView calidad_por_periodo calidad_por_periodo_sql))%io.

(** Lines 186-201 *)
Definition verify (df : frame) : io unit :=
  (_ <- query (SelectCount calidad_agua_clean) ;;
   if has_column df "semaforo"
   then (_ <- query (SelectSemaforoStats calidad_agua_clean) ;; ret tt)
   else ret tt)%io.

(** Line 131-132: [df.copy()] with the load time in [fecha_carga]. *)
Definition with_fecha_carga (now : cell) (df : frame) : frame :=
  set_series df "fecha_carga" (repeat now (length (rows df))).

(** The task. [parquet] is the outcome of [pd.read_parquet] on line 113,
    [now] the value of [datetime.now()] on line 132. The [except] clause
    logs and re-raises, so an exception leaves the task as it is. *)
Definition load (now : cell) (parquet : result frame) : io unit :=
  (df <- lift parquet ;;
   _ <- query SelectVersion ;;
   let df_to_load := with_fecha_carga now df in
   _ <- drop_views ;;
   _ <- to_sql calidad_agua_clean df_to_load IfExistsReplace false ;;
   _ <- create_views ;;
   verify df)%io.

(** Rows of the destination table. *)
Definition row_count (d : database B) : option nat :=
  (fun f => length (rows f)) <$> stored_table B d calidad_agua_clean.

End Load.

Arguments World {B} store sent.
Arguments store {B} w.
Arguments sent {B} w.

(** ** A small server for concrete runs

    One schema holding tables and views. A view can be dropped by its owner
    only; a table cannot be dropped while a view is defined over it; a view
    cannot be created twice, nor over a missing table, nor over columns
    that the table does not have. Every view of the schema reads the table
    [calidad_agua_clean]. *)

Record pg_state : Type := PgState {
  pg_tables : gmap string frame;
  pg_views : gmap string string;
  pg_owner : bool
}.

(** The columns of the table that the two views read (lines 156-183). *)
Definition view_columns (v : string) : list string :=
  if String.eqb v resumen_por_estado
  then ["estado"; "indice_calidad_general"; "semaforo"]
  else if String.eqb v calidad_por_periodo
  then ["periodo"; "estado"; "indice_calidad_general"]
  else [].

Definition pg_query (s : stmt) (d : pg_state) : result (list row) :=
  match s with
  | SelectVersion => Ok [[Str "PostgreSQL"]]
  | SelectCount t =>
      match pg_tables d !! t with
      | Some f => Ok [[Num (inject_Z (Z.of_nat (length (rows f))))]]
      | None => Raise (SQLError "relation does not exist")
      end
  | SelectSemaforoStats t =>
      match pg_tables d !! t with
      | Some f =>
          if has_column f "semaforo" then Ok []
          else Raise (SQLError "column does not exist")
      | None => Raise (SQLError "relation does not exist")
      end
  | _ => Raise (SQLError "not a query")
  end.

Definition pg_ddl (s : stmt) (d : pg_state) : result pg_state :=
  match s with
  | DropViewIfExistsCascade v =>
      match pg_views d !! v with
      | None => Ok d
      | Some _ =>
          if pg_owner d
          then Ok (PgState (pg_tables d) (delete v (pg_views d)) (pg_owner d))
          else Raise (SQLError "must be owner of view")
      end
  | CreateView v body =>
      match pg_views d !! v, pg_tables d !! calidad_agua_clean with
      | None, Some f =>
          if forallb (has_column f) (view_columns v)
          then Ok (PgState (pg_tables d) (<[v := body]> (pg_views d)) (pg_owner d))
          else Raise (SQLError "column does not exist")
      | Some _, _ => Raise (SQLError "relation already exists")
      | None, None => Raise (SQLError "relation does not exist")
      end
  | _ => Raise (SQLError "not a definition")
  end.

(** [index=True] writes the row numbers as a first column. *)
Fixpoint number_rows (n : nat) (rs : list row) : list row :=
  match rs with
  | [] => []
  | r :: rs' => (Num (inject_Z (Z.of_nat n)) :: r) :: number_rows (S n) rs'
  end.

Definition with_index (index : bool) (df : frame) : frame :=
  if index then Frame ("index" :: columns df) (number_rows 0 (rows df)) else df.

(** [to_sql] on a table that exists: [fail] raises, [append] adds the rows
    to those of the table, [replace] drops the table and creates it anew,
    which the server refuses while a view depends on it. *)
Definition pg_to_sql (t : string) (df : frame) (mode : if_exists) (index : bool)
    (d : pg_state) : pg_state * result unit :=
  let f := with_index index df in
  let stored x := PgState (<[t := x]> (pg_tables d)) (pg_views d) (pg_owner d) in
  match pg_tables d !! t with
  | Some old =>
      match mode with
      | IfExistsFail => (d, Raise (SQLError "table already exists"))
      | IfExistsAppend =>
          (stored (Frame (columns old) (rows old ++ rows f)), Ok tt)
      | IfExistsReplace =>
          if decide (pg_views d = ∅)
          then (stored f, Ok tt)
          else (d, Raise (SQLError "cannot drop table because other objects depend on it"))
      end
  | None => (stored f, Ok tt)
  end.

Definition pg : backend :=
  Backend pg_state pg_query pg_ddl pg_to_sql
          (fun d t => pg_tables d !! t)
          (fun d v => pg_views d !! v).

(** ** The [transform] task (dags/quality.py, lines 66-104)

    The task and [transform_quality_data] as operations on files. What
    pandas makes of bytes is taken as given: the frame that [pd.read_csv]
    parses from the bytes of a file, whole or by batches, the bytes that
    [to_csv] writes for a frame, and the bytes that [to_parquet] writes
    unless it refuses the frame. What the operating system does with a
    write and a removal is the [disk]. *)

Definition TRANSFORMED_FILE_CSV : string := BASE_DIR +:+ "/calidad_agua_clean.csv".
Definition TRANSFORMED_FILE_PARQUET : string :=
  BASE_DIR +:+ "/calidad_agua_clean.parquet".

(** Line 89 *)
Definition temp_file : string := RAW_FILE +:+ ".temp".

(** Writing a file and [os.remove]. Either can fail. A write that succeeds
    leaves the bytes under the path; a write that fails can leave anything
    under that path, a partial file for one, and touches no other path. A
    removal that succeeds deletes the path; one that fails changes
    nothing. *)
Class disk : Type := Disk {
  write_file : string -> string -> file_system -> file_system * result unit;
  remove_file : string -> file_system -> file_system * result unit;
  write_file_ok :
    forall p bytes (fs fs' : file_system),
      write_file p bytes fs = (fs', Ok tt) -> fs' = <[p := bytes]> fs;
  write_file_failed :
    forall p bytes (fs fs' : file_system) e q,
      write_file p bytes fs = (fs', Raise e) -> q <> p -> fs' !! q = fs !! q;
  remove_file_ok :
    forall p (fs fs' : file_system),
      remove_file p fs = (fs', Ok tt) -> fs' = delete p fs;
  remove_file_failed :
    forall p (fs fs' : file_system) e,
      remove_file p fs = (fs', Raise e) -> fs' = fs
}.

Section Files.

Context {rt : runtime} {dk : disk}.

Variable parse_csv : string -> result frame.
Variable parse_csv_chunked : nat -> string -> result frame.
Variable to_csv : frame -> string.
Variable to_parquet : frame -> result string.

(** [pd.read_csv(path)] *)
Definition read_csv_at (path : string) (fs : file_system) : result frame :=
  match fs !! path with
  | Some bytes => parse_csv bytes
  | None => Raise (FileNotFoundError path)
  end.

(** [pd.concat(list(pd.read_csv(path, chunksize=n)), ignore_index=True)] *)
Definition read_csv_chunked_at (n : nat) (path : string) (fs : file_system) :
    result frame :=
  match fs !! path with
  | Some bytes => parse_csv_chunked n bytes
  | None => Raise (FileNotFoundError path)
  end.

(** [transform_quality_data(input_path, output_path)] of scripts/transform.py
    with its files: the table is written on line 67, before the summary of
    lines 74-76, so a summary that raises leaves the written file behind. *)
Definition transform_quality_data_at (input_path output_path : string)
    (fs : file_system) : file_system * result string :=
  match read_csv_at input_path fs with
  | Raise e => (fs, Raise e)
  | Ok df =>
      match cleaned df with
      | Raise e => (fs, Raise e)
      | Ok out =>
          match write_file output_path (to_csv out) fs with
          | (fs', Raise e) => (fs', Raise e)
          | (fs', Ok _) =>
              match transform_quality_data df with
              | Ok _ => (fs', Ok output_path)
              | Raise e => (fs', Raise e)
              end
          end
      end
  end.

(** The task. The [except] clause logs and re-raises, and there is no
    [finally]: whatever was written when an exception is raised stays. *)
Definition transform (fs : file_system) : file_system * result unit :=
  match getsize fs RAW_FILE with
  | None => (fs, Raise (FileNotFoundError RAW_FILE))
  | Some file_size =>
      match (if (size_threshold <? N.of_nat file_size)%N
             then read_csv_chunked_at chunk_size RAW_FILE fs
             else read_csv_at RAW_FILE fs) with
      | Raise e => (fs, Raise e)
      | Ok df =>
          match write_file temp_file (to_csv df) fs with
          | (fs1, Raise e) => (fs1, Raise e)
          | (fs1, Ok _) =>
              match transform_quality_data_at temp_file TRANSFORMED_FILE_CSV fs1 with
              | (fs2, Raise e) => (fs2, Raise e)
              | (fs2, Ok _) =>
                  match read_csv_at TRANSFORMED_FILE_CSV fs2 with
                  | Raise e => (fs2, Raise e)
                  | Ok df_transformed =>
                      match to_parquet df_transformed with
                      | Raise e => (fs2, Raise e)
                      | Ok bytes =>
                          match write_file TRANSFORMED_FILE_PARQUET bytes fs2 with
                          | (fs3, Raise e) => (fs3, Raise e)
                          | (fs3, Ok _) =>
                              match remove_file temp_file fs3 with
                              | (fs4, Raise e) => (fs4, Raise e)
                              | (fs4, Ok _) => (fs4, Ok tt)
                              end
                          end
                      end
                  end
              end
          end
      end
  end.

(** The frame of lines 72-87, read from the bytes of the raw file. *)
Definition raw_frame (bytes : string) : result frame :=
  if (size_threshold <? N.of_nat (String.length bytes))%N
  then parse_csv_chunked chunk_size bytes
  else parse_csv bytes.

End Files.

(** * Notions used in the statements *)

Section Notions.

Context {rt : runtime}.

(** ** Assignment steps

    Every step of the transform after the cleaning either leaves the frame
    as it is or assigns one column, row by row. [step l f active df df']
    says that [df'] is [df] after such a step: when [active], the cell under
    [l] is set to [f r] in every row [r]. *)

(** The labels of a frame after [df[label] = ...]. *)
Definition new_columns (cols : list string) (label : string) : list string :=
  if existsb (String.eqb label) cols then cols else cols ++ [label].

Definition step_row (cols : list string) (l : string) (f : row -> cell)
    (active : bool) (r : row) : row :=
  if active then set_cell cols l (f r) r else r.

Definition step (l : string) (f : row -> cell) (active : bool)
    (df df' : frame) : Prop :=
  columns df' = (if active then new_columns (columns df) l else columns df) /\
  rows df' = map (step_row (columns df) l f active) (rows df).

(** The value [df[src].map(d)] puts in a row. *)
Definition mapped_cell (d : gmap string Z) (cols : list string) (src : string)
    (r : row) : cell :=
  map_cell d (hd NaN (cells_at cols src r)).

(** The value of the general index in a row: the rounded mean of the cells
    selected by [labels]. *)
Definition general_cell (cols labels : list string) (r : row) : cell :=
  match row_mean (select_row cols labels r) with
  | Ok o => round_cell o
  | Raise _ => NaN
  end.

Definition nonempty {A} (l : list A) : bool :=
  match l with [] => false | _ => true end.

(** The frames a successful transform goes through: [mid] is the frame of
    line 53, with the ordinal columns, and [out] the table written. *)
Inductive stages (df mid out : frame) : Prop :=
  | Stages (m1 m2 gen : frame)
      (Hdqo : add_mapped quality_map "calidad_dqo" "indice_calidad_dqo" (clean df) = Ok m1)
      (Hdbo : add_mapped quality_map "calidad_dbo" "indice_calidad_dbo" m1 = Ok m2)
      (Hsst : add_mapped quality_map "calidad_sst" "indice_calidad_sst" m2 = Ok mid)
      (Hgeneral : add_general mid = Ok gen)
      (Hsemaforo : add_semaforo gen = Ok out)
      (Hsummary : summary out (indice_columns mid ++ ["indice_calidad_general"]) = Ok tt).

(** ** Categories and their ordinal columns *)

(** Each category column with the ordinal column derived from it. *)
Definition ordinal_pairs : list (string * string) :=
  [("calidad_dqo", "indice_calidad_dqo");
   ("calidad_dbo", "indice_calidad_dbo");
   ("calidad_sst", "indice_calidad_sst")].

Definition ordinal_labels : list string := map snd ordinal_pairs.

(** The labels the transform assigns. *)
Definition derived_labels : list string :=
  ordinal_labels ++ ["indice_calidad_general"; "semaforo_numerico"].

Definition other_than (l : string) (labels : list string) : list string :=
  List.filter (fun l' => negb (String.eqb l' l)) labels.

(** The ordinal code of a category value, if it is one of the four known
    labels. *)
Definition quality_code (c : cell) : option Z :=
  match c with
  | Str s => quality_map !! s
  | _ => None
  end.

(** The codes of the three categories in a row, in the words of the
    specification: one code for every category whose column exists and whose
    value in the row is a known label. *)
Definition present_codes (cols : list string) (r : row) : list Z :=
  flat_map (fun src =>
              match cell_of cols src r with
              | Some c => match quality_code c with
                          | Some code => [code]
                          | None => []
                          end
              | None => []
              end)
           (map fst ordinal_pairs).

(** The general index in the words of the specification: the mean of the
    present codes, rounded to two decimals, in exact arithmetic. *)
Definition mean_of_present_codes (cols : list string) (r : row) : cell :=
  match mean (map inject_Z (present_codes cols r)) with
  | Some m => Num (round2 m)
  | None => NaN
  end.

(** No label of the source starts, once normalised, with [indice_calidad_]. *)
Definition no_index_label (df : frame) : Prop :=
  forall l, In l (columns df) ->
            String.prefix indice_prefix (normalize_name l) = false.

(** No label of the source is, once normalised, a category column or starts
    with [indice_calidad_]. *)
Definition no_quality_column (df : frame) : bool :=
  forallb (fun l =>
             let n := normalize_name l in
             negb (String.eqb n "calidad_dqo") &&
             negb (String.eqb n "calidad_dbo") &&
             negb (String.eqb n "calidad_sst") &&
             negb (String.prefix indice_prefix n))
          (columns df).

(** The number of columns named [semaforo] once the labels are normalised. *)
Definition semaforo_count (df : frame) : nat :=
  count_label (map normalize_name (columns df)) "semaforo".

(** No two rows of the list are equal for [drop_duplicates]. *)
Fixpoint pairwise_distinct (l : list row) : Prop :=
  match l with
  | [] => True
  | r :: l' => Forall (fun r' => row_eqb r' r = false) l' /\ pairwise_distinct l'
  end.

(** ** The database *)

Definition drop_resumen : stmt := DropViewIfExistsCascade resumen_por_estado.

Definition drop_periodo : stmt := DropViewIfExistsCascade calidad_por_periodo.

Definition is_to_sql (s : stmt) : bool :=
  match s with ToSql _ _ _ _ => true | _ => false end.

(** The [to_sql] of lines 142-150 for a frame [f]. *)
Definition replace_table (f : frame) : stmt :=
  ToSql calidad_agua_clean f IfExistsReplace false.

Definition create_resumen : stmt :=
  CreateView resumen_por_estado resumen_por_estado_sql.

(** What the task relies on from the server and from [to_sql]: a
    [to_sql] with [if_exists='replace'] and [index=False] that succeeds
    leaves exactly the frame given in the table (nothing is said of the
    other modes), and a view creation that succeeds records the definition,
    touching neither the other views nor the tables. *)
Record lawful (B : backend) : Prop := Lawful {
  to_sql_replaces :
    forall t f d d',
      run_to_sql B t f IfExistsReplace false d = (d', Ok tt) ->
      stored_table B d' t = Some f;
  create_view_defines :
    forall v body d d',
      run_ddl B (CreateView v body) d = Ok d' ->
      view_definition B d' v = Some body /\
      (forall v', v' <> v -> view_definition B d' v' = view_definition B d v') /\
      (forall t, stored_table B d' t = stored_table B d t)
}.

(** A server of the small model on which the load can run: the task owns
    the views, and no view other than the two of the pipeline depends on
    the table. *)
Definition pg_ready (d : pg_state) : Prop :=
  pg_owner d = true /\
  forall v, v <> resumen_por_estado -> v <> calidad_por_periodo ->
            pg_views d !! v = None.

(** ** Reading

    Every column of the file is typed the same way wherever it is cut: it
    is numeric over the whole file, or none of its fields reads as a
    number. *)
Definition uniform_columns (na : string -> bool) (number : string -> option Q)
    (f : csv_file) : Prop :=
  forall j, (j < length (header f))%nat ->
    numeric_column na number (records f) j = true \/
    (forall rec, In rec (records f) -> number (nth j rec "") = None).

End Notions.

(** ** Concrete runs *)

(** The runtime of the concrete runs: the ASCII string methods and exact
    arithmetic. The labels of these runs are ASCII, and a row of theirs has
    under its index labels at most three whole numbers between 0 and 4,
    whose mean float64 arithmetic rounds to the same two decimals as exact
    arithmetic: on such tables Python and numpy compute what this runtime
    computes. *)
#[export] Instance ascii_runtime : runtime.
Proof.
  refine (Runtime ascii_strip ascii_lower
            (fun qs => (Qsum qs / inject_Z (Z.of_nat (length qs)))%Q) round2
            (fun _ _ => eq_refl) (fun _ _ => eq_refl) _).
  intros ks q _ _ H. destruct (map inject_Z ks) as [|k l]; [discriminate|].
  unfold mean in H. injection H as <-. reflexivity.
Defined.

(** A disk on which nothing fails, and [os.remove] finds its file. *)
#[export] Instance reliable_disk : disk.
Proof.
  refine (Disk (fun p bytes fs => (<[p := bytes]> fs, Ok tt))
               (fun p fs => match fs !! p with
                            | Some _ => (delete p fs, Ok tt)
                            | None => (fs, Raise (FileNotFoundError p))
                            end) _ _ _ _).
  - intros p bytes fs fs' H. now inversion H.
  - intros p bytes fs fs' e q H. inversion H.
  - intros p fs fs'. destruct (fs !! p); intros H; now inversion H.
  - intros p fs fs' e. destruct (fs !! p); intros H; now inversion H.
Defined.

(** A disk without room: every write fails and leaves an empty file. *)
Definition full_disk : disk.
Proof.
  refine (Disk (fun p bytes fs =>
                  (<[p := ""]> fs, Raise (OSError "No space left on device")))
               (fun p fs => match fs !! p with
                            | Some _ => (delete p fs, Ok tt)
                            | None => (fs, Raise (FileNotFoundError p))
                            end) _ _ _ _).
  - intros p bytes fs fs' H. inversion H.
  - intros p bytes fs fs' e q H Hq. inversion H; subst.
    apply lookup_insert_ne. congruence.
  - intros p fs fs'. destruct (fs !! p); intros H; now inversion H.
  - intros p fs fs' e. destruct (fs !! p); intros H; now inversion H.
Defined.

(** ** Concrete inputs *)

(** A small monitoring table: two categories, mixed-case labels with stray
    blanks, a duplicated record, a missing value and two unknown labels. *)
Definition sample : frame :=
  Frame ["Calidad DQO"; " calidad_dbo"; "ESTADO"]
        [[Str "Excelente"; Str "Contaminada"; Str "Ags"];
         [Str "Excelente"; Str "Contaminada"; Str "Ags"];
         [Str "Buena calidad"; NaN; Str "BC"];
         [Str ""; Str "zzz"; NaN]].

(** What the transform writes for [sample]. *)
Definition sample_cleaned : frame :=
  Frame ["calidad_dqo"; "calidad_dbo"; "estado"; "indice_calidad_dqo";
         "indice_calidad_dbo"; "indice_calidad_general"]
        [[Str "Excelente"; Str "Contaminada"; Str "Ags"; Num 1; Num 4; Num (5 # 2)];
         [Str "Buena calidad"; Num 0; Str "BC"; Num 2; NaN; Num 2];
         [Str ""; Str "zzz"; Num 0; NaN; NaN; NaN]].

(** A table whose source carries an index column of its own. *)
Definition supplied : frame :=
  Frame ["calidad_dqo"; "Indice Calidad Campo"]
        [[Str "Excelente"; Num 4]].

(** What the transform writes for [supplied]. *)
Definition supplied_cleaned : frame :=
  Frame ["calidad_dqo"; "indice_calidad_campo"; "indice_calidad_dqo";
         "indice_calidad_general"]
        [[Str "Excelente"; Num 4; Num 1; Num (5 # 2)]].

(** A table whose source carries a column named like the ordinal column
    of a category that is present. *)
Definition overwritten : frame :=
  Frame ["calidad_dqo"; "Indice Calidad DQO"; "Indice Calidad Campo"]
        [[Str "Aceptable"; Num 1; Num 4]].

(** What the transform writes for [overwritten]. *)
Definition overwritten_cleaned : frame :=
  Frame ["calidad_dqo"; "indice_calidad_dqo"; "indice_calidad_campo";
         "indice_calidad_general"]
        [[Str "Aceptable"; Num 3; Num 4; Num (7 # 2)]].

(** A monitoring table with the columns that the two views read. *)
Definition monitoring : frame :=
  Frame ["Estado"; "Periodo"; "Calidad DQO"; "Calidad DBO"; "Semaforo"]
        [[Str "Ags"; Num 2024; Str "Excelente"; Str "Contaminada"; Str "VERDE"];
         [Str "BC"; Num 2024; Str "Buena calidad"; NaN; Str "ROJO"]].

(** What the transform writes for [monitoring]. *)
Definition monitoring_cleaned : frame :=
  Frame ["estado"; "periodo"; "calidad_dqo"; "calidad_dbo"; "semaforo";
         "indice_calidad_dqo"; "indice_calidad_dbo"; "indice_calidad_general";
         "semaforo_numerico"]
        [[Str "Ags"; Num 2024; Str "Excelente"; Str "Contaminada"; Str "VERDE";
          Num 1; Num 4; Num (5 # 2); Num 1];
         [Str "BC"; Num 2024; Str "Buena calidad"; Num 0; Str "ROJO";
          Num 2; NaN; Num 2; Num 3]].

(** The frame has the columns that the two views read. *)
Definition views_fit (df : frame) : bool :=
  forallb (has_column df) (view_columns resumen_por_estado) &&
  forallb (has_column df) (view_columns calidad_por_periodo).

(** A table with two columns that both normalise to [semaforo]. *)
Definition two_semaforos : frame :=
  Frame ["estado"; "semaforo"; "Semaforo"]
        [[Str "Ags"; Str "VERDE"; Str "ROJO"]].

(** A table without any quality column. *)
Definition plain : frame :=
  Frame ["Estado"; "Semaforo"] [[Str "Ags"; Str "VERDE"]; [Str "BC"; NaN]].

(** Two records that differ only in one measurement, missing in the first
    and zero in the second. *)
Definition missing_or_zero : frame :=
  Frame ["sitio"; "dqo_mg_l"; "calidad_dqo"]
        [[Str "DLAGU6"; NaN; Str "Excelente"];
         [Str "DLAGU6"; Num 0; Str "Excelente"]].

(** A raw file that exists and holds no byte. *)
Definition empty_raw : file_system := {[ RAW_FILE := "" ]}.

(** Two raw files of 18 bytes, one of them not a table at all. *)
Definition raw_present : file_system :=
  {[ RAW_FILE := "estado,calidad_dqo" ]}.

Definition raw_garbled : file_system :=
  {[ RAW_FILE := ";;;;not a table;;;" ]}.

(** The table of an earlier load. *)
Definition old_table : frame :=
  Frame ["estado"] [[Str "Ags"]; [Str "BC"]; [Str "Son"]].

(** A server on which the task's user does not own an existing view. *)
Definition pg_locked : pg_state :=
  PgState {[ calidad_agua_clean := old_table ]}
          {[ resumen_por_estado := "SELECT 1" ]}
          false.

(** A server with an older table and older views, owned by the task. *)
Definition pg_before : pg_state :=
  PgState {[ calidad_agua_clean := old_table ]}
          {[ resumen_por_estado := "SELECT 1"; calidad_por_periodo := "SELECT 2" ]}
          true.

Fixpoint replicate (n : nat) (s : string) : string :=
  match n with
  | O => ""
  | S n' => s +:+ replicate n' s
  end.

(** A note of 600 characters. *)
Definition wide_note : string := replicate 50 "sin novedad.".

(** A raw file of more than 5 MiB: 10,000 records whose site key reads
    [01], then one record whose site key is a text. *)
Definition big_file : csv_file :=
  CsvFile ["clave"; "observaciones"]
          (repeat ["01"; wide_note] chunk_size ++ [["abc"; wide_note]]).

(** ** Notions for the further properties *)

(** An ASCII capital letter. *)
Definition is_upper (a : ascii) : bool :=
  let n := nat_of_ascii a in (65 <=? n)%nat && (n <=? 90)%nat.

(** A cell that is not a text: missing or a number. *)
Definition not_text (c : cell) : bool :=
  match c with Str _ => false | _ => true end.

(** A cell that is not missing. *)
Definition not_missing (c : cell) : bool :=
  match c with NaN => false | _ => true end.

(** A label does not start with a whitespace character. *)
Definition starts_clean (l : list ascii) : Prop :=
  match l with
  | a :: _ => is_space a = false
  | [] => True
  end.

(** A label has no whitespace at either end. *)
Definition trimmed (l : list ascii) : Prop :=
  starts_clean l /\ starts_clean (rev l).

(** The traffic-light code in words: 1 for VERDE, 2 for AMARILLO, 3 for
    ROJO, written exactly so; nothing for any other value. *)
Definition semaforo_code (c : cell) : cell :=
  match c with
  | Str s =>
      if String.eqb s "VERDE" then Num 1
      else if String.eqb s "AMARILLO" then Num 2
      else if String.eqb s "ROJO" then Num 3
      else NaN
  | _ => NaN
  end.

(** What the transform writes for [plain]. *)
Definition plain_cleaned : frame :=
  Frame ["estado"; "semaforo"; "semaforo_numerico"]
        [[Str "Ags"; Str "VERDE"; Num 1]; [Str "BC"; Num 0; NaN]].

(** The labels read with [df[label].map(...)]: the three category columns
    and the traffic-light column. *)
Definition mapped_sources : list string := map fst ordinal_pairs ++ ["semaforo"].

(** The label occurs at most once in the header. *)
Definition unique_in (cols : list string) (l : string) : bool :=
  (count_label cols l <=? 1)%nat.

(** The header fits the transform: each of the four labels that are mapped,
    and every label with the prefix [indice_calidad_], occurs at most
    once. *)
Definition labels_fit (cols : list string) : bool :=
  forallb (unique_in cols) mapped_sources &&
  forallb (unique_in cols) (List.filter (String.prefix indice_prefix) cols).

(** An ordinal label whose category column is in the header: the transform
    assigns this column, over whatever the source holds under the label. *)
Definition assigned_ordinal (cols : list string) (l : string) : bool :=
  existsb (fun p => String.eqb l (snd p) && existsb (String.eqb (fst p)) cols)
          ordinal_pairs.

(** The row holds no text under a label with the prefix [indice_calidad_],
    the ordinal labels that the transform assigns apart. *)
Definition index_text_free (cols : list string) (r : row) : bool :=
  forallb (fun l => assigned_ordinal cols l ||
                    forallb not_text (cells_at cols l r))
          (List.filter (String.prefix indice_prefix) cols).

(** The statements of a load that ends normally. *)
Definition load_statements (now : cell) (df : frame) : list stmt :=
  [SelectVersion; drop_resumen; drop_periodo;
   ToSql calidad_agua_clean (with_fecha_carga now df) IfExistsReplace false;
   CreateView resumen_por_estado resumen_por_estado_sql;
   CreateView calidad_por_periodo calidad_por_periodo_sql;
   SelectCount calidad_agua_clean] ++
  (if has_column df "semaforo" then [SelectSemaforoStats calidad_agua_clean] else []).

Definition is_create_view (s : stmt) : bool :=
  match s with CreateView _ _ => true | _ => false end.



(** Stand-ins for pandas' readers and writers in concrete runs: a reader
    that finds the same table in every file, and writers that keep the
    header only. *)
Definition reads_always (df : frame) (bytes : string) : result frame := Ok df.

Definition reads_always_chunked (df : frame) (n : nat) (bytes : string) :
    result frame := Ok df.

Definition writes_header (df : frame) : string := String.concat "," (columns df).

Definition writes_parquet (df : frame) : result string :=
  Ok ("PAR1" +:+ writes_header df).

(** One record of [sample], under the header as a second file spells it. *)
Definition sample_one : frame :=
  Frame ["calidad_dqo"; "Calidad_DBO "; "estado"]
        [[Str "Buena calidad"; NaN; Str "BC"]].

(** A raw file of one record. *)
Definition small_file : csv_file := CsvFile ["clave"; "estado"] [["01"; "Ags"]].

(** What the transform writes for [sample_one]. *)
Definition sample_one_cleaned : frame :=
  Frame (columns sample_cleaned)
        [[Str "Buena calidad"; Num 0; Str "BC"; Num 2; NaN; Num 2]].

(** * Properties *)

Section WithRuntime.

Context {rt : runtime}.

(** ** Lists of rows *)

Lemma zip_rows_map f (g : row -> cell) rs :
  zip_rows f (map g rs) rs = map (fun r => f (g r) r) rs.
Proof. induction rs as [|r rs IH]; simpl; [reflexivity | now rewrite IH]. Qed.

Lemma zip_rows_length f s rs :
  length s = length rs -> length (zip_rows f s rs) = length rs.
Proof.
  revert rs. induction s as [|x s IH]; intros [|y rs]; simpl; try discriminate; auto.
Qed.

(** ** Cells under a label, before and after an assignment *)

Lemma eqb_sym_false (a b : string) : a <> b -> String.eqb a b = false.
Proof. intros H. now apply String.eqb_neq. Qed.

Lemma cells_at_overwrite_same cols l v r :
  length r = length cols ->
  cells_at cols l (overwrite cols l v r) = repeat v (count_label cols l).
Proof.
  unfold count_label. revert r.
  induction cols as [|c cols IH]; intros [|x r]; simpl; try discriminate; auto.
  intros H. injection H as H.
  destruct (String.eqb l c); simpl; now rewrite IH.
Qed.

Lemma cells_at_overwrite_other cols l l' v r :
  l' <> l ->
  cells_at cols l' (overwrite cols l v r) = cells_at cols l' r.
Proof.
  intros Hne. revert r.
  induction cols as [|c cols IH]; intros [|x r]; simpl; auto.
  destruct (String.eqb l' c) eqn:E1.
  - apply String.eqb_eq in E1; subst c.
    rewrite (eqb_sym_false l l') by (intros E; now subst). now rewrite IH.
  - apply IH.
Qed.

Lemma length_overwrite cols l v r : length (overwrite cols l v r) = length r.
Proof.
  revert r. induction cols as [|c cols IH]; intros [|x r]; simpl; auto.
Qed.

Lemma cells_at_app cols l r c x :
  length r = length cols ->
  cells_at (cols ++ [c]) l (r ++ [x]) =
  cells_at cols l r ++ (if String.eqb l c then [x] else []).
Proof.
  revert r. induction cols as [|c' cols IH]; intros [|y r]; simpl; try discriminate.
  - intros _. destruct (String.eqb l c); reflexivity.
  - intros H. injection H as H. rewrite IH by assumption.
    destruct (String.eqb l c'); reflexivity.
Qed.

Lemma cells_at_absent cols l r :
  existsb (String.eqb l) cols = false -> cells_at cols l r = [].
Proof.
  revert r. induction cols as [|c cols IH]; intros [|x r]; simpl; auto.
  intros H. apply orb_false_iff in H as [H1 H2]. rewrite H1. now apply IH.
Qed.

Lemma cells_at_set_cell_other cols l l' v r :
  length r = length cols -> l' <> l ->
  cells_at (new_columns cols l) l' (set_cell cols l v r) = cells_at cols l' r.
Proof.
  intros Hlen Hne. unfold new_columns, set_cell.
  destruct (existsb (String.eqb l) cols).
  - now apply cells_at_overwrite_other.
  - rewrite cells_at_app by assumption.
    rewrite (eqb_sym_false l' l) by assumption. apply app_nil_r.
Qed.

Lemma cells_at_set_cell_same cols l v r :
  length r = length cols ->
  cells_at (new_columns cols l) l (set_cell cols l v r) =
  repeat v (Nat.max 1 (count_label cols l)).
Proof.
  intros Hlen. unfold new_columns, set_cell.
  destruct (existsb (String.eqb l) cols) eqn:E.
  - rewrite cells_at_overwrite_same by assumption.
    f_equal. unfold count_label.
    apply existsb_exists in E as (c & Hin & Hc).
    assert (In c (List.filter (String.eqb l) cols)) as Hf
      by (apply filter_In; auto).
    destruct (List.filter (String.eqb l) cols); [destruct Hf | simpl; lia].
  - rewrite cells_at_app by assumption.
    rewrite cells_at_absent by assumption.
    rewrite String.eqb_refl. simpl.
    unfold count_label.
    assert (List.filter (String.eqb l) cols = []) as ->; [|reflexivity].
    clear -E. induction cols as [|c cols IH]; simpl in *; auto.
    apply orb_false_iff in E as [-> E2]. auto.
Qed.

Lemma length_set_cell cols l v r :
  length r = length cols ->
  length (set_cell cols l v r) = length (new_columns cols l).
Proof.
  intros H. unfold set_cell, new_columns.
  destruct (existsb (String.eqb l) cols).
  - now rewrite length_overwrite.
  - rewrite !length_app. simpl. lia.
Qed.

(** ** One assignment step *)

Lemma step_rectangular l f active df df' :
  step l f active df df' -> rectangular df -> rectangular df'.
Proof.
  intros [Hc Hr] Hrect. unfold rectangular in *. rewrite Hr, Hc.
  apply List.Forall_map. eapply List.Forall_impl; [|exact Hrect].
  intros r Hlen. simpl in *. unfold step_row. destruct active; [|assumption].
  now apply length_set_cell.
Qed.

Lemma step_length l f active df df' :
  step l f active df df' -> length (rows df') = length (rows df).
Proof. intros [_ Hr]. rewrite Hr. apply length_map. Qed.

Lemma step_lookup l f active df df' i :
  step l f active df df' ->
  rows df' !! i = step_row (columns df) l f active <$> rows df !! i.
Proof. intros [_ Hr]. rewrite Hr. apply list_lookup_fmap. Qed.

Lemma step_other l f active df df' r l' :
  step l f active df df' -> length r = length (columns df) -> l' <> l ->
  cells_at (columns df') l' (step_row (columns df) l f active r) =
  cells_at (columns df) l' r.
Proof.
  intros [Hc _] Hlen Hne. rewrite Hc. unfold step_row.
  destruct active; [|reflexivity]. now apply cells_at_set_cell_other.
Qed.

Lemma step_same l f df df' r :
  step l f true df df' -> length r = length (columns df) ->
  cells_at (columns df') l (step_row (columns df) l f true r) =
  repeat (f r) (Nat.max 1 (count_label (columns df) l)).
Proof.
  intros [Hc _] Hlen. rewrite Hc. unfold step_row.
  now apply cells_at_set_cell_same.
Qed.

Lemma step_row_length l f active df df' r :
  step l f active df df' -> length r = length (columns df) ->
  length (step_row (columns df) l f active r) = length (columns df').
Proof.
  intros [Hc _] Hlen. rewrite Hc. unfold step_row.
  destruct active; [|assumption]. now apply length_set_cell.
Qed.

Lemma add_mapped_step d src dst df df' :
  add_mapped d src dst df = Ok df' ->
  step dst (mapped_cell d (columns df) src) (has_column df src) df df' /\
  (has_column df src = true -> count_label (columns df) src = 1%nat).
Proof.
  unfold add_mapped, get_series.
  destruct (has_column df src) eqn:Hhas.
  - destruct (Nat.eqb_spec (count_label (columns df) src) 1) as [Hc|Hc];
      [|discriminate].
    intros H. inversion H; subst. split; [|auto].
    split; simpl; [reflexivity|].
    unfold series_map. rewrite map_map.
    apply (zip_rows_map (set_cell (columns df) dst)
             (mapped_cell d (columns df) src)).
  - intros H. inversion H; subst. split; [|discriminate].
    split; simpl; [reflexivity|]. symmetry. apply map_id.
Qed.

Lemma add_mapped_ok d src dst df :
  is_ok (add_mapped d src dst df) =
  negb (has_column df src) || (count_label (columns df) src =? 1)%nat.
Proof.
  unfold add_mapped, get_series.
  destruct (has_column df src); simpl; [|reflexivity].
  destruct (count_label (columns df) src =? 1)%nat; reflexivity.
Qed.

Lemma mapM_map_default {A B} (f : A -> result B) (g : A -> B) l bs :
  (forall a b, f a = Ok b -> g a = b) ->
  mapM f l = Ok bs -> bs = map g l /\ Forall (fun a => is_ok (f a) = true) l.
Proof.
  intros Hfg. revert bs. induction l as [|a l IH]; simpl; intros bs H.
  - inversion H. auto.
  - destruct (f a) as [b|] eqn:Ha; [|discriminate].
    destruct (mapM f l) as [bs'|]; [|discriminate].
    inversion H; subst. destruct (IH _ eq_refl) as [-> HF].
    rewrite (Hfg _ _ Ha). split; [reflexivity|].
    constructor; [now rewrite Ha | assumption].
Qed.

Lemma add_general_step df df' :
  add_general df = Ok df' ->
  step "indice_calidad_general"
       (general_cell (columns df) (indice_columns df))
       (nonempty (indice_columns df)) df df' /\
  (nonempty (indice_columns df) = true ->
   Forall (fun r => is_ok (row_mean (select_row (columns df) (indice_columns df) r)) = true)
          (rows df)).
Proof.
  unfold add_general, mean_axis1_round2.
  destruct (indice_columns df) as [|l ls] eqn:Hl.
  - intros H. inversion H; subst. split; [|discriminate].
    split; simpl; [reflexivity|]. symmetry. apply map_id.
  - set (labels := l :: ls).
    set (f := fun r => match row_mean (select_row (columns df) labels r) with
                       | Ok o => Ok (round_cell o)
                       | Raise e => Raise e
                       end).
    destruct (mapM f (rows df)) as [s|] eqn:Hs; [|discriminate].
    intros H. inversion H; subst.
    assert (forall a b, f a = Ok b -> general_cell (columns df) labels a = b) as Hfg.
    { intros a b. unfold f, general_cell.
      destruct (row_mean _); [|discriminate]. now intros [= <-]. }
    destruct (mapM_map_default f _ _ _ Hfg Hs) as [-> HF].
    split.
    + split; simpl; [reflexivity|].
      apply (zip_rows_map (set_cell (columns df) "indice_calidad_general")).
    + intros _. eapply List.Forall_impl; [|exact HF].
      intros r. unfold f. simpl. now destruct (row_mean _).
Qed.

(** ** The cleaning steps *)

Lemma drop_duplicates_from_incl seen rs r :
  In r (drop_duplicates_from seen rs) -> In r rs.
Proof.
  revert seen. induction rs as [|x rs IH]; simpl; intros seen H; [assumption|].
  destruct (existsb (row_eqb x) seen).
  - right. eapply IH; eauto.
  - destruct H as [H|H]; [now left | right; eapply IH; eauto].
Qed.

Lemma columns_clean df : columns (clean df) = map normalize_name (columns df).
Proof. reflexivity. Qed.

Lemma rows_clean df :
  rows (clean df) =
  map (map (fill_cell (Num 0))) (drop_duplicates_from [] (rows df)).
Proof. reflexivity. Qed.

Lemma clean_rectangular df : rectangular df -> rectangular (clean df).
Proof.
  unfold rectangular. rewrite rows_clean, columns_clean. intros H.
  apply List.Forall_map. apply List.Forall_forall. intros r Hr.
  rewrite !length_map.
  apply drop_duplicates_from_incl in Hr.
  now apply (proj1 (List.Forall_forall _ _) H).
Qed.

(** ** The summary *)

Lemma summary_unique df labels l :
  summary df labels = Ok tt -> In l labels -> has_column df l = true ->
  count_label (columns df) l = 1%nat.
Proof.
  induction labels as [|c labels IH]; simpl; intros H Hin Hhas; [destruct Hin|].
  destruct (has_column df c) eqn:Hc; simpl in H.
  - destruct (Nat.eqb_spec (count_label (columns df) c) 1) as [E|E];
      simpl in H; [|discriminate].
    destruct Hin as [->|Hin]; auto.
  - destruct Hin as [->|Hin]; [congruence | auto].
Qed.

(** ** The stages of a successful transform *)

Lemma transform_stages df out :
  transform_quality_data df = Ok out ->
  exists mid, add_indices (clean df) = Ok mid /\ stages df mid out.
Proof.
  unfold transform_quality_data, add_indices, rbind.
  destruct (add_mapped quality_map "calidad_dqo" _ (clean df)) as [m1|] eqn:H1;
    [|discriminate].
  destruct (add_mapped quality_map "calidad_dbo" _ m1) as [m2|] eqn:H2;
    [|discriminate].
  destruct (add_mapped quality_map "calidad_sst" _ m2) as [mid|] eqn:H3;
    [|discriminate].
  destruct (add_general mid) as [gen|] eqn:H4; [|discriminate].
  destruct (add_semaforo gen) as [o|] eqn:H5; [|discriminate].
  destruct (summary o _) as [[]|] eqn:H6; [|discriminate].
  intros H. inversion H; subst o.
  exists mid. split; [reflexivity|].
  exact (Stages df mid out m1 m2 gen H1 H2 H3 H4 H5 H6).
Qed.

End WithRuntime.

(** Opens a proof of [stages]: the intermediate frames [m1], [m2], [gen]
    and one [step] per stage. *)
Ltac open_stages Hst :=
  destruct Hst as [m1 m2 gen Hdqo Hdbo Hsst Hgen Hsem Hsum];
  apply add_mapped_step in Hdqo as [S1 U1];
  apply add_mapped_step in Hdbo as [S2 U2];
  apply add_mapped_step in Hsst as [S3 U3];
  apply add_general_step in Hgen as [S4 F4];
  apply add_mapped_step in Hsem as [S5 U5].

Section WithRuntime.

Context {rt : runtime}.

Lemma transform_cleaned df out :
  transform_quality_data df = Ok out -> cleaned df = Ok out.
Proof.
  unfold transform_quality_data, cleaned, rbind.
  destruct (add_indices (clean df)) as [mid|]; [|discriminate].
  destruct (add_general mid) as [gen|]; [|discriminate].
  destruct (add_semaforo gen) as [o|]; [|discriminate].
  destruct (summary o _); [|discriminate]. now intros [= <-].
Qed.

(** ** Labels across a step *)

Lemma count_label_app cols cols' l :
  count_label (cols ++ cols') l = (count_label cols l + count_label cols' l)%nat.
Proof. unfold count_label. now rewrite List.filter_app, length_app. Qed.

Lemma count_label_new_other cols l l' :
  l' <> l -> count_label (new_columns cols l) l' = count_label cols l'.
Proof.
  intros Hne. unfold new_columns.
  destruct (existsb (String.eqb l) cols); [reflexivity|].
  rewrite count_label_app. unfold count_label at 2. simpl.
  rewrite (eqb_sym_false l' l) by assumption. simpl. lia.
Qed.

Lemma has_column_count df l :
  has_column df l = negb (count_label (columns df) l =? 0)%nat.
Proof.
  unfold has_column, count_label.
  induction (columns df) as [|c cols IH]; simpl; [reflexivity|].
  destruct (String.eqb l c); simpl; [reflexivity | exact IH].
Qed.

Lemma step_count_other l f active df df' l' :
  step l f active df df' -> l' <> l ->
  count_label (columns df') l' = count_label (columns df) l'.
Proof.
  intros [Hc _] Hne. rewrite Hc. destruct active; [|reflexivity].
  now apply count_label_new_other.
Qed.

Lemma step_has_other l f active df df' l' :
  step l f active df df' -> l' <> l ->
  has_column df' l' = has_column df l'.
Proof.
  intros Hs Hne. rewrite !has_column_count.
  now rewrite (step_count_other _ _ _ _ _ _ Hs Hne).
Qed.

Lemma count_label_new_same cols l :
  count_label (new_columns cols l) l = Nat.max 1 (count_label cols l).
Proof.
  unfold new_columns.
  destruct (existsb (String.eqb l) cols) eqn:E.
  - pose proof (has_column_count (Frame cols []) l) as H.
    unfold has_column in H. simpl in H. rewrite E in H.
    destruct (count_label cols l); [discriminate | simpl; lia].
  - pose proof (has_column_count (Frame cols []) l) as H.
    unfold has_column in H. simpl in H. rewrite E in H.
    rewrite count_label_app. unfold count_label at 2. simpl.
    rewrite String.eqb_refl. simpl.
    destruct (count_label cols l); [reflexivity | discriminate].
Qed.

Lemma step_count_same l f df df' :
  step l f true df df' ->
  count_label (columns df') l = Nat.max 1 (count_label (columns df) l).
Proof. intros [Hc _]. rewrite Hc. apply count_label_new_same. Qed.

Lemma step_columns_grow l f active df df' :
  step l f active df df' ->
  exists extra, columns df' = columns df ++ extra.
Proof.
  intros [Hc _]. rewrite Hc. unfold new_columns.
  destruct active; [|exists []; now rewrite app_nil_r].
  destruct (existsb _ _); [exists []; now rewrite app_nil_r | eauto].
Qed.

(** ** A row followed through the transform *)

Lemma mapped_cell_ext d cols cols' src r r' :
  cells_at cols' src r' = cells_at cols src r ->
  mapped_cell d cols' src r' = mapped_cell d cols src r.
Proof. unfold mapped_cell. now intros ->. Qed.

Lemma cells_at_length cols l r :
  length r = length cols -> length (cells_at cols l r) = count_label cols l.
Proof.
  unfold count_label. revert r.
  induction cols as [|c cols IH]; intros [|x r]; simpl; try discriminate; auto.
  intros H. injection H as H. destruct (String.eqb l c); simpl; auto.
Qed.

(** From the cleaned frame to the frame with the ordinal columns. *)
Lemma indices_row df mid out i r0 :
  rectangular df -> stages df mid out ->
  rows (clean df) !! i = Some r0 ->
  exists r3,
    rows mid !! i = Some r3 /\
    length r3 = length (columns mid) /\
    (forall l, ~ In l ordinal_labels ->
       cells_at (columns mid) l r3 = cells_at (columns (clean df)) l r0) /\
    (forall src dst, In (src, dst) ordinal_pairs ->
       has_column (clean df) src = true ->
       cells_at (columns mid) dst r3 =
       repeat (mapped_cell quality_map (columns (clean df)) src r0)
              (count_label (columns mid) dst)).
Proof.
  intros Hrect Hst Hi. open_stages Hst.
  apply clean_rectangular in Hrect.
  assert (length r0 = length (columns (clean df))) as L0.
  { eapply (proj1 (List.Forall_forall _ _) Hrect).
    eapply list_elem_of_In, list_elem_of_lookup_2; eauto. }
  set (c := clean df) in *.
  set (r1 := step_row (columns c) "indice_calidad_dqo"
               (mapped_cell quality_map (columns c) "calidad_dqo")
               (has_column c "calidad_dqo") r0).
  set (r2 := step_row (columns m1) "indice_calidad_dbo"
               (mapped_cell quality_map (columns m1) "calidad_dbo")
               (has_column m1 "calidad_dbo") r1).
  set (r3 := step_row (columns m2) "indice_calidad_sst"
               (mapped_cell quality_map (columns m2) "calidad_sst")
               (has_column m2 "calidad_sst") r2).
  assert (length r1 = length (columns m1)) as L1
    by (eapply step_row_length; eauto).
  assert (length r2 = length (columns m2)) as L2
    by (eapply step_row_length; eauto).
  assert (length r3 = length (columns mid)) as L3
    by (eapply step_row_length; eauto).
  assert (forall l, l <> "indice_calidad_dqo" ->
            cells_at (columns m1) l r1 = cells_at (columns c) l r0) as P1
    by (intros; eapply step_other; eauto).
  assert (forall l, l <> "indice_calidad_dbo" ->
            cells_at (columns m2) l r2 = cells_at (columns m1) l r1) as P2
    by (intros; eapply step_other; eauto).
  assert (forall l, l <> "indice_calidad_sst" ->
            cells_at (columns mid) l r3 = cells_at (columns m2) l r2) as P3
    by (intros; eapply step_other; eauto).
  exists r3. split; [|split; [exact L3|split]].
  - rewrite (step_lookup _ _ _ _ _ i S3), (step_lookup _ _ _ _ _ i S2),
      (step_lookup _ _ _ _ _ i S1), Hi. reflexivity.
  - intros l Hl. simpl in Hl.
    rewrite P3, P2, P1; auto; intros ->; apply Hl; auto.
  - intros src dst Hin Hhas. simpl in Hin.
    destruct Hin as [E|[E|[E|[]]]]; inversion E; subst src dst; clear E.
    + rewrite P3, P2 by discriminate.
      rewrite (step_count_other _ _ _ _ _ _ S3), (step_count_other _ _ _ _ _ _ S2)
        by discriminate.
      fold c in Hhas. subst r1. rewrite Hhas in *.
      rewrite (step_same _ _ _ _ _ S1 L0), (step_count_same _ _ _ _ S1).
      reflexivity.
    + rewrite P3 by discriminate.
      rewrite (step_count_other _ _ _ _ _ _ S3) by discriminate.
      assert (has_column m1 "calidad_dbo" = true) as Hh.
      { rewrite (step_has_other _ _ _ _ _ _ S1); [exact Hhas | discriminate]. }
      subst r2. rewrite Hh in *.
      rewrite (step_same _ _ _ _ _ S2 L1), (step_count_same _ _ _ _ S2).
      f_equal. apply mapped_cell_ext. apply P1. discriminate.
    + assert (has_column m2 "calidad_sst" = true) as Hh.
      { rewrite (step_has_other _ _ _ _ _ _ S2), (step_has_other _ _ _ _ _ _ S1);
          [exact Hhas | discriminate | discriminate]. }
      subst r3. rewrite Hh in *.
      rewrite (step_same _ _ _ _ _ S3 L2), (step_count_same _ _ _ _ S3).
      f_equal. apply mapped_cell_ext. rewrite P2, P1; [reflexivity | |]; discriminate.
Qed.

(** From the frame with the ordinal columns to the table written. *)
Lemma general_row df mid out i r3 :
  stages df mid out ->
  rows mid !! i = Some r3 ->
  length r3 = length (columns mid) ->
  exists r5,
    rows out !! i = Some r5 /\
    length r5 = length (columns out) /\
    (forall l, l <> "indice_calidad_general" -> l <> "semaforo_numerico" ->
       cells_at (columns out) l r5 = cells_at (columns mid) l r3) /\
    (nonempty (indice_columns mid) = true ->
       cells_at (columns out) "indice_calidad_general" r5 =
       repeat (general_cell (columns mid) (indice_columns mid) r3)
              (count_label (columns out) "indice_calidad_general") /\
       is_ok (row_mean (select_row (columns mid) (indice_columns mid) r3)) = true).
Proof.
  intros Hst Hi L3. open_stages Hst.
  set (r4 := step_row (columns mid) "indice_calidad_general"
               (general_cell (columns mid) (indice_columns mid))
               (nonempty (indice_columns mid)) r3).
  set (r5 := step_row (columns gen) "semaforo_numerico"
               (mapped_cell semaforo_map (columns gen) "semaforo")
               (has_column gen "semaforo") r4).
  assert (length r4 = length (columns gen)) as L4
    by (eapply step_row_length; eauto).
  assert (length r5 = length (columns out)) as L5
    by (eapply step_row_length; eauto).
  exists r5. split; [|split; [exact L5|split]].
  - rewrite (step_lookup _ _ _ _ _ i S5), (step_lookup _ _ _ _ _ i S4), Hi.
    reflexivity.
  - intros l Hg Hs. subst r5.
    rewrite (step_other _ _ _ _ _ _ _ S5 L4 Hs). subst r4.
    now rewrite (step_other _ _ _ _ _ _ _ S4 L3 Hg).
  - intros Hne. split.
    + subst r5. rewrite (step_other _ _ _ _ _ _ _ S5 L4) by discriminate.
      rewrite (step_count_other _ _ _ _ _ _ S5) by discriminate.
      subst r4. rewrite Hne in *.
      now rewrite (step_same _ _ _ _ _ S4 L3), (step_count_same _ _ _ _ S4).
    + specialize (F4 Hne).
      eapply (proj1 (List.Forall_forall _ _) F4).
      eapply list_elem_of_In, list_elem_of_lookup_2; eauto.
Qed.

Lemma stages_counts df mid out :
  stages df mid out ->
  (forall l, ~ In l ordinal_labels ->
     count_label (columns mid) l = count_label (columns (clean df)) l) /\
  (forall l, l <> "indice_calidad_general" -> l <> "semaforo_numerico" ->
     count_label (columns out) l = count_label (columns mid) l) /\
  (forall src dst, In (src, dst) ordinal_pairs ->
     if has_column (clean df) src
     then count_label (columns (clean df)) src = 1%nat /\
          count_label (columns mid) dst =
          Nat.max 1 (count_label (columns (clean df)) dst)
     else count_label (columns mid) dst = count_label (columns (clean df)) dst) /\
  (if nonempty (indice_columns mid)
   then (1 <= count_label (columns out) "indice_calidad_general")%nat
   else count_label (columns out) "indice_calidad_general" =
        count_label (columns mid) "indice_calidad_general").
Proof.
  intros Hst. open_stages Hst.
  repeat split.
  - intros l Hl. simpl in Hl.
    rewrite (step_count_other _ _ _ _ _ _ S3), (step_count_other _ _ _ _ _ _ S2),
      (step_count_other _ _ _ _ _ _ S1); auto; intros ->; apply Hl; auto.
  - intros l Hg Hs.
    now rewrite (step_count_other _ _ _ _ _ _ S5 Hs), (step_count_other _ _ _ _ _ _ S4 Hg).
  - intros src dst Hin. simpl in Hin.
    destruct Hin as [E|[E|[E|[]]]]; inversion E; subst src dst; clear E.
    + rewrite (step_count_other _ _ _ _ _ _ S3), (step_count_other _ _ _ _ _ _ S2)
        by discriminate.
      destruct (has_column (clean df) "calidad_dqo") eqn:Hh.
      * split; [now apply U1 | now apply (step_count_same _ _ _ _ S1)].
      * destruct S1 as [-> _]. reflexivity.
    + rewrite (step_count_other _ _ _ _ _ _ S3) by discriminate.
      pose proof (step_has_other _ _ _ _ _ "calidad_dbo" S1) as Hh1.
      pose proof (step_count_other _ _ _ _ _ "calidad_dbo" S1) as Hc1.
      pose proof (step_count_other _ _ _ _ _ "indice_calidad_dbo" S1) as Hd1.
      rewrite <- Hh1, <- Hc1, <- Hd1 by discriminate.
      destruct (has_column m1 "calidad_dbo") eqn:Hh.
      * split; [now apply U2 | now apply (step_count_same _ _ _ _ S2)].
      * destruct S2 as [-> _]. reflexivity.
    + pose proof (step_has_other _ _ _ _ _ "calidad_sst" S1) as Hh1.
      pose proof (step_count_other _ _ _ _ _ "calidad_sst" S1) as Hc1.
      pose proof (step_count_other _ _ _ _ _ "indice_calidad_sst" S1) as Hd1.
      pose proof (step_has_other _ _ _ _ _ "calidad_sst" S2) as Hh2.
      pose proof (step_count_other _ _ _ _ _ "calidad_sst" S2) as Hc2.
      pose proof (step_count_other _ _ _ _ _ "indice_calidad_sst" S2) as Hd2.
      rewrite <- Hh1, <- Hc1, <- Hd1, <- Hh2, <- Hc2, <- Hd2 by discriminate.
      destruct (has_column m2 "calidad_sst") eqn:Hh.
      * split; [now apply U3 | now apply (step_count_same _ _ _ _ S3)].
      * destruct S3 as [-> _]. reflexivity.
  - rewrite (step_count_other _ _ _ _ _ _ S5) by discriminate.
    destruct (nonempty (indice_columns mid)) eqn:Hne.
    + rewrite (step_count_same _ _ _ _ S4). lia.
    + destruct S4 as [-> _]. reflexivity.
Qed.

(** ** Membership of labels *)

Lemma has_column_In df l : has_column df l = true <-> In l (columns df).
Proof.
  unfold has_column. rewrite existsb_exists. split.
  - intros (c & Hin & Hc). apply String.eqb_eq in Hc. now subst.
  - intros Hin. exists l. split; [assumption | apply String.eqb_refl].
Qed.

Lemma has_column_positive df l :
  has_column df l = true <-> (1 <= count_label (columns df) l)%nat.
Proof.
  rewrite has_column_count.
  destruct (count_label (columns df) l); simpl; split; intros;
    auto; try lia; discriminate.
Qed.

Lemma indice_columns_In df l :
  In l (indice_columns df) <->
  In l (columns df) /\ String.prefix indice_prefix l = true.
Proof. unfold indice_columns. apply List.filter_In. Qed.

(** ** Missing values and the mean *)

Lemma numeric_values_app a b :
  numeric_values (a ++ b) =
  match numeric_values a, numeric_values b with
  | Ok qa, Ok qb => Ok (qa ++ qb)
  | Raise e, _ => Raise e
  | _, Raise e => Raise e
  end.
Proof.
  induction a as [|[|q|s] a IH]; simpl.
  - now destruct (numeric_values b).
  - exact IH.
  - rewrite IH. destruct (numeric_values a); [|reflexivity].
    now destruct (numeric_values b).
  - reflexivity.
Qed.

Lemma numeric_values_missing k : numeric_values (repeat NaN k) = Ok [].
Proof. induction k; simpl; auto. Qed.

Lemma numeric_values_skip cols dst r k labels :
  cells_at cols dst r = repeat NaN k ->
  numeric_values (select_row cols labels r) =
  numeric_values (select_row cols (other_than dst labels) r).
Proof.
  intros Hdst. unfold select_row, other_than.
  induction labels as [|l labels IH]; simpl; [reflexivity|].
  destruct (String.eqb_spec l dst) as [->|Hne]; simpl.
  - rewrite numeric_values_app, Hdst, numeric_values_missing, IH.
    destruct (numeric_values (flat_map _ (List.filter _ _))); reflexivity.
  - rewrite !numeric_values_app, IH. reflexivity.
Qed.

Lemma general_cell_skip cols dst r k labels :
  cells_at cols dst r = repeat NaN k ->
  general_cell cols labels r = general_cell cols (other_than dst labels) r.
Proof.
  intros H. unfold general_cell, row_mean.
  now rewrite (numeric_values_skip _ _ _ _ labels H).
Qed.

(** ** The ordinal code of a category value *)

Lemma map_cell_quality c :
  map_cell quality_map c =
  match quality_code c with
  | Some code => Num (inject_Z code)
  | None => NaN
  end.
Proof. destruct c; reflexivity. Qed.

Lemma cell_of_cells cols l r c :
  cell_of cols l r = Some c <-> cells_at cols l r = [c].
Proof.
  unfold cell_of. destruct (cells_at cols l r) as [|x [|y t]]; split;
    intros H; inversion H; reflexivity.
Qed.

Lemma rows_at_clean df mid out i r5 :
  stages df mid out -> rows out !! i = Some r5 ->
  exists r0, rows (clean df) !! i = Some r0.
Proof.
  intros Hst Hi. open_stages Hst.
  apply lookup_lt_Some in Hi.
  rewrite (step_length _ _ _ _ _ S5), (step_length _ _ _ _ _ S4),
    (step_length _ _ _ _ _ S3), (step_length _ _ _ _ _ S2),
    (step_length _ _ _ _ _ S1) in Hi.
  apply lookup_lt_is_Some_2 in Hi as [r0 Hr0]. eauto.
Qed.

(** A row of the output with the rows it comes from. *)
Lemma row_history df mid out i r5 :
  rectangular df -> stages df mid out -> rows out !! i = Some r5 ->
  exists r0 r3,
    rows (clean df) !! i = Some r0 /\ rows mid !! i = Some r3 /\
    length r3 = length (columns mid) /\
    length r5 = length (columns out) /\
    (forall l, ~ In l ordinal_labels ->
       cells_at (columns mid) l r3 = cells_at (columns (clean df)) l r0) /\
    (forall src dst, In (src, dst) ordinal_pairs ->
       has_column (clean df) src = true ->
       cells_at (columns mid) dst r3 =
       repeat (mapped_cell quality_map (columns (clean df)) src r0)
              (count_label (columns mid) dst)) /\
    (forall l, l <> "indice_calidad_general" -> l <> "semaforo_numerico" ->
       cells_at (columns out) l r5 = cells_at (columns mid) l r3) /\
    (nonempty (indice_columns mid) = true ->
       cells_at (columns out) "indice_calidad_general" r5 =
       repeat (general_cell (columns mid) (indice_columns mid) r3)
              (count_label (columns out) "indice_calidad_general") /\
       is_ok (row_mean (select_row (columns mid) (indice_columns mid) r3)) = true).
Proof.
  intros Hrect Hst Hi.
  destruct (rows_at_clean _ _ _ _ _ Hst Hi) as [r0 Hr0].
  destruct (indices_row _ _ _ _ _ Hrect Hst Hr0) as (r3 & Hr3 & L3 & P & D).
  destruct (general_row _ _ _ _ _ Hst Hr3 L3) as (r5' & Hr5 & L5 & P' & G).
  rewrite Hi in Hr5. inversion Hr5; subst r5'.
  exists r0, r3. repeat split; auto; now apply G.
Qed.

Lemma ordinal_pair_labels src dst :
  In (src, dst) ordinal_pairs ->
  ~ In src ordinal_labels /\ src <> "indice_calidad_general" /\
  src <> "semaforo_numerico" /\
  In dst ordinal_labels /\ dst <> "indice_calidad_general" /\
  dst <> "semaforo_numerico" /\ String.prefix indice_prefix dst = true.
Proof.
  simpl. intros [E|[E|[E|[]]]]; inversion E; subst; clear E;
    repeat split; try discriminate; simpl; auto;
    intros [H|[H|[H|[]]]]; discriminate.
Qed.

(** The ordinal column of a present category holds, in every row, the code
    of the category value of that row. *)
Lemma ordinal_cell df mid out i r5 src dst c :
  rectangular df -> stages df mid out ->
  In (src, dst) ordinal_pairs ->
  rows out !! i = Some r5 ->
  cell_of (columns out) src r5 = Some c ->
  cell_of (columns out) dst r5 = Some (map_cell quality_map c) /\
  In dst (indice_columns mid) /\
  exists r3, rows mid !! i = Some r3 /\
             cells_at (columns mid) dst r3 = [map_cell quality_map c].
Proof.
  intros Hrect Hst Hin Hi Hc.
  destruct (row_history _ _ _ _ _ Hrect Hst Hi)
    as (r0 & r3 & Hr0 & Hr3 & L3 & L5 & P & D & P' & G).
  destruct (ordinal_pair_labels _ _ Hin) as (S1 & S2 & S3 & D1 & D2 & D3 & Dp).
  destruct (stages_counts _ _ _ Hst) as (C1 & C2 & C3 & _).
  apply cell_of_cells in Hc.
  rewrite (P' src S2 S3), (P src S1) in Hc.
  assert (has_column (clean df) src = true) as Hhas.
  { destruct (has_column (clean df) src) eqn:E; [reflexivity|].
    unfold has_column in E. rewrite (cells_at_absent _ _ _ E) in Hc.
    discriminate. }
  specialize (D _ _ Hin Hhas).
  specialize (C3 _ _ Hin). rewrite Hhas in C3. destruct C3 as [_ C3].
  assert (In dst (indice_columns mid)) as Hdst.
  { apply indice_columns_In. split; [|exact Dp].
    apply has_column_In, has_column_positive. lia. }
  assert (count_label (columns out) dst = 1%nat) as U.
  { destruct Hst as [? ? ? _ _ _ _ _ Hsum].
    apply (summary_unique _ _ _ Hsum); [apply in_or_app; now left|].
    apply has_column_positive. rewrite (C2 dst D2 D3). lia. }
  rewrite (C2 dst D2 D3) in U. rewrite U in D.
  unfold mapped_cell in D. rewrite Hc in D. simpl in D.
  split; [|split; [exact Hdst | exists r3; auto]].
  apply cell_of_cells. now rewrite (P' dst D2 D3).
Qed.

(** The general index of a row of the output, when there is one. *)
Lemma general_index_cell df mid out i r5 :
  rectangular df -> stages df mid out ->
  rows out !! i = Some r5 ->
  nonempty (indice_columns mid) = true ->
  exists r3, rows mid !! i = Some r3 /\
    cell_of (columns out) "indice_calidad_general" r5 =
    Some (general_cell (columns mid) (indice_columns mid) r3) /\
    is_ok (row_mean (select_row (columns mid) (indice_columns mid) r3)) = true.
Proof.
  intros Hrect Hst Hi Hne.
  destruct (row_history _ _ _ _ _ Hrect Hst Hi)
    as (r0 & r3 & Hr0 & Hr3 & L3 & L5 & P & D & P' & G).
  destruct (G Hne) as [G1 G2].
  destruct (stages_counts _ _ _ Hst) as (_ & _ & _ & C4). rewrite Hne in C4.
  assert (count_label (columns out) "indice_calidad_general" = 1%nat) as U.
  { destruct Hst as [? ? ? _ _ _ _ _ Hsum].
    apply (summary_unique _ _ _ Hsum).
    - apply in_or_app. right. now left.
    - now apply has_column_positive. }
  rewrite U in G1. exists r3. repeat split; auto.
  now apply cell_of_cells.
Qed.

Lemma nonempty_In {A} (x : A) l : In x l -> nonempty l = true.
Proof. destruct l; [intros [] | reflexivity]. Qed.

(** ** C3: unknown category values *)

(** C3. A category value that is none of the four known labels (the empty
    text, or a missing value filled with zero, among others) never makes the
    mapping raise: whether [df[src].map(quality_map)] raises depends on the
    labels of the frame alone. In every row of the cleaned table that holds
    such a value, the ordinal cell is missing, and the general index of the
    row is the rounded mean over the other index columns. *)
Theorem unknown_category_gives_missing_ordinal :
  (forall d src dst df,
     is_ok (add_mapped d src dst df) =
     negb (has_column df src) || (count_label (columns df) src =? 1)%nat) /\
  quality_code (Str "") = None /\
  quality_code (fill_cell (Num 0) NaN) = None /\
  forall df out,
    rectangular df -> transform_quality_data df = Ok out ->
    exists mid,
      add_indices (clean df) = Ok mid /\
      forall src dst i r5 c,
        In (src, dst) ordinal_pairs ->
        rows out !! i = Some r5 ->
        cell_of (columns out) src r5 = Some c ->
        quality_code c = None ->
        cell_of (columns out) dst r5 = Some NaN /\
        exists r3,
          rows mid !! i = Some r3 /\
          cell_of (columns out) "indice_calidad_general" r5 =
          Some (general_cell (columns mid)
                  (other_than dst (indice_columns mid)) r3).
Proof.
  split; [exact add_mapped_ok|].
  split; [vm_compute; reflexivity|].
  split; [reflexivity|].
  intros df out Hrect Hout.
  destruct (transform_stages _ _ Hout) as (mid & Hmid & Hst).
  exists mid. split; [exact Hmid|].
  intros src dst i r5 c Hin Hi Hc Hunknown.
  destruct (ordinal_cell _ _ _ _ _ _ _ _ Hrect Hst Hin Hi Hc)
    as (Hd & Hdst & r3 & Hr3 & Hcells).
  rewrite map_cell_quality, Hunknown in Hd, Hcells.
  split; [exact Hd|].
  destruct (general_index_cell _ _ _ _ _ Hrect Hst Hi (nonempty_In _ _ Hdst))
    as (r3' & Hr3' & Hg & _).
  rewrite Hr3 in Hr3'. inversion Hr3'; subst r3'.
  exists r3. split; [exact Hr3|].
  rewrite Hg. f_equal.
  apply (general_cell_skip _ dst _ 1%nat). exact Hcells.
Qed.

Lemma sample_rectangular : rectangular sample.
Proof. repeat constructor. Defined.

End WithRuntime.

(** C3 on [sample]: an unknown DBO label in the last row, and a missing DBO
    label, filled with zero, in the row before. *)
Lemma unknown_category_gives_missing_ordinal_witness :
  rectangular sample /\
  transform_quality_data sample = Ok sample_cleaned /\
  quality_code (Str "zzz") = None /\
  cell_of (columns sample_cleaned) "indice_calidad_dbo"
          [Str ""; Str "zzz"; Num 0; NaN; NaN; NaN] = Some NaN /\
  quality_code (Num 0) = None /\
  cell_of (columns sample_cleaned) "indice_calidad_dbo"
          [Str "Buena calidad"; Num 0; Str "BC"; Num 2; NaN; Num 2] = Some NaN.
Proof.
  assert (transform_quality_data sample = Ok sample_cleaned) as Hout
    by (vm_compute; reflexivity).
  split; [exact sample_rectangular|]. split; [exact Hout|].
  destruct (proj2 (proj2 (proj2 unknown_category_gives_missing_ordinal))
              sample sample_cleaned sample_rectangular Hout)
    as (mid & _ & Hrows).
  assert (quality_code (Str "zzz") = None) as Hz by (vm_compute; reflexivity).
  split; [exact Hz|]. split.
  - apply (Hrows "calidad_dbo" "indice_calidad_dbo" 2%nat _ (Str "zzz"));
      [simpl; auto | reflexivity | reflexivity | exact Hz].
  - split; [reflexivity|].
    apply (Hrows "calidad_dbo" "indice_calidad_dbo" 1%nat _ (Num 0));
      [simpl; auto | reflexivity | reflexivity | reflexivity].
Defined.

Section WithRuntime.

Context {rt : runtime}.

(** ** C1: the general index as the mean of the present ordinal codes *)

Lemma new_columns_fresh cols l :
  ~ In l cols -> new_columns cols l = cols ++ [l].
Proof.
  intros H. unfold new_columns.
  destruct (existsb (String.eqb l) cols) eqn:E; [|reflexivity].
  exfalso. apply H. apply existsb_exists in E as (c & Hin & Hc).
  apply String.eqb_eq in Hc. now subst.
Qed.

Lemma filter_none {A} (p : A -> bool) l :
  (forall x, In x l -> p x = false) -> List.filter p l = [].
Proof.
  induction l as [|x l IH]; simpl; intros H; [reflexivity|].
  rewrite (H x) by auto. apply IH. auto.
Qed.

Lemma no_index_label_clean df :
  no_index_label df ->
  forall l, In l (columns (clean df)) -> String.prefix indice_prefix l = false.
Proof.
  intros H l Hin. rewrite columns_clean in Hin.
  apply in_map_iff in Hin as (x & <- & Hx). now apply H.
Qed.

Lemma indice_columns_derived df mid out :
  no_index_label df -> stages df mid out ->
  indice_columns mid =
  flat_map (fun p => if has_column (clean df) (fst p) then [snd p] else [])
           ordinal_pairs.
Proof.
  intros Hno Hst. open_stages Hst.
  pose proof (no_index_label_clean _ Hno) as Hc.
  pose proof (step_has_other _ _ _ _ _ "calidad_dbo" S1) as E1.
  pose proof (step_has_other _ _ _ _ _ "calidad_sst" S1) as E2.
  pose proof (step_has_other _ _ _ _ _ "calidad_sst" S2) as E3.
  destruct S1 as [C1 _], S2 as [C2 _], S3 as [C3 _].
  rewrite E3, E2 in C3 by discriminate. rewrite E1 in C2 by discriminate.
  assert (forall l extra, String.prefix indice_prefix l = true ->
            ~ In l extra -> ~ In l (columns (clean df) ++ extra)) as Hfresh.
  { intros l extra Hp Hx Hin. apply in_app_or in Hin as [Hin|Hin]; [|auto].
    rewrite (Hc _ Hin) in Hp. discriminate. }
  assert (forall extra,
            List.filter (String.prefix indice_prefix) (columns (clean df) ++ extra) =
            List.filter (String.prefix indice_prefix) extra) as Hfilter.
  { intros extra. rewrite List.filter_app, (filter_none _ _ Hc). reflexivity. }
  assert (forall extra l (b : bool),
            String.prefix indice_prefix l = true -> ~ In l extra ->
            (if b then new_columns (columns (clean df) ++ extra) l
             else columns (clean df) ++ extra) =
            columns (clean df) ++ extra ++ (if b then [l] else [])) as Hnew.
  { intros extra l b Hp Hx. destruct b; [|now rewrite app_nil_r].
    rewrite new_columns_fresh by now apply Hfresh.
    now rewrite <- app_assoc. }
  rewrite <- (app_nil_r (columns (clean df))) in C1.
  rewrite Hnew in C1 by (try reflexivity; intros []).
  rewrite C1, Hnew in C2.
  2: reflexivity.
  2: { destruct (has_column (clean df) "calidad_dqo"); simpl;
       intros H; repeat destruct H as [H|H]; discriminate || auto. }
  rewrite C2, Hnew in C3.
  2: reflexivity.
  2: { destruct (has_column (clean df) "calidad_dqo");
       destruct (has_column (clean df) "calidad_dbo"); simpl;
       intros H; repeat destruct H as [H|H]; discriminate || auto. }
  unfold indice_columns. rewrite C3, Hfilter. simpl.
  destruct (has_column (clean df) "calidad_dqo");
    destruct (has_column (clean df) "calidad_dbo");
    destruct (has_column (clean df) "calidad_sst"); reflexivity.
Qed.

Lemma category_case df mid out i r5 r3 src dst :
  rectangular df -> stages df mid out ->
  In (src, dst) ordinal_pairs ->
  rows out !! i = Some r5 -> rows mid !! i = Some r3 ->
  (has_column (clean df) src = false /\
   cell_of (columns out) src r5 = None) \/
  (has_column (clean df) src = true /\
   exists x, cell_of (columns out) src r5 = Some x /\
             cells_at (columns mid) dst r3 = [map_cell quality_map x]).
Proof.
  intros Hrect Hst Hin Hi Hr3.
  destruct (row_history _ _ _ _ _ Hrect Hst Hi)
    as (r0 & r3' & Hr0 & Hr3' & L3 & L5 & P & D & P' & G).
  rewrite Hr3 in Hr3'. inversion Hr3'; subst r3'.
  destruct (ordinal_pair_labels _ _ Hin) as (S1 & S2 & S3 & _).
  assert (cells_at (columns out) src r5 = cells_at (columns (clean df)) src r0)
    as Hsrc by now rewrite (P' src S2 S3), (P src S1).
  destruct (has_column (clean df) src) eqn:Hhas.
  - right. split; [reflexivity|].
    destruct (stages_counts _ _ _ Hst) as (_ & _ & C3 & _).
    specialize (C3 _ _ Hin). rewrite Hhas in C3. destruct C3 as [C3 _].
    assert (length r0 = length (columns (clean df))) as L0.
    { eapply (proj1 (List.Forall_forall _ _) (clean_rectangular _ Hrect)).
      eapply list_elem_of_In, list_elem_of_lookup_2; eauto. }
    pose proof (cells_at_length _ src _ L0) as Hlen. rewrite C3 in Hlen.
    destruct (cells_at (columns (clean df)) src r0) as [|x [|y t]] eqn:E;
      try discriminate.
    assert (cell_of (columns out) src r5 = Some x) as Hx
      by (apply cell_of_cells; congruence).
    exists x. split; [exact Hx|].
    destruct (ordinal_cell _ _ _ _ _ _ _ _ Hrect Hst Hin Hi Hx)
      as (_ & _ & r3' & Hr3'' & Hcells).
    rewrite Hr3 in Hr3''. now inversion Hr3''; subst r3'.
  - left. split; [reflexivity|].
    unfold cell_of. rewrite Hsrc.
    unfold has_column in Hhas. now rewrite (cells_at_absent _ _ _ Hhas).
Qed.

Lemma has_column_source df mid out src dst :
  stages df mid out -> In (src, dst) ordinal_pairs ->
  has_column out src = has_column (clean df) src.
Proof.
  intros Hst Hin.
  destruct (ordinal_pair_labels _ _ Hin) as (S1 & S2 & S3 & _).
  destruct (stages_counts _ _ _ Hst) as (C1 & C2 & _).
  rewrite !has_column_count. now rewrite (C2 src S2 S3), (C1 src S1).
Qed.

Lemma quality_code_range c k : quality_code c = Some k -> 1 <= k <= 4.
Proof.
  destruct c as [| |s]; simpl; try discriminate. unfold quality_map.
  rewrite !lookup_insert_Some, lookup_singleton_Some.
  intros [[_ <-]|[_ [[_ <-]|[_ [[_ <-]|[_ [_ <-]]]]]]]; lia.
Qed.

(** On one to three codes the float64 arithmetic is the exact one. *)
Lemma round_cell_codes (ks : list Z) :
  (length ks <= 3)%nat -> Forall (fun k => 1 <= k <= 4) ks ->
  round_cell (float_mean (map inject_Z ks)) =
  match mean (map inject_Z ks) with
  | Some m => Num (round2 m)
  | None => NaN
  end.
Proof.
  intros Hlen Hks. destruct (mean (map inject_Z ks)) as [m|] eqn:Hm.
  - rewrite <- (f64_codes ks m Hlen Hks Hm).
    destruct ks; [discriminate | reflexivity].
  - destruct ks; [reflexivity | discriminate].
Qed.

Lemma general_cell_of_codes df mid out i r5 r3 :
  rectangular df -> no_index_label df -> stages df mid out ->
  rows out !! i = Some r5 -> rows mid !! i = Some r3 ->
  general_cell (columns mid) (indice_columns mid) r3 =
  mean_of_present_codes (columns out) r5.
Proof.
  intros Hrect Hno Hst Hi Hr3.
  rewrite (indice_columns_derived _ _ _ Hno Hst).
  unfold mean_of_present_codes, present_codes, general_cell, row_mean,
    select_row. simpl.
  destruct (category_case _ _ _ _ _ _ "calidad_dqo" "indice_calidad_dqo"
              Hrect Hst ltac:(simpl; auto) Hi Hr3)
    as [[-> ->]|[-> (x1 & -> & E1)]];
  destruct (category_case _ _ _ _ _ _ "calidad_dbo" "indice_calidad_dbo"
              Hrect Hst ltac:(simpl; auto) Hi Hr3)
    as [[-> ->]|[-> (x2 & -> & E2)]];
  destruct (category_case _ _ _ _ _ _ "calidad_sst" "indice_calidad_sst"
              Hrect Hst ltac:(simpl; auto) Hi Hr3)
    as [[-> ->]|[-> (x3 & -> & E3)]];
  simpl; rewrite ?E1, ?E2, ?E3; simpl; rewrite ?map_cell_quality;
  repeat match goal with
         | |- context [quality_code ?x] =>
             let Q := fresh "Q" in
             destruct (quality_code x) eqn:Q; [apply quality_code_range in Q|]
         end;
  try reflexivity;
  (first [ apply (round_cell_codes [_])
         | apply (round_cell_codes [_; _])
         | apply (round_cell_codes [_; _; _]) ];
   [simpl; lia | repeat (constructor; [assumption|]); constructor]).
Qed.

Lemma cell_of_has_column df l r c :
  cell_of (columns df) l r = Some c -> has_column df l = true.
Proof.
  intros H. apply cell_of_cells in H.
  destruct (has_column df l) eqn:E; [reflexivity|].
  unfold has_column in E. rewrite (cells_at_absent _ _ _ E) in H. discriminate.
Qed.

Lemma cell_of_absent df l r :
  has_column df l = false -> cell_of (columns df) l r = None.
Proof.
  intros E. unfold cell_of, has_column in *.
  now rewrite (cells_at_absent _ _ _ E).
Qed.

Lemma general_index_present df mid out :
  stages df mid out ->
  (exists src dst, In (src, dst) ordinal_pairs /\ has_column out src = true) ->
  nonempty (indice_columns mid) = true.
Proof.
  intros Hst (src & dst & Hin & Hhas).
  rewrite (has_column_source _ _ _ _ _ Hst Hin) in Hhas.
  destruct (ordinal_pair_labels _ _ Hin) as (_ & _ & _ & _ & _ & _ & Dp).
  destruct (stages_counts _ _ _ Hst) as (_ & _ & C3 & _).
  specialize (C3 _ _ Hin). rewrite Hhas in C3. destruct C3 as [_ C3].
  apply (nonempty_In dst). apply indice_columns_In. split; [|exact Dp].
  apply has_column_In, has_column_positive. lia.
Qed.

Lemma general_index_absent df mid out i r5 :
  rectangular df -> no_index_label df -> stages df mid out ->
  rows out !! i = Some r5 ->
  nonempty (indice_columns mid) = false ->
  cell_of (columns out) "indice_calidad_general" r5 = None.
Proof.
  intros Hrect Hno Hst Hi Hne.
  destruct (row_history _ _ _ _ _ Hrect Hst Hi)
    as (r0 & r3 & _ & _ & _ & L5 & _).
  destruct (stages_counts _ _ _ Hst) as (C1 & _ & _ & C4).
  rewrite Hne in C4. rewrite C1 in C4.
  2: { simpl. intros [H|[H|[H|[]]]]; discriminate. }
  assert (count_label (columns (clean df)) "indice_calidad_general" = 0%nat) as Z.
  { destruct (count_label (columns (clean df)) "indice_calidad_general") eqn:E;
      [reflexivity|].
    assert (has_column (clean df) "indice_calidad_general" = true) as Hh
      by (apply has_column_positive; lia).
    apply has_column_In in Hh.
    pose proof (no_index_label_clean _ Hno _ Hh). discriminate. }
  pose proof (cells_at_length _ "indice_calidad_general" _ L5) as Hlen.
  rewrite C4, Z in Hlen. unfold cell_of.
  now destruct (cells_at (columns out) "indice_calidad_general" r5).
Qed.

(** C1, as amended. When no column of the source is named, after
    normalisation, with the prefix [indice_calidad_], every row of the
    cleaned table has as general index the mean, rounded to two decimals, of
    the ordinal codes of those of its three categories that are present; a
    row with DQO Excelente and DBO Contaminada in a table without SST column
    has general index 2.5. *)
Theorem general_index_is_mean_of_present_codes :
  forall df out i r,
    rectangular df -> no_index_label df ->
    transform_quality_data df = Ok out ->
    rows out !! i = Some r ->
    ((exists src dst, In (src, dst) ordinal_pairs /\ has_column out src = true) ->
     cell_of (columns out) "indice_calidad_general" r =
     Some (mean_of_present_codes (columns out) r)) /\
    (forall g, cell_of (columns out) "indice_calidad_general" r = Some g ->
               g = mean_of_present_codes (columns out) r) /\
    (cell_of (columns out) "calidad_dqo" r = Some (Str "Excelente") ->
     cell_of (columns out) "calidad_dbo" r = Some (Str "Contaminada") ->
     has_column out "calidad_sst" = false ->
     cell_of (columns out) "indice_calidad_general" r = Some (Num (5 # 2))).
Proof.
  intros df out i r Hrect Hno Hout Hi.
  destruct (transform_stages _ _ Hout) as (mid & _ & Hst).
  assert (nonempty (indice_columns mid) = true ->
          cell_of (columns out) "indice_calidad_general" r =
          Some (mean_of_present_codes (columns out) r)) as Hmain.
  { intros Hne.
    destruct (general_index_cell _ _ _ _ _ Hrect Hst Hi Hne)
      as (r3 & Hr3 & Hg & _).
    rewrite Hg. f_equal.
    now apply (general_cell_of_codes df mid out i). }
  assert ((exists src dst, In (src, dst) ordinal_pairs /\ has_column out src = true) ->
          cell_of (columns out) "indice_calidad_general" r =
          Some (mean_of_present_codes (columns out) r)) as H1.
  { intros Hex. apply Hmain. now apply (general_index_present df mid out). }
  split; [exact H1|]. split.
  - intros g Hg. destruct (nonempty (indice_columns mid)) eqn:Hne.
    + rewrite (Hmain eq_refl) in Hg. now inversion Hg.
    + rewrite (general_index_absent _ _ _ _ _ Hrect Hno Hst Hi Hne) in Hg.
      discriminate.
  - intros Hdqo Hdbo Hsst. rewrite H1.
    + unfold mean_of_present_codes, present_codes. simpl.
      rewrite Hdqo, Hdbo, (cell_of_absent _ _ _ Hsst).
      vm_compute. reflexivity.
    + exists "calidad_dqo", "indice_calidad_dqo". split; [simpl; auto|].
      now apply (cell_of_has_column _ _ r (Str "Excelente")).
Qed.

End WithRuntime.

Lemma sample_no_index_label : no_index_label sample.
Proof.
  intros l [<-|[<-|[<-|[]]]]; vm_compute; reflexivity.
Defined.

(** C1 on [sample]: the first cleaned row has DQO Excelente, DBO
    Contaminada and general index 2.5. *)
Lemma general_index_is_mean_of_present_codes_witness :
  rectangular sample /\ no_index_label sample /\
  transform_quality_data sample = Ok sample_cleaned /\
  cell_of (columns sample_cleaned) "indice_calidad_general"
          [Str "Excelente"; Str "Contaminada"; Str "Ags"; Num 1; Num 4; Num (5 # 2)] =
  Some (Num (5 # 2)).
Proof.
  split; [exact sample_rectangular|].
  split; [exact sample_no_index_label|].
  split; [vm_compute; reflexivity|].
  refine (proj2 (proj2 (general_index_is_mean_of_present_codes
                          sample sample_cleaned 0 _
                          sample_rectangular sample_no_index_label _ _)) _ _ _);
    vm_compute; reflexivity.
Defined.

(** C1, as stated, fails: a source column named with the prefix is averaged
    into the general index, which then is not the mean of the codes of the
    categories. Here the only category present has code 1 and the general
    index is 2.5. *)
Lemma supplied_index_column_changes_general_index :
  rectangular supplied /\
  transform_quality_data supplied = Ok supplied_cleaned /\
  rows supplied_cleaned !! 0%nat =
    Some [Str "Excelente"; Num 4; Num 1; Num (5 # 2)] /\
  cell_of (columns supplied_cleaned) "indice_calidad_general"
          [Str "Excelente"; Num 4; Num 1; Num (5 # 2)] = Some (Num (5 # 2)) /\
  mean_of_present_codes (columns supplied_cleaned)
          [Str "Excelente"; Num 4; Num 1; Num (5 # 2)] = Num 1 /\
  Num (5 # 2) <> Num 1.
Proof.
  split; [repeat constructor|].
  split; [vm_compute; reflexivity|].
  split; [reflexivity|].
  split; [reflexivity|].
  split; [vm_compute; reflexivity|].
  discriminate.
Qed.

Section WithRuntime.

Context {rt : runtime}.

(** ** C8: which columns enter the general index *)

Lemma columns_mid_grow df mid out :
  stages df mid out ->
  exists extra, columns mid = columns (clean df) ++ extra.
Proof.
  intros Hst. open_stages Hst.
  destruct (step_columns_grow _ _ _ _ _ S1) as [e1 E1].
  destruct (step_columns_grow _ _ _ _ _ S2) as [e2 E2].
  destruct (step_columns_grow _ _ _ _ _ S3) as [e3 E3].
  exists (e1 ++ e2 ++ e3). rewrite E3, E2, E1. now rewrite <- !app_assoc.
Qed.

Lemma row_mean_ok cs :
  is_ok (row_mean cs) = true ->
  exists qs, numeric_values cs = Ok qs /\ row_mean cs = Ok (float_mean qs).
Proof.
  unfold row_mean. destruct (numeric_values cs) as [qs|]; [eauto|discriminate].
Qed.

Lemma assigned_ordinal_cases cols l :
  assigned_ordinal cols l =
  (String.eqb l "indice_calidad_dqo" && existsb (String.eqb "calidad_dqo") cols) ||
  (String.eqb l "indice_calidad_dbo" && existsb (String.eqb "calidad_dbo") cols) ||
  (String.eqb l "indice_calidad_sst" && existsb (String.eqb "calidad_sst") cols).
Proof.
  unfold assigned_ordinal, ordinal_pairs, existsb at 1, fst, snd.
  now rewrite orb_false_r, orb_assoc.
Qed.

Lemma step_unchanged l f active df df' r l' :
  step l f active df df' -> length r = length (columns df) ->
  l' <> l \/ active = false ->
  cells_at (columns df') l' (step_row (columns df) l f active r) =
  cells_at (columns df) l' r.
Proof.
  intros Hs Hlen [Hne | ->].
  - now apply (step_other _ _ _ _ _ _ _ Hs).
  - destruct Hs as [-> _]. reflexivity.
Qed.

(** A column that the transform does not assign holds in the frame of line
    53 what it holds after the cleaning. *)
Lemma unassigned_cells df mid out i r0 r3 l :
  rectangular df -> stages df mid out ->
  assigned_ordinal (columns (clean df)) l = false ->
  rows (clean df) !! i = Some r0 -> rows mid !! i = Some r3 ->
  cells_at (columns mid) l r3 = cells_at (columns (clean df)) l r0.
Proof.
  intros Hrect Hst Hl Hr0 Hr3. open_stages Hst.
  apply clean_rectangular in Hrect.
  assert (length r0 = length (columns (clean df))) as L0.
  { eapply (proj1 (List.Forall_forall _ _) Hrect).
    eapply list_elem_of_In, list_elem_of_lookup_2; eauto. }
  pose proof (step_has_other _ _ _ _ _ "calidad_dbo" S1) as H1.
  pose proof (step_has_other _ _ _ _ _ "calidad_sst" S1) as H2.
  pose proof (step_has_other _ _ _ _ _ "calidad_sst" S2) as H3.
  rewrite assigned_ordinal_cases in Hl.
  apply orb_false_elim in Hl as [Hl Hsst].
  apply orb_false_elim in Hl as [Hdqo Hdbo].
  set (c := clean df) in *.
  set (r1 := step_row (columns c) "indice_calidad_dqo"
               (mapped_cell quality_map (columns c) "calidad_dqo")
               (has_column c "calidad_dqo") r0).
  set (r2 := step_row (columns m1) "indice_calidad_dbo"
               (mapped_cell quality_map (columns m1) "calidad_dbo")
               (has_column m1 "calidad_dbo") r1).
  assert (length r1 = length (columns m1)) as L1
    by (eapply step_row_length; eauto).
  assert (length r2 = length (columns m2)) as L2
    by (eapply step_row_length; eauto).
  assert (r3 = step_row (columns m2) "indice_calidad_sst"
               (mapped_cell quality_map (columns m2) "calidad_sst")
               (has_column m2 "calidad_sst") r2) as ->.
  { rewrite (step_lookup _ _ _ _ _ i S3), (step_lookup _ _ _ _ _ i S2),
      (step_lookup _ _ _ _ _ i S1), Hr0 in Hr3.
    simpl in Hr3. now inversion Hr3. }
  transitivity (cells_at (columns m2) l r2).
  { apply (step_unchanged _ _ _ _ _ r2 l S3 L2).
    destruct (String.eqb_spec l "indice_calidad_sst"); [right | now left].
    simpl in Hsst. rewrite H3, H2 by discriminate. exact Hsst. }
  transitivity (cells_at (columns m1) l r1).
  { apply (step_unchanged _ _ _ _ _ r1 l S2 L1).
    destruct (String.eqb_spec l "indice_calidad_dbo"); [right | now left].
    simpl in Hdbo. rewrite H1 by discriminate. exact Hdbo. }
  apply (step_unchanged _ _ _ _ _ r0 l S1 L0).
  destruct (String.eqb_spec l "indice_calidad_dqo"); [right | now left].
  simpl in Hdqo. exact Hdqo.
Qed.

(** C8, as amended. The general index is the rounded row-wise mean over
    every column whose label starts with [indice_calidad_] at line 53,
    whatever their number: the ordinal columns just derived, and every
    column of the source that carries such a label after normalisation. A
    source column enters with its own values (missing values filled with
    zero), unless it is named like the ordinal column of a category that is
    present: lines 33, 44 and 49 have then put the ordinal codes in it, and
    the values of the source do not enter. *)
Theorem general_index_averages_every_index_column :
  forall df out,
    rectangular df -> transform_quality_data df = Ok out ->
    exists mid,
      add_indices (clean df) = Ok mid /\
      (forall l, In l (indice_columns mid) <->
                 In l (columns mid) /\ String.prefix indice_prefix l = true) /\
      (forall l, In l (columns df) ->
                 String.prefix indice_prefix (normalize_name l) = true ->
                 In (normalize_name l) (indice_columns mid)) /\
      (forall src dst, In (src, dst) ordinal_pairs ->
                 has_column (clean df) src = true ->
                 In dst (indice_columns mid)) /\
      (forall l i r0 r3,
         assigned_ordinal (columns (clean df)) l = false ->
         rows (clean df) !! i = Some r0 -> rows mid !! i = Some r3 ->
         cells_at (columns mid) l r3 = cells_at (columns (clean df)) l r0) /\
      (forall src dst i r0 r3,
         In (src, dst) ordinal_pairs -> has_column (clean df) src = true ->
         rows (clean df) !! i = Some r0 -> rows mid !! i = Some r3 ->
         cells_at (columns mid) dst r3 =
         repeat (mapped_cell quality_map (columns (clean df)) src r0)
                (count_label (columns mid) dst)) /\
      (forall i r5,
         rows out !! i = Some r5 ->
         nonempty (indice_columns mid) = true ->
         exists r3 qs,
           rows mid !! i = Some r3 /\
           numeric_values (select_row (columns mid) (indice_columns mid) r3) = Ok qs /\
           cell_of (columns out) "indice_calidad_general" r5 =
           Some (round_cell (float_mean qs))).
Proof.
  intros df out Hrect Hout.
  destruct (transform_stages _ _ Hout) as (mid & Hmid & Hst).
  exists mid. split; [exact Hmid|].
  split; [intros l; apply indice_columns_In|].
  split; [|split; [|split; [|split]]].
  - intros l Hin Hp. apply indice_columns_In. split; [|exact Hp].
    destruct (columns_mid_grow _ _ _ Hst) as [extra ->].
    apply in_or_app. left. rewrite columns_clean. now apply in_map.
  - intros src dst Hin Hhas.
    destruct (ordinal_pair_labels _ _ Hin) as (_ & _ & _ & _ & _ & _ & Dp).
    destruct (stages_counts _ _ _ Hst) as (_ & _ & C3 & _).
    specialize (C3 _ _ Hin). rewrite Hhas in C3. destruct C3 as [_ C3].
    apply indice_columns_In. split; [|exact Dp].
    apply has_column_In, has_column_positive. lia.
  - intros l i r0 r3 Hl Hr0 Hr3.
    now apply (unassigned_cells df mid out i).
  - intros src dst i r0 r3 Hin Hhas Hr0 Hr3.
    destruct (indices_row _ _ _ _ _ Hrect Hst Hr0) as (r3' & Hr3' & _ & _ & D).
    rewrite Hr3 in Hr3'. inversion Hr3'; subst r3'. now apply D.
  - intros i r5 Hi Hne.
    destruct (general_index_cell _ _ _ _ _ Hrect Hst Hi Hne)
      as (r3 & Hr3 & Hg & Hok).
    destruct (row_mean_ok _ Hok) as (qs & Hqs & Hmean).
    exists r3, qs. repeat split; auto.
    rewrite Hg. unfold general_cell. now rewrite Hmean.
Qed.

End WithRuntime.

(** C8 on [overwritten]. The source column [Indice Calidad Campo] enters
    the general index with its own value 4. The source column
    [Indice Calidad DQO] holds the code 3 of the category by line 53, and
    3 enters. *)
Lemma general_index_averages_every_index_column_witness :
  rectangular overwritten /\
  transform_quality_data overwritten = Ok overwritten_cleaned /\
  exists mid,
    add_indices (clean overwritten) = Ok mid /\
    In "indice_calidad_campo" (indice_columns mid) /\
    In "indice_calidad_dqo" (indice_columns mid) /\
    exists r0 r3 qs,
      rows (clean overwritten) !! 0%nat = Some r0 /\
      rows mid !! 0%nat = Some r3 /\
      cells_at (columns mid) "indice_calidad_campo" r3 = [Num 4] /\
      cells_at (columns mid) "indice_calidad_dqo" r3 = [Num 3] /\
      numeric_values (select_row (columns mid) (indice_columns mid) r3) = Ok qs /\
      cell_of (columns overwritten_cleaned) "indice_calidad_general"
              [Str "Aceptable"; Num 3; Num 4; Num (7 # 2)] =
      Some (round_cell (float_mean qs)).
Proof.
  assert (rectangular overwritten) as Hrect by repeat constructor.
  assert (transform_quality_data overwritten = Ok overwritten_cleaned) as Hout
    by (vm_compute; reflexivity).
  split; [exact Hrect|]. split; [exact Hout|].
  destruct (general_index_averages_every_index_column _ _ Hrect Hout)
    as (mid & Hmid & _ & Hsrc & Hder & Hown & Hcode & Hgen).
  exists mid. split; [exact Hmid|].
  split; [apply (Hsrc "Indice Calidad Campo"); [simpl; auto | vm_compute; reflexivity]|].
  split; [apply (Hder "calidad_dqo"); [simpl; auto | vm_compute; reflexivity]|].
  assert (nonempty (indice_columns mid) = true) as Hne.
  { apply (nonempty_In "indice_calidad_dqo").
    apply (Hder "calidad_dqo"); [simpl; auto | vm_compute; reflexivity]. }
  destruct (Hgen 0%nat _ eq_refl Hne) as (r3 & qs & Hr3 & Hqs & Hcell).
  exists [Str "Aceptable"; Num 1; Num 4], r3, qs.
  split; [vm_compute; reflexivity|]. split; [exact Hr3|].
  split.
  { rewrite (Hown "indice_calidad_campo" 0%nat [Str "Aceptable"; Num 1; Num 4] r3);
      [| | |exact Hr3]; vm_compute; reflexivity. }
  split.
  { rewrite (Hcode "calidad_dqo" "indice_calidad_dqo" 0%nat
               [Str "Aceptable"; Num 1; Num 4] r3);
      [| | | |exact Hr3]; try (vm_compute; reflexivity); [|simpl; auto].
    injection Hmid as <-. vm_compute. reflexivity. }
  split; [exact Hqs | exact Hcell].
Defined.

(** C8, as stated, fails. The source of [overwritten] supplies a column
    that normalises to [indice_calidad_dqo], with the value 1. The value is
    not averaged in: the general index 3.5 is the mean of the code 3 of
    Aceptable and of the source's 4 under [indice_calidad_campo], not the
    2.67 that the three numbers 1, 4 and 3 would give. *)
Lemma overwritten_index_column_is_not_averaged :
  rectangular overwritten /\
  transform_quality_data overwritten = Ok overwritten_cleaned /\
  map normalize_name (columns overwritten) =
    ["calidad_dqo"; "indice_calidad_dqo"; "indice_calidad_campo"] /\
  String.prefix indice_prefix "indice_calidad_dqo" = true /\
  rows overwritten = [[Str "Aceptable"; Num 1; Num 4]] /\
  rows overwritten_cleaned = [[Str "Aceptable"; Num 3; Num 4; Num (7 # 2)]] /\
  cell_of (columns overwritten_cleaned) "indice_calidad_general"
          [Str "Aceptable"; Num 3; Num 4; Num (7 # 2)] = Some (Num (7 # 2)) /\
  option_map round2 (mean [1; 4; 3]%Q) = Some (267 # 100)%Q /\
  option_map round2 (mean [3; 4]%Q) = Some (7 # 2)%Q /\
  Num (7 # 2) <> Num (267 # 100).
Proof.
  split; [repeat constructor|].
  split; [vm_compute; reflexivity|].
  split; [vm_compute; reflexivity|].
  split; [reflexivity|].
  split; [reflexivity|].
  split; [reflexivity|].
  split; [reflexivity|].
  split; [vm_compute; reflexivity|].
  split; [vm_compute; reflexivity|].
  discriminate.
Qed.

Section WithRuntime.

Context {rt : runtime}.

(** ** C7: the order of the cleaning steps *)

Lemma cell_eqb_refl c : cell_eqb c c = true.
Proof.
  destruct c; simpl; [reflexivity | | apply String.eqb_refl].
  apply Qeq_bool_iff. reflexivity.
Qed.

Lemma row_eqb_refl r : row_eqb r r = true.
Proof. induction r; simpl; [reflexivity|]. now rewrite cell_eqb_refl. Qed.

Lemma drop_duplicates_from_new seen rs r :
  In r (drop_duplicates_from seen rs) -> existsb (row_eqb r) seen = false.
Proof.
  revert seen. induction rs as [|x rs IH]; simpl; intros seen H; [destruct H|].
  destruct (existsb (row_eqb x) seen) eqn:E.
  - now apply IH.
  - destruct H as [<-|H]; [exact E|].
    apply IH in H. simpl in H. now apply orb_false_iff in H as [_ H].
Qed.

Lemma drop_duplicates_from_distinct seen rs :
  pairwise_distinct (drop_duplicates_from seen rs).
Proof.
  revert seen. induction rs as [|x rs IH]; simpl; intros seen; [exact I|].
  destruct (existsb (row_eqb x) seen); [apply IH|].
  simpl. split; [|apply IH].
  apply List.Forall_forall. intros r Hr.
  apply drop_duplicates_from_new in Hr. simpl in Hr.
  now apply orb_false_iff in Hr as [Hr _].
Qed.

Lemma drop_duplicates_from_covers seen rs r :
  In r rs ->
  existsb (row_eqb r) (seen ++ drop_duplicates_from seen rs) = true.
Proof.
  revert seen. induction rs as [|x rs IH]; simpl; intros seen H; [destruct H|].
  destruct (existsb (row_eqb x) seen) eqn:E.
  - destruct H as [<-|H]; [|now apply IH].
    rewrite existsb_app, E. reflexivity.
  - rewrite existsb_app. simpl. destruct H as [<-|H].
    + rewrite row_eqb_refl. simpl. apply orb_true_r.
    + specialize (IH (x :: seen) H). simpl in IH.
      rewrite existsb_app in IH.
      destruct (row_eqb r x), (existsb (row_eqb r) seen); simpl in *; auto.
Qed.

Lemma cells_at_map cols l (f : cell -> cell) r :
  cells_at cols l (map f r) = map f (cells_at cols l r).
Proof.
  revert r. induction cols as [|c cols IH]; intros [|x r]; simpl; auto.
  destruct (String.eqb l c); simpl; now rewrite IH.
Qed.

(** C7. The cleaning runs in a fixed order. The rows of the output are the
    rows kept by an exact-match deduplication of the raw rows: one output
    row per kept row, kept rows pairwise different and every raw row equal to
    a kept one. The labels of the output start with the normalised labels of
    the source, and a category is found under its normalised label whatever
    the raw spelling. Every cell outside the derived columns is the raw cell
    with a missing value replaced by zero, and an ordinal cell is the code of
    the category cell after that replacement; it is not itself filled. *)
Theorem cleaning_steps_in_order :
  forall df out,
    rectangular df -> transform_quality_data df = Ok out ->
    let kept := drop_duplicates_from [] (rows df) in
    pairwise_distinct kept /\
    (forall r, In r (rows df) -> existsb (row_eqb r) kept = true) /\
    (forall r, In r kept -> In r (rows df)) /\
    length (rows out) = length kept /\
    (exists extra, columns out = map normalize_name (columns df) ++ extra) /\
    (forall src dst, In (src, dst) ordinal_pairs ->
       (exists l, In l (columns df) /\ normalize_name l = src) ->
       has_column out dst = true) /\
    (forall i raw r5,
       kept !! i = Some raw -> rows out !! i = Some r5 ->
       (forall l, ~ In l derived_labels ->
          cells_at (columns out) l r5 =
          map (fill_cell (Num 0))
              (cells_at (map normalize_name (columns df)) l raw)) /\
       (forall src dst x, In (src, dst) ordinal_pairs ->
          cells_at (map normalize_name (columns df)) src raw = [x] ->
          cell_of (columns out) src r5 = Some (fill_cell (Num 0) x) /\
          cell_of (columns out) dst r5 =
          Some (map_cell quality_map (fill_cell (Num 0) x)))).
Proof.
  intros df out Hrect Hout kept.
  destruct (transform_stages _ _ Hout) as (mid & Hmid & Hst).
  split; [apply drop_duplicates_from_distinct|].
  split; [intros r Hr; apply (drop_duplicates_from_covers [] _ _ Hr)|].
  split; [intros r Hr; now apply (drop_duplicates_from_incl [] _ _ Hr)|].
  assert (length (rows out) = length kept) as Hlen.
  { open_stages Hst.
    rewrite (step_length _ _ _ _ _ S5), (step_length _ _ _ _ _ S4),
      (step_length _ _ _ _ _ S3), (step_length _ _ _ _ _ S2),
      (step_length _ _ _ _ _ S1), rows_clean.
    apply length_map. }
  split; [exact Hlen|].
  split.
  { destruct (columns_mid_grow _ _ _ Hst) as [e Emid].
    open_stages Hst.
    destruct (step_columns_grow _ _ _ _ _ S4) as [e4 E4].
    destruct (step_columns_grow _ _ _ _ _ S5) as [e5 E5].
    exists (e ++ e4 ++ e5).
    rewrite E5, E4, Emid, columns_clean. now rewrite <- !app_assoc. }
  split.
  { intros src dst Hin (l & Hl & Hn).
    destruct (ordinal_pair_labels _ _ Hin) as (_ & _ & _ & _ & D2 & D3 & _).
    destruct (stages_counts _ _ _ Hst) as (_ & C2 & C3 & _).
    specialize (C3 _ _ Hin).
    assert (has_column (clean df) src = true) as Hhas.
    { apply has_column_In. rewrite columns_clean, <- Hn. now apply in_map. }
    rewrite Hhas in C3. destruct C3 as [_ C3].
    apply has_column_positive. rewrite (C2 dst D2 D3). lia. }
  intros i raw r5 Hraw Hi.
  destruct (row_history _ _ _ _ _ Hrect Hst Hi)
    as (r0 & r3 & Hr0 & Hr3 & L3 & L5 & P & D & P' & G).
  rewrite rows_clean, list_lookup_fmap in Hr0. fold kept in Hr0.
  rewrite Hraw in Hr0. simpl in Hr0. inversion Hr0; subst r0; clear Hr0.
  assert (forall l, ~ In l derived_labels ->
            cells_at (columns out) l r5 =
            map (fill_cell (Num 0))
                (cells_at (map normalize_name (columns df)) l raw)) as Hsrc.
  { intros l Hl.
    rewrite P', P, columns_clean.
    - apply cells_at_map.
    - intros H. apply Hl. apply in_or_app. now left.
    - intros ->. apply Hl. apply in_or_app. right. simpl. auto.
    - intros ->. apply Hl. apply in_or_app. right. simpl. auto. }
  split; [exact Hsrc|].
  intros src dst x Hin Hx.
  assert (cell_of (columns out) src r5 = Some (fill_cell (Num 0) x)) as Hc.
  { apply cell_of_cells. rewrite Hsrc, Hx; [reflexivity|].
    destruct (ordinal_pair_labels _ _ Hin) as (S1 & S2 & S3 & _).
    intros H. apply in_app_or in H as [H|H]; [now apply S1|].
    simpl in H. destruct H as [H|[H|[]]]; congruence. }
  split; [exact Hc|].
  now destruct (ordinal_cell _ _ _ _ _ _ _ _ Hrect Hst Hin Hi Hc) as [H _].
Qed.

End WithRuntime.

(** C7 on [sample]: one duplicate dropped, labels normalised, and a missing
    DBO label filled with zero before it is mapped to a missing ordinal. *)
Lemma cleaning_steps_in_order_witness :
  rectangular sample /\
  transform_quality_data sample = Ok sample_cleaned /\
  normalize_name " Calidad  DQO " = "calidad__dqo" /\
  length (rows sample_cleaned) = length (drop_duplicates_from [] (rows sample)) /\
  has_column sample_cleaned "indice_calidad_dbo" = true /\
  cell_of (columns sample_cleaned) "calidad_dbo"
          [Str "Buena calidad"; Num 0; Str "BC"; Num 2; NaN; Num 2] =
  Some (fill_cell (Num 0) NaN) /\
  cell_of (columns sample_cleaned) "indice_calidad_dbo"
          [Str "Buena calidad"; Num 0; Str "BC"; Num 2; NaN; Num 2] =
  Some (map_cell quality_map (fill_cell (Num 0) NaN)).
Proof.
  assert (transform_quality_data sample = Ok sample_cleaned) as Hout
    by (vm_compute; reflexivity).
  split; [exact sample_rectangular|]. split; [exact Hout|].
  split; [vm_compute; reflexivity|].
  destruct (cleaning_steps_in_order _ _ sample_rectangular Hout)
    as (_ & _ & _ & Hlen & _ & Hhas & Hcells).
  split; [exact Hlen|].
  split.
  - apply (Hhas "calidad_dbo"); [simpl; auto|].
    exists " calidad_dbo". split; [simpl; auto | vm_compute; reflexivity].
  - destruct (Hcells 1%nat [Str "Buena calidad"; NaN; Str "BC"]
                [Str "Buena calidad"; Num 0; Str "BC"; Num 2; NaN; Num 2]
                eq_refl eq_refl) as [_ Hord].
    apply (Hord "calidad_dbo" "indice_calidad_dbo" NaN); [simpl; auto|].
    vm_compute. reflexivity.
Defined.

Section WithRuntime.

Context {rt : runtime}.

(** ** C9: a table without any quality column *)

Lemma no_quality_column_spec df l :
  no_quality_column df = true -> In l (columns (clean df)) ->
  l <> "calidad_dqo" /\ l <> "calidad_dbo" /\ l <> "calidad_sst" /\
  String.prefix indice_prefix l = false.
Proof.
  unfold no_quality_column. rewrite forallb_forall, columns_clean.
  intros H Hin. apply in_map_iff in Hin as (x & <- & Hx).
  specialize (H x Hx). simpl in H.
  repeat (apply andb_true_iff in H as [H ?]).
  repeat split; try (apply String.eqb_neq; now apply negb_true_iff).
  now apply negb_true_iff.
Qed.

Lemma has_column_false df l :
  ~ In l (columns df) -> has_column df l = false.
Proof.
  intros H. destruct (has_column df l) eqn:E; [|reflexivity].
  apply has_column_In in E. contradiction.
Qed.

End WithRuntime.

(** C9, as stated, fails: a table with none of the quality columns, but
    with two columns that normalise to [semaforo], makes the transform
    raise. *)
Lemma duplicated_semaforo_raises :
  rectangular two_semaforos /\
  no_quality_column two_semaforos = true /\
  transform_quality_data two_semaforos = Raise (LabelNotUnique "semaforo").
Proof.
  split; [repeat constructor|]. split; vm_compute; reflexivity.
Qed.

Section WithRuntime.

Context {rt : runtime}.

(** C9, as amended. For every input table that, after normalisation of the
    labels, has none of [calidad_dqo], [calidad_dbo], [calidad_sst], no label
    starting with [indice_calidad_], and at most one column [semaforo], the
    transform succeeds and its output has no [indice_calidad_general]
    column. With two or more [semaforo] columns it raises. *)
Theorem no_quality_column_no_general_index :
  forall df,
    no_quality_column df = true ->
    ((semaforo_count df <= 1)%nat ->
     exists out, transform_quality_data df = Ok out /\
                 cleaned df = Ok out /\
                 has_column out "indice_calidad_general" = false) /\
    ((1 < semaforo_count df)%nat ->
     transform_quality_data df = Raise (LabelNotUnique "semaforo")).
Proof.
  intros df Hno.
  pose proof (fun l => no_quality_column_spec df l Hno) as Hspec.
  assert (forall src dst, In src ["calidad_dqo"; "calidad_dbo"; "calidad_sst"] ->
            add_mapped quality_map src dst (clean df) = Ok (clean df)) as Hskip.
  { intros src dst Hsrc. unfold add_mapped.
    rewrite has_column_false; [reflexivity|].
    intros Hin. destruct (Hspec _ Hin) as (A & B & C & _).
    simpl in Hsrc. destruct Hsrc as [<-|[<-|[<-|[]]]]; congruence. }
  assert (add_indices (clean df) = Ok (clean df)) as Hidx.
  { unfold add_indices, rbind. rewrite !Hskip by (simpl; auto). reflexivity. }
  assert (indice_columns (clean df) = []) as Hnone.
  { apply filter_none. intros l Hin. now destruct (Hspec _ Hin) as (_ & _ & _ & P). }
  assert (add_general (clean df) = Ok (clean df)) as Hgen
    by (unfold add_general; now rewrite Hnone).
  assert (forall out, add_semaforo (clean df) = Ok out ->
            has_column out "indice_calidad_general" = false) as Hnogen.
  { intros out Hsem. apply add_mapped_step in Hsem as [S _].
    rewrite (step_has_other _ _ _ _ _ _ S) by discriminate.
    apply has_column_false. intros Hin.
    destruct (Hspec _ Hin) as (_ & _ & _ & P). discriminate. }
  unfold transform_quality_data, cleaned, rbind.
  rewrite Hidx, Hgen, Hnone. simpl.
  unfold semaforo_count. rewrite <- columns_clean.
  split.
  - intros Hcount.
    destruct (add_semaforo (clean df)) as [out|e] eqn:Hsem.
    + exists out. rewrite (Hnogen out eq_refl). simpl. auto.
    + exfalso. pose proof (add_mapped_ok semaforo_map "semaforo"
                             "semaforo_numerico" (clean df)) as Hok.
      unfold add_semaforo in Hsem. rewrite Hsem in Hok. simpl in Hok.
      symmetry in Hok. apply orb_false_iff in Hok as [Hh Hc].
      apply negb_false_iff, has_column_positive in Hh.
      apply Nat.eqb_neq in Hc. rewrite <- columns_clean in Hc. lia.
  - intros Hcount. unfold add_semaforo, add_mapped, get_series.
    rewrite (proj2 (has_column_positive _ _)) by lia.
    destruct (Nat.eqb_spec (count_label (columns (clean df)) "semaforo") 1);
      [lia | reflexivity].
Qed.

End WithRuntime.

(** C9 on [plain]. *)
Lemma no_quality_column_no_general_index_witness :
  no_quality_column plain = true /\
  (semaforo_count plain <= 1)%nat /\
  exists out, transform_quality_data plain = Ok out /\
              cleaned plain = Ok out /\
              has_column out "indice_calidad_general" = false.
Proof.
  assert (no_quality_column plain = true) as H by (vm_compute; reflexivity).
  assert (semaforo_count plain <= 1)%nat as Hc by (vm_compute; lia).
  split; [exact H|]. split; [exact Hc|].
  exact (proj1 (no_quality_column_no_general_index plain H) Hc).
Defined.

(** ** C10: duplicate rows in the cleaned output *)

(** C10. There is an input whose cleaned output holds the same row twice:
    its two rows differ only in a cell that is missing in one and zero in the
    other, so the deduplication, which runs on the raw rows, keeps both, and
    the zero-fill then makes them equal. *)
Theorem cleaned_output_can_repeat_a_row :
  exists df out r,
    rectangular df /\
    rows df = [[Str "DLAGU6"; NaN; Str "Excelente"];
               [Str "DLAGU6"; Num 0; Str "Excelente"]] /\
    drop_duplicates df = df /\
    transform_quality_data df = Ok out /\
    rows out = [r; r] /\
    length (rows (drop_duplicates out)) = 1%nat.
Proof.
  exists missing_or_zero.
  exists (Frame ["sitio"; "dqo_mg_l"; "calidad_dqo"; "indice_calidad_dqo";
                 "indice_calidad_general"]
                [[Str "DLAGU6"; Num 0; Str "Excelente"; Num 1; Num 1];
                 [Str "DLAGU6"; Num 0; Str "Excelente"; Num 1; Num 1]]).
  exists [Str "DLAGU6"; Num 0; Str "Excelente"; Num 1; Num 1].
  split; [repeat constructor|].
  split; [reflexivity|].
  split; [reflexivity|].
  split; [vm_compute; reflexivity|].
  split; reflexivity.
Qed.

(** ** C2: the extract task *)

(** C2, as stated, fails: an empty raw file passes the extract task, which
    reports a size of zero bytes. *)
Lemma empty_file_passes_extract :
  path_exists empty_raw RAW_FILE = true /\
  getsize empty_raw RAW_FILE = Some 0%nat /\
  extract empty_raw = ([LogStart; LogFound 0], Ok tt).
Proof. repeat split; vm_compute; reflexivity. Qed.

(** C2, as amended. For every file system, the extract task raises the
    missing-source error when the raw file does not exist, and otherwise,
    the empty file included, ends normally after reporting the size of the
    file in bytes. It reads nothing else of the file: two files of the same
    size give the same run. *)
Theorem extract_checks_existence_only :
  forall fs : file_system,
    (fs !! RAW_FILE = None ->
     extract fs =
     ([LogStart; LogNotFound RAW_FILE;
       LogError (FileNotFoundError (RAW_FILE +:+ " no existe!"))],
      Raise (FileNotFoundError (RAW_FILE +:+ " no existe!")))) /\
    (forall content,
       fs !! RAW_FILE = Some content ->
       extract fs = ([LogStart; LogFound (String.length content)], Ok tt)) /\
    (forall (fs' : file_system) content content',
       fs !! RAW_FILE = Some content ->
       fs' !! RAW_FILE = Some content' ->
       String.length content = String.length content' ->
       extract fs = extract fs').
Proof.
  intros fs.
  assert (forall (g : file_system) content,
            g !! RAW_FILE = Some content ->
            extract g = ([LogStart; LogFound (String.length content)], Ok tt)) as Hfound.
  { intros g content H. unfold extract, path_exists, getsize. now rewrite H. }
  split; [|split].
  - intros H. unfold extract, path_exists. now rewrite H.
  - apply Hfound.
  - intros fs' content content' H H' Hlen.
    rewrite (Hfound _ _ H), (Hfound _ _ H'), Hlen. reflexivity.
Qed.

(** C2 on two files of the same size, one of them not a table, and on the
    empty file system. *)
Lemma extract_checks_existence_only_witness :
  raw_present !! RAW_FILE = Some "estado,calidad_dqo" /\
  raw_garbled !! RAW_FILE = Some ";;;;not a table;;;" /\
  String.length "estado,calidad_dqo" = String.length ";;;;not a table;;;" /\
  extract raw_present = extract raw_garbled /\
  extract raw_present = ([LogStart; LogFound 18], Ok tt) /\
  ((∅ : file_system) !! RAW_FILE = None ->
   extract ∅ =
   ([LogStart; LogNotFound RAW_FILE;
     LogError (FileNotFoundError (RAW_FILE +:+ " no existe!"))],
    Raise (FileNotFoundError (RAW_FILE +:+ " no existe!")))).
Proof.
  assert (raw_present !! RAW_FILE = Some "estado,calidad_dqo") as H1
    by (vm_compute; reflexivity).
  assert (raw_garbled !! RAW_FILE = Some ";;;;not a table;;;") as H2
    by (vm_compute; reflexivity).
  split; [exact H1|]. split; [exact H2|]. split; [reflexivity|].
  destruct (extract_checks_existence_only raw_present) as (_ & Hsize & Hsame).
  split; [exact (Hsame raw_garbled _ _ H1 H2 eq_refl)|].
  split; [exact (Hsize _ H1)|].
  exact (proj1 (extract_checks_existence_only ∅)).
Defined.

(** ** C4: the views are dropped before the table is replaced *)

Section LoadOrder.

Variable B : backend.

(** What the drop transaction does, case by case. *)
Lemma drop_views_run d tr :
  drop_views B (World d tr) =
  match run_ddl B drop_resumen d with
  | Ok d1 =>
      match run_ddl B drop_periodo d1 with
      | Ok d2 => (World d2 (tr ++ [drop_resumen; drop_periodo]), Ok tt)
      | Raise e => (World d (tr ++ [drop_resumen; drop_periodo]), Raise e)
      end
  | Raise e => (World d (tr ++ [drop_resumen]), Raise e)
  end.
Proof.
  unfold drop_views, transaction, bind, execute, note, drop_resumen,
    drop_periodo. simpl.
  destruct (run_ddl B _ d) as [d1|e]; simpl; [|reflexivity].
  destruct (run_ddl B _ d1) as [d2|e]; simpl;
    now rewrite <- app_assoc.
Qed.

Lemma drop_views_outcome d tr :
  snd (drop_views B (World d tr)) = snd (drop_views B (World d [])).
Proof.
  rewrite !drop_views_run.
  destruct (run_ddl B drop_resumen d) as [d1|e]; [|reflexivity].
  destruct (run_ddl B drop_periodo d1); reflexivity.
Qed.

Lemma drop_views_failure d tr w e :
  drop_views B (World d tr) = (w, Raise e) ->
  store w = d /\
  (sent w = tr ++ [drop_resumen] \/ sent w = tr ++ [drop_resumen; drop_periodo]).
Proof.
  rewrite drop_views_run.
  destruct (run_ddl B drop_resumen d) as [d1|e1].
  - destruct (run_ddl B drop_periodo d1) as [d2|e2]; intros H;
      inversion H; subst; simpl; auto.
  - intros H. inversion H; subst; simpl; auto.
Qed.

Lemma drop_views_success d tr w :
  drop_views B (World d tr) = (w, Ok tt) ->
  sent w = tr ++ [drop_resumen; drop_periodo].
Proof.
  rewrite drop_views_run.
  destruct (run_ddl B drop_resumen d) as [d1|e1].
  - destruct (run_ddl B drop_periodo d1) as [d2|e2]; intros H;
      inversion H; subst; reflexivity.
  - intros H. inversion H.
Qed.

(** The statements that follow the replacement of the table. *)
Lemma after_to_sql now df (w0 w : world B) res :
  bind B (to_sql B calidad_agua_clean (with_fecha_carga now df)
            IfExistsReplace false) (fun _ =>
    bind B (create_views B) (fun _ => verify B df)) w0 = (w, res) ->
  exists rest,
    sent w = sent w0 ++ replace_table (with_fecha_carga now df) :: rest /\
    existsb is_to_sql rest = false.
Proof.
  unfold create_views, verify, to_sql, transaction, execute, query, note,
    ret, bind. simpl.
  destruct (run_to_sql B _ _ _ _ (store w0)) as [d1 [[]|e1]]; simpl.
  2: { intros H. inversion H; subst. simpl. exists []. auto. }
  destruct (run_ddl B (CreateView _ _) d1) as [d2|e2]; simpl.
  2: { intros H. inversion H; subst. simpl. rewrite <- app_assoc. simpl. eauto. }
  destruct (run_ddl B (CreateView _ _) d2) as [d3|e3]; simpl.
  2: { intros H. inversion H; subst. simpl. rewrite <- !app_assoc. simpl. eauto. }
  destruct (run_query B (SelectCount _) d3) as [a|e4]; simpl.
  2: { intros H. inversion H; subst. simpl. rewrite <- !app_assoc. simpl. eauto. }
  destruct (has_column df "semaforo"); simpl.
  - destruct (run_query B (SelectSemaforoStats _) d3) as [a'|e5]; simpl;
      intros H; inversion H; subst; simpl; rewrite <- !app_assoc; simpl; eauto.
  - intros H. inversion H; subst. simpl. rewrite <- !app_assoc. simpl. eauto.
Qed.

End LoadOrder.

Section LoadRuns.

Variable B : backend.

Lemma load_run now df d tr :
  load B now (Ok df) (World d tr) =
  match run_query B SelectVersion d with
  | Ok _ =>
      match drop_views B (World d (tr ++ [SelectVersion])) with
      | (w2, Ok _) =>
          bind B (to_sql B calidad_agua_clean (with_fecha_carga now df)
            IfExistsReplace false)
            (fun _ => bind B (create_views B) (fun _ => verify B df)) w2
      | (w2, Raise e) => (w2, Raise e)
      end
  | Raise e => (World d (tr ++ [SelectVersion]), Raise e)
  end.
Proof.
  unfold load, lift, query, note. unfold bind. simpl.
  destruct (run_query B SelectVersion d) as [a|e]; [|reflexivity].
  destruct (drop_views B _) as [w2 [[]|e]]; reflexivity.
Qed.

Lemma load_unreadable now e d tr :
  load B now (Raise e) (World d tr) = (World d tr, Raise e).
Proof. reflexivity. Qed.

End LoadRuns.

Lemma existsb_is_to_sql_In l :
  existsb is_to_sql l = false -> forall t f m ix, ~ In (ToSql t f m ix) l.
Proof.
  intros H t f m ix Hin.
  assert (existsb is_to_sql l = true) as H'
    by (apply existsb_exists; exists (ToSql t f m ix); auto).
  congruence.
Qed.

(** C4. In every run of the load task, whatever the server does, the
    statements go out in one order: the connection check, the drop of the
    two views (if they exist, with their dependents), and only then the
    replacement of the table, which is sent once, for the frame read with
    its load time, with [if_exists='replace']. The two drops are one
    transaction: when either is refused the task fails with that error, no
    replacement is sent, and the database is in the state it had before the
    task, the destination table included. When both are accepted, the
    replacement is carried out on the state that the drops left, and the
    creation of the views starts from what the replacement left. *)
Theorem views_dropped_before_table_replaced :
  forall (B : backend) now parquet d w res,
    load B now parquet (World d []) = (w, res) ->
    (forall t f m ix,
       In (ToSql t f m ix) (sent w) ->
       exists df rest,
         parquet = Ok df /\
         ToSql t f m ix = replace_table (with_fecha_carga now df) /\
         sent w = [SelectVersion; drop_resumen; drop_periodo;
                   replace_table (with_fecha_carga now df)] ++ rest /\
         existsb is_to_sql rest = false /\
         is_ok (snd (drop_views B (World d []))) = true) /\
    (is_ok (snd (drop_views B (World d []))) = false ->
     is_ok res = false /\
     store w = d /\
     stored_table B (store w) calidad_agua_clean =
       stored_table B d calidad_agua_clean /\
     existsb is_to_sql (sent w) = false) /\
    (forall df a,
       parquet = Ok df -> run_query B SelectVersion d = Ok a ->
       match run_ddl B drop_resumen d with
       | Raise e => w = World d [SelectVersion; drop_resumen] /\ res = Raise e
       | Ok d1 =>
           match run_ddl B drop_periodo d1 with
           | Raise e =>
               w = World d [SelectVersion; drop_resumen; drop_periodo] /\
               res = Raise e
           | Ok d2 =>
               exists rest,
                 sent w = [SelectVersion; drop_resumen; drop_periodo;
                           replace_table (with_fecha_carga now df)] ++ rest /\
                 match run_to_sql B calidad_agua_clean (with_fecha_carga now df)
                                  IfExistsReplace false d2 with
                 | (d3, Raise e) => rest = [] /\ store w = d3 /\ res = Raise e
                 | (d3, Ok _) =>
                     exists rest',
                       rest = create_resumen :: rest' /\
                       forall e, run_ddl B create_resumen d3 = Raise e ->
                                 rest' = [] /\ store w = d3 /\ res = Raise e
                 end
           end
       end).
Proof.
  intros B now parquet d w res Hload.
  destruct parquet as [df|e0].
  2: { rewrite load_unreadable in Hload. inversion Hload; subst. simpl.
       split; [intros t f m ix []|]. split; [auto | discriminate]. }
  rewrite load_run in Hload. simpl in Hload.
  destruct (run_query B SelectVersion d) as [a|e1].
  2: { inversion Hload; subst. simpl. split.
       - intros t f m ix [H|[]]. discriminate.
       - split; [auto | discriminate]. }
  rewrite <- (drop_views_outcome B d [SelectVersion]).
  pose proof (drop_views_run B d [SelectVersion]) as Hrun.
  destruct (drop_views B (World d [SelectVersion])) as [w2 [[]|e2]] eqn:Hdrop.
  - pose proof Hdrop as Hsent2. apply drop_views_success in Hsent2.
    simpl in Hsent2.
    pose proof Hload as Hafter.
    apply after_to_sql in Hafter as (rest & Hsent & Hrest).
    rewrite Hsent2 in Hsent. simpl. split; [|split; [discriminate|]].
    + intros t f m ix Hin. rewrite Hsent in Hin. simpl in Hin.
      destruct Hin as [H|[H|[H|[H|Hin]]]]; try discriminate.
      * exists df, rest. rewrite Hsent. auto.
      * exfalso. now apply (existsb_is_to_sql_In _ Hrest t f m ix).
    + intros df' a' [= <-] _.
      destruct (run_ddl B drop_resumen d) as [d1|]; [|discriminate].
      destruct (run_ddl B drop_periodo d1) as [d2|]; [|discriminate].
      inversion Hrun; subst w2; clear Hrun.
      exists rest. split; [exact Hsent|].
      revert Hload Hsent.
      unfold create_views, verify, to_sql, transaction, execute, query, note,
        ret, bind, replace_table, create_resumen. simpl.
      destruct (run_to_sql B _ _ _ _ d2) as [d3 [[]|e3]]; simpl.
      2: { intros H Hs. inversion H; subst. simpl in Hs.
           injection Hs as <-. auto. }
      destruct (run_ddl B (CreateView _ _) d3) as [d4|e4]; simpl.
      2: { intros H Hs. inversion H; subst. simpl in Hs.
           injection Hs as <-. eexists. split; [reflexivity|].
           intros e [= <-]. auto. }
      intros H Hs.
      assert (exists tl, sent w = [SelectVersion; drop_resumen; drop_periodo;
                ToSql calidad_agua_clean (with_fecha_carga now df)
                      IfExistsReplace false;
                CreateView resumen_por_estado resumen_por_estado_sql] ++ tl)
        as [tl Htl].
      { revert H. destruct (run_ddl B (CreateView _ _) d4) as [d5|e5]; simpl.
        2: { intros H. inversion H; subst. simpl. eexists. reflexivity. }
        destruct (run_query B (SelectCount _) d5) as [c|e6]; simpl.
        2: { intros H. inversion H; subst. simpl. eexists. reflexivity. }
        destruct (has_column df "semaforo"); simpl.
        - destruct (run_query B (SelectSemaforoStats _) d5); simpl;
            intros H; inversion H; subst; simpl; eexists; reflexivity.
        - intros H. inversion H; subst. simpl. eexists. reflexivity. }
      rewrite Htl in Hs. simpl in Hs. injection Hs as <-.
      exists tl. split; [reflexivity|]. discriminate.
  - inversion Hload; subst.
    pose proof Hdrop as Hfail. apply drop_views_failure in Hfail as [Hstore Hsent].
    simpl. split; [|split].
    + intros t f m ix Hin. exfalso.
      destruct Hsent as [Hs|Hs]; rewrite Hs in Hin; simpl in Hin;
        repeat destruct Hin as [Hin|Hin]; try discriminate; auto.
    + intros _. rewrite Hstore. repeat split.
      destruct Hsent as [-> | ->]; reflexivity.
    + intros df' a' _ _.
      destruct (run_ddl B drop_resumen d) as [d1|e3].
      * destruct (run_ddl B drop_periodo d1) as [d2|e4]; [discriminate|].
        inversion Hrun; subst. auto.
      * inversion Hrun; subst. auto.
Qed.

(** C4 on two runs. On [pg_locked] the first drop is refused: the task
    fails and the table of the earlier load stays. On [pg_before] the two
    views are dropped, then the table is replaced, then the first view is
    created. *)
Lemma views_dropped_before_table_replaced_witness :
  let now := Str "2025-11-23 06:00:00" in
  let refused := load pg now (Ok sample_cleaned) (@World pg pg_locked []) in
  let run := load pg now (Ok monitoring_cleaned) (@World pg pg_before []) in
  (is_ok (snd (drop_views pg (@World pg pg_locked []))) = false /\
   is_ok (snd refused) = false /\
   store (fst refused) = pg_locked /\
   stored_table pg (store (fst refused)) calidad_agua_clean =
     stored_table pg pg_locked calidad_agua_clean /\
   existsb is_to_sql (sent (fst refused)) = false) /\
  (snd run = Ok tt /\
   exists rest',
     sent (fst run) =
       [SelectVersion; drop_resumen; drop_periodo;
        replace_table (with_fecha_carga now monitoring_cleaned)] ++
       create_resumen :: rest').
Proof.
  intros now refused run. split.
  - assert (is_ok (snd (drop_views pg (@World pg pg_locked []))) = false) as Hfail
      by (vm_compute; reflexivity).
    split; [exact Hfail|].
    exact (proj1 (proj2 (views_dropped_before_table_replaced
                           pg _ _ _ (fst refused) (snd refused)
                           (surjective_pairing refused))) Hfail).
  - split; [vm_compute; reflexivity|].
    pose proof (proj2 (proj2 (views_dropped_before_table_replaced
                                pg _ _ _ (fst run) (snd run)
                                (surjective_pairing run)))
                      monitoring_cleaned [[Str "PostgreSQL"]] eq_refl eq_refl) as H.
    vm_compute in H.
    destruct H as (rest & Hsent & rest' & -> & _).
    exists rest'. vm_compute. exact Hsent.
Defined.

(** ** C6: the load replaces the table *)

Lemma pg_lawful : lawful pg.
Proof.
  split.
  - intros t f d d'. simpl. unfold pg_to_sql, with_index.
    destruct (pg_tables d !! t).
    + destruct (decide (pg_views d = ∅)); intros H; inversion H; subst; simpl.
      apply lookup_insert_eq.
    + intros H; inversion H; subst; simpl. apply lookup_insert_eq.
  - intros v body d d'. simpl.
    destruct (pg_views d !! v); [discriminate|].
    destruct (pg_tables d !! calidad_agua_clean) as [f|]; [|discriminate].
    destruct (forallb (has_column f) (view_columns v)); [|discriminate].
    intros H; inversion H; subst; simpl. repeat split.
    + apply lookup_insert_eq.
    + intros v' Hne. now apply lookup_insert_ne.
Qed.

Lemma with_fecha_carga_length now df :
  length (rows (with_fecha_carga now df)) = length (rows df).
Proof.
  unfold with_fecha_carga. simpl. apply zip_rows_length. apply repeat_length.
Qed.

Section LoadReplaces.

Variable B : backend.
Hypothesis HB : lawful B.

(** The database after a load that succeeded. *)
Lemma load_result now df d tr w :
  load B now (Ok df) (World d tr) = (w, Ok tt) ->
  stored_table B (store w) calidad_agua_clean = Some (with_fecha_carga now df) /\
  view_definition B (store w) resumen_por_estado = Some resumen_por_estado_sql /\
  view_definition B (store w) calidad_por_periodo = Some calidad_por_periodo_sql.
Proof.
  rewrite load_run.
  destruct (run_query B SelectVersion d) as [a|e]; [|discriminate].
  destruct (drop_views B _) as [w2 [[]|e]]; [|discriminate].
  unfold create_views, verify, to_sql, transaction, execute, query, note,
    ret, bind. simpl.
  destruct (run_to_sql B _ _ _ _ (store w2)) as [d1 [[]|e1]] eqn:H1; simpl;
    [|discriminate].
  destruct (run_ddl B (CreateView _ _) d1) as [d2|e2] eqn:H2; simpl;
    [|discriminate].
  destruct (run_ddl B (CreateView _ _) d2) as [d3|e3] eqn:H3; simpl;
    [|discriminate].
  apply (to_sql_replaces B HB) in H1.
  apply (create_view_defines B HB) in H2 as (V2 & O2 & T2).
  apply (create_view_defines B HB) in H3 as (V3 & O3 & T3).
  assert (stored_table B d3 calidad_agua_clean = Some (with_fecha_carga now df)
          /\ view_definition B d3 resumen_por_estado = Some resumen_por_estado_sql
          /\ view_definition B d3 calidad_por_periodo = Some calidad_por_periodo_sql)
    as Hfinal.
  { rewrite T3, T2, H1, (O3 resumen_por_estado), V2, V3 by discriminate. auto. }
  destruct (run_query B (SelectCount _) d3) as [c|e4]; simpl; [|discriminate].
  destruct (has_column df "semaforo"); simpl.
  - destruct (run_query B (SelectSemaforoStats _) d3); simpl; [|discriminate].
    intros H; inversion H; subst; exact Hfinal.
  - intros H; inversion H; subst; exact Hfinal.
Qed.

End LoadReplaces.

(** What a load that ends normally has sent. *)
Lemma load_sent (B : backend) now df d tr w :
  load B now (Ok df) (World d tr) = (w, Ok tt) ->
  sent w = tr ++ load_statements now df.
Proof.
  rewrite load_run.
  destruct (run_query B SelectVersion d) as [a|e]; [|discriminate].
  destruct (drop_views B _) as [[d2 tr2] [[]|e]] eqn:Hdrop; [|discriminate].
  apply drop_views_success in Hdrop. simpl in Hdrop. subst tr2.
  unfold load_statements, create_views, verify, to_sql, transaction, execute,
    query, note, ret, bind. simpl.
  destruct (run_to_sql B _ _ _ _ d2) as [d3 [[]|e1]]; simpl; [|discriminate].
  destruct (run_ddl B (CreateView _ _) d3) as [d4|e2]; simpl; [|discriminate].
  destruct (run_ddl B (CreateView _ _) d4) as [d5|e3]; simpl; [|discriminate].
  destruct (run_query B (SelectCount _) d5) as [c|e4]; simpl; [|discriminate].
  destruct (has_column df "semaforo"); simpl.
  - destruct (run_query B (SelectSemaforoStats _) d5); simpl; [|discriminate].
    intros H. inversion H; subst. simpl. now rewrite <- !app_assoc.
  - intros H. inversion H; subst. simpl. now rewrite <- !app_assoc.
Qed.

(** C6. A load that succeeds has asked for the replacement of the table,
    [to_sql(..., if_exists='replace', index=False)], once, and for nothing
    else that writes rows. So on a server that honours replacement and view
    creation it leaves in the destination table exactly the rows of the
    cleaned input (with the load time added), whatever the table held
    before, and the two views with their fixed definitions; and a second
    load of the same input, right after the first, ends with the same number
    of rows and the same two view definitions as the first. *)
Theorem load_twice_same_as_once :
  forall (B : backend) now1 now2 df d tr w1 w2,
    lawful B ->
    load B now1 (Ok df) (World d tr) = (w1, Ok tt) ->
    load B now2 (Ok df) w1 = (w2, Ok tt) ->
    stored_table B (store w1) calidad_agua_clean = Some (with_fecha_carga now1 df) /\
    stored_table B (store w2) calidad_agua_clean = Some (with_fecha_carga now2 df) /\
    row_count B (store w1) = Some (length (rows df)) /\
    row_count B (store w2) = row_count B (store w1) /\
    view_definition B (store w2) resumen_por_estado =
      view_definition B (store w1) resumen_por_estado /\
    view_definition B (store w2) calidad_por_periodo =
      view_definition B (store w1) calidad_por_periodo /\
    view_definition B (store w1) resumen_por_estado = Some resumen_por_estado_sql /\
    view_definition B (store w1) calidad_por_periodo = Some calidad_por_periodo_sql /\
    sent w1 = tr ++ load_statements now1 df /\
    sent w2 = sent w1 ++ load_statements now2 df /\
    List.filter is_to_sql (load_statements now1 df) =
      [replace_table (with_fecha_carga now1 df)].
Proof.
  intros B now1 now2 df d tr w1 w2 HB H1 H2.
  destruct w1 as [d1 tr1].
  pose proof (load_sent B _ _ _ _ _ H1) as S1.
  pose proof (load_sent B _ _ _ _ _ H2) as S2.
  destruct (load_result B HB _ _ _ _ _ H1) as (T1 & R1 & P1).
  destruct (load_result B HB _ _ _ _ _ H2) as (T2 & R2 & P2).
  simpl in T1, R1, P1.
  assert (forall now d', stored_table B d' calidad_agua_clean =
                         Some (with_fecha_carga now df) ->
                         row_count B d' = Some (length (rows df))) as Hcount.
  { intros now d' T. unfold row_count. rewrite T.
    change (Some (length (rows (with_fecha_carga now df))) =
            Some (length (rows df))).
    now rewrite with_fecha_carga_length. }
  simpl store.
  rewrite (Hcount _ _ T1), (Hcount _ _ T2), T1, T2, R1, R2, P1, P2.
  repeat (split; [reflexivity|]).
  split; [exact S1|]. split; [exact S2|].
  unfold load_statements. simpl. now destruct (has_column df "semaforo").
Qed.

(** C6 on [pg_before], a server that holds an older table of three rows
    and older views, and that refuses a view over columns the table does not
    have: two loads of [monitoring_cleaned] in succession. *)
Lemma load_twice_same_as_once_witness :
  let first := load pg (Str "2025-11-23 06:00:00") (Ok monitoring_cleaned)
                    (@World pg pg_before []) in
  let second := load pg (Str "2025-11-23 06:05:00") (Ok monitoring_cleaned)
                     (fst first) in
  lawful pg /\
  snd first = Ok tt /\ snd second = Ok tt /\
  row_count pg (store (fst first)) = Some 2%nat /\
  row_count pg (store (fst second)) = row_count pg (store (fst first)) /\
  view_definition pg (store (fst second)) resumen_por_estado =
    view_definition pg (store (fst first)) resumen_por_estado /\
  view_definition pg (store (fst second)) calidad_por_periodo =
    view_definition pg (store (fst first)) calidad_por_periodo.
Proof.
  intros first second.
  assert (snd first = Ok tt) as H1 by (vm_compute; reflexivity).
  assert (snd second = Ok tt) as H2 by (vm_compute; reflexivity).
  split; [exact pg_lawful|]. split; [exact H1|]. split; [exact H2|].
  assert (first = (fst first, Ok tt)) as E1
    by (rewrite <- H1; apply surjective_pairing).
  assert (second = (fst second, Ok tt)) as E2
    by (rewrite <- H2; apply surjective_pairing).
  destruct (load_twice_same_as_once pg _ _ _ _ _ _ _ pg_lawful E1 E2)
    as (_ & _ & C1 & C2 & V1 & V2 & _).
  repeat split; assumption.
Defined.

(** ** C5: the two ways of reading the raw file *)

Lemma chunks_fuel_enough {A} n (l : list A) f1 f2 :
  (0 < n)%nat -> (length l <= f1)%nat -> (length l <= f2)%nat ->
  chunks_fuel f1 n l = chunks_fuel f2 n l.
Proof.
  intros Hn. revert f2 l.
  induction f1 as [|f1 IH]; intros f2 l H1 H2.
  - destruct l; [|simpl in H1; lia]. now destruct f2.
  - destruct l as [|x l]; [now destruct f2|].
    destruct f2 as [|f2]; [simpl in H2; lia|].
    simpl. f_equal. apply IH.
    + rewrite length_skipn. simpl in *. lia.
    + rewrite length_skipn. simpl in *. lia.
Qed.

Lemma chunks_short {A} n (l : list A) :
  l <> [] -> (length l <= n)%nat -> chunks n l = [l].
Proof.
  intros Hl Hn. unfold chunks. destruct l as [|x l]; [congruence|].
  simpl length. cbn [chunks_fuel].
  rewrite firstn_all2 by assumption.
  rewrite skipn_all2 by assumption. now destruct (length l).
Qed.

Lemma chunks_full {A} n (l1 l2 : list A) :
  (0 < n)%nat -> length l1 = n -> chunks n (l1 ++ l2) = l1 :: chunks n l2.
Proof.
  intros Hn Hlen. unfold chunks.
  destruct l1 as [|x l1]; [simpl in Hlen; lia|].
  rewrite length_app. simpl length. cbn [chunks_fuel Nat.add app].
  change (x :: l1 ++ l2) with ((x :: l1) ++ l2).
  rewrite firstn_app, skipn_app, Hlen.
  rewrite firstn_all2, skipn_all2 by lia.
  replace (n - n)%nat with 0%nat by lia. simpl firstn. simpl skipn.
  rewrite app_nil_r. simpl app. f_equal.
  apply chunks_fuel_enough; [assumption | lia | lia].
Qed.

Lemma concat_chunks_fuel {A} n fuel (l : list A) :
  (0 < n)%nat -> (length l <= fuel)%nat -> concat (chunks_fuel fuel n l) = l.
Proof.
  intros Hn. revert l. induction fuel as [|fuel IH]; intros l Hl.
  - destruct l; [reflexivity | simpl in Hl; lia].
  - destruct l as [|x l]; [reflexivity|].
    cbn [chunks_fuel concat]. rewrite IH.
    + apply firstn_skipn.
    + rewrite length_skipn. simpl in *. lia.
Qed.

Lemma concat_chunks {A} n (l : list A) :
  (0 < n)%nat -> concat (chunks n l) = l.
Proof. intros Hn. now apply concat_chunks_fuel. Qed.

Lemma chunks_fuel_In {A} n fuel (l u : list A) x :
  In u (chunks_fuel fuel n l) -> In x u -> In x l.
Proof.
  revert l. induction fuel as [|fuel IH]; intros l Hu Hx; [destruct Hu|].
  destruct l as [|y l]; [destruct Hu|].
  cbn [chunks_fuel] in Hu. rewrite <- (firstn_skipn n (y :: l)).
  apply in_or_app. destruct Hu as [<-|Hu]; [now left | right; eauto].
Qed.

Lemma chunks_In {A} n (l u : list A) x :
  In u (chunks n l) -> In x u -> In x l.
Proof. apply chunks_fuel_In. Qed.

Section ReaderFacts.

Variable na : string -> bool.
Variable number : string -> option Q.
Variable buffer_lines : nat -> nat.

Lemma read_rows_one_unit w recs :
  recs <> [] -> (length recs <= buffer_lines w)%nat ->
  read_rows na number buffer_lines w recs = read_unit na number w recs.
Proof.
  intros Hne Hlen. unfold read_rows.
  rewrite chunks_short by assumption. simpl. apply app_nil_r.
Qed.

(** A file of [n] equal records followed by one more, in a table narrow
    enough for the parser to take [n + 1] rows in one unit. *)
Lemma read_csv_chunked_two_batches n hdr r last :
  (0 < n)%nat -> (n < buffer_lines (length hdr))%nat ->
  rows (read_csv_chunked na number buffer_lines n
          (CsvFile hdr (repeat r n ++ [last]))) =
  read_unit na number (length hdr) (repeat r n) ++
  read_unit na number (length hdr) [last].
Proof.
  intros Hn Hb. unfold read_csv_chunked. simpl.
  rewrite chunks_full by (auto using repeat_length).
  rewrite chunks_short by (simpl; (discriminate || lia)).
  simpl. rewrite app_nil_r.
  rewrite !read_rows_one_unit; try reflexivity.
  - discriminate.
  - simpl. lia.
  - destruct n; [lia | discriminate].
  - rewrite repeat_length. lia.
Qed.

Lemma read_csv_one_unit n hdr r last :
  (n < buffer_lines (length hdr))%nat ->
  rows (read_csv na number buffer_lines (CsvFile hdr (repeat r n ++ [last]))) =
  read_unit na number (length hdr) (repeat r n ++ [last]).
Proof.
  intros Hb. unfold read_csv. simpl. apply read_rows_one_unit.
  - destruct (repeat r n); discriminate.
  - rewrite length_app, repeat_length. simpl. lia.
Qed.

Lemma numeric_column_repeat n r j :
  (0 < n)%nat ->
  numeric_column na number (repeat r n) j = numeric_field na number (nth j r "").
Proof.
  unfold numeric_column. intros Hn. induction n as [|n IH]; [lia|].
  simpl. destruct n; [apply andb_true_r|].
  rewrite IH by lia. now destruct (numeric_field na number (nth j r "")).
Qed.

Lemma numeric_column_app u1 u2 j :
  numeric_column na number (u1 ++ u2) j =
  numeric_column na number u1 j && numeric_column na number u2 j.
Proof. unfold numeric_column. apply forallb_app. Qed.

Lemma read_unit_first w x rest unit :
  unit = x :: rest ->
  read_unit na number w unit =
  map (fun j => read_field na number (numeric_column na number unit j) (nth j x ""))
      (seq 0 w)
  :: map (fun rec =>
            map (fun j => read_field na number (numeric_column na number unit j)
                                     (nth j rec ""))
                (seq 0 w)) rest.
Proof. intros ->. reflexivity. Qed.

(** The first cell of the first row, batch by batch and for the whole
    file, when the records start with a numeric literal [a] and the last
    one with a text [b]. *)
Lemma first_cell_by_batches n h hdr a ra b rb q :
  (0 < n)%nat -> (n < buffer_lines (S (length hdr)))%nat ->
  na a = false -> number a = Some q ->
  exists r rest,
    rows (read_csv_chunked na number buffer_lines n
            (CsvFile (h :: hdr) (repeat (a :: ra) n ++ [b :: rb]))) =
    (Num q :: r) :: rest.
Proof.
  intros Hn Hb Ha Hq.
  rewrite read_csv_chunked_two_batches by assumption.
  assert (numeric_column na number (repeat (a :: ra) n) 0 = true) as Hcol.
  { rewrite numeric_column_repeat by assumption. simpl.
    unfold numeric_field. now rewrite Hq, orb_true_r. }
  destruct n as [|n]; [lia|].
  rewrite (read_unit_first _ (a :: ra) (repeat (a :: ra) n)
             (repeat (a :: ra) (S n)) eq_refl).
  cbn [length seq map nth app]. rewrite Hcol.
  unfold read_field. rewrite Ha, Hq. eauto.
Qed.

Lemma first_cell_whole n h hdr a ra b rb :
  (0 < n)%nat -> (n < buffer_lines (S (length hdr)))%nat ->
  na a = false -> na b = false -> number b = None ->
  exists r rest,
    rows (read_csv na number buffer_lines
            (CsvFile (h :: hdr) (repeat (a :: ra) n ++ [b :: rb]))) =
    (Str a :: r) :: rest.
Proof.
  intros Hn Hb Ha Hnb Hqb.
  rewrite read_csv_one_unit by assumption.
  assert (numeric_column na number (repeat (a :: ra) n ++ [b :: rb]) 0 = false)
    as Hcol.
  { rewrite numeric_column_app.
    assert (numeric_column na number [b :: rb] 0 = false) as ->;
      [|apply andb_false_r].
    unfold numeric_column, numeric_field. simpl. now rewrite Hnb, Hqb. }
  destruct n as [|n]; [lia|].
  rewrite (read_unit_first _ (a :: ra) (repeat (a :: ra) n ++ [b :: rb])
             (repeat (a :: ra) (S n) ++ [b :: rb]) eq_refl).
  cbn [length seq map nth app]. rewrite Hcol.
  unfold read_field. rewrite Ha. eauto.
Qed.

(** The cells of a record when every column has the type it has over
    [recs]. *)
Lemma read_unit_uniform hdr recs unit :
  uniform_columns na number (CsvFile hdr recs) ->
  (forall rec, In rec unit -> In rec recs) ->
  read_unit na number (length hdr) unit =
  map (fun rec =>
         map (fun j => read_field na number (numeric_column na number recs j)
                                  (nth j rec ""))
             (seq 0 (length hdr)))
      unit.
Proof.
  intros Hu Hsub. unfold read_unit.
  apply map_ext_in. intros rec Hrec.
  apply map_ext_in. intros j Hj. apply in_seq in Hj.
  destruct (Hu j) as [Hnum|Htext]; [simpl; lia | |].
  - simpl in Hnum. rewrite Hnum.
    assert (numeric_column na number unit j = true) as ->; [|reflexivity].
    unfold numeric_column in *. apply forallb_forall. intros r Hr.
    exact (proj1 (forallb_forall _ _) Hnum r (Hsub r Hr)).
  - unfold read_field. simpl in Htext. rewrite (Htext rec (Hsub rec Hrec)).
    now destruct (na _), (numeric_column na number unit j),
      (numeric_column na number recs j).
Qed.

Lemma read_rows_uniform hdr recs l :
  (0 < buffer_lines (length hdr))%nat ->
  uniform_columns na number (CsvFile hdr recs) ->
  (forall rec, In rec l -> In rec recs) ->
  read_rows na number buffer_lines (length hdr) l =
  map (fun rec =>
         map (fun j => read_field na number (numeric_column na number recs j)
                                  (nth j rec ""))
             (seq 0 (length hdr)))
      l.
Proof.
  intros Hb Hu Hsub. unfold read_rows.
  rewrite <- (concat_chunks (buffer_lines (length hdr)) l Hb) at 2.
  rewrite concat_map. f_equal.
  apply map_ext_in. intros unit Hunit.
  apply read_unit_uniform; [assumption|].
  intros rec Hrec. apply Hsub. eapply chunks_In; eauto.
Qed.

(** On a file whose columns are typed the same way wherever it is cut, the
    read in batches and the read of the whole file give the same frame. *)
Lemma read_paths_agree_on_uniform_columns n f :
  (0 < n)%nat -> (0 < buffer_lines (length (header f)))%nat ->
  uniform_columns na number f ->
  read_csv_chunked na number buffer_lines n f =
  read_csv na number buffer_lines f.
Proof.
  intros Hn Hb Hu. destruct f as [hdr recs].
  unfold read_csv_chunked, read_csv. simpl. f_equal.
  rewrite (read_rows_uniform hdr recs recs Hb Hu) by auto.
  rewrite <- (concat_chunks n recs Hn) at 2.
  rewrite concat_map. f_equal.
  apply map_ext_in. intros batch Hbatch.
  apply read_rows_uniform; [assumption | assumption |].
  intros rec Hrec. eapply chunks_In; eauto.
Qed.

End ReaderFacts.

Lemma chunk_size_positive : (0 < chunk_size)%nat.
Proof. apply Nat.ltb_lt. vm_compute. reflexivity. Qed.

Lemma big_file_is_big : (size_threshold <? file_size big_file)%N = true.
Proof. vm_compute. reflexivity. Qed.

(** Whatever pandas takes for missing-value markers and numeric literals,
    as long as [01] reads as the number 1 and [abc] as a text, and whenever
    the parser takes more than 10,000 rows of a two-column table per unit:
    the chunked read types the key column batch by batch and returns the
    number 1 where the whole read returns the text [01]. *)
Lemma chunked_read_depends_on_batches na number buffer_lines :
  na "01" = false -> na "abc" = false ->
  number "01" = Some 1%Q -> number "abc" = None ->
  (chunk_size < buffer_lines 2)%nat ->
  read_raw na number buffer_lines big_file =
    read_csv_chunked na number buffer_lines chunk_size big_file /\
  (exists r rest,
     rows (read_raw na number buffer_lines big_file) = (Num 1 :: r) :: rest) /\
  (exists r rest,
     rows (read_csv na number buffer_lines big_file) = (Str "01" :: r) :: rest) /\
  read_raw na number buffer_lines big_file <>
    read_csv na number buffer_lines big_file.
Proof.
  intros Ha Hb Hqa Hqb Hbuf.
  assert (read_raw na number buffer_lines big_file =
          read_csv_chunked na number buffer_lines chunk_size big_file) as Hpath
    by (unfold read_raw; now rewrite big_file_is_big).
  destruct (first_cell_by_batches na number buffer_lines chunk_size
              "clave" ["observaciones"] "01" [wide_note] "abc" [wide_note] 1%Q
              chunk_size_positive Hbuf Ha Hqa) as (r1 & rest1 & H1).
  destruct (first_cell_whole na number buffer_lines chunk_size
              "clave" ["observaciones"] "01" [wide_note] "abc" [wide_note]
              chunk_size_positive Hbuf Ha Hb Hqb) as (r2 & rest2 & H2).
  fold big_file in H1, H2.
  split; [exact Hpath|]. rewrite Hpath.
  split; [eauto|]. split; [eauto|].
  intros E. rewrite E, H2 in H1. discriminate.
Qed.

(** C5. The two read paths do not always give the same table. On
    [big_file], which is larger than 5 MiB and so is read in batches of
    10,000 rows, the first batch holds only keys that read as numbers and
    the key column of its rows is numeric, while a read of the whole file
    sees the text key of the last record and keeps every key as text. *)
Theorem chunked_read_differs_from_whole_read :
  (size_threshold <? file_size big_file)%N = true /\
  read_raw empty_field integer_literal pandas_buffer_lines big_file =
    read_csv_chunked empty_field integer_literal pandas_buffer_lines
                     chunk_size big_file /\
  (exists r rest,
     rows (read_raw empty_field integer_literal pandas_buffer_lines big_file) =
     (Num 1 :: r) :: rest) /\
  (exists r rest,
     rows (read_csv empty_field integer_literal pandas_buffer_lines big_file) =
     (Str "01" :: r) :: rest) /\
  read_raw empty_field integer_literal pandas_buffer_lines big_file <>
    read_csv empty_field integer_literal pandas_buffer_lines big_file.
Proof.
  split; [exact big_file_is_big|].
  apply chunked_read_depends_on_batches.
  - reflexivity.
  - reflexivity.
  - vm_compute. reflexivity.
  - vm_compute. reflexivity.
  - apply Nat.ltb_lt. vm_compute. reflexivity.
Qed.

(** ** Runs on the small server *)

Lemma pg_drop_view v (d : pg_state) :
  pg_owner d = true ->
  exists d',
    pg_ddl (DropViewIfExistsCascade v) d = Ok d' /\
    pg_owner d' = true /\ pg_tables d' = pg_tables d /\
    pg_views d' = delete v (pg_views d).
Proof.
  intros Ho. simpl. destruct (pg_views d !! v) eqn:E.
  - rewrite Ho. eexists. repeat split; auto.
  - exists d. repeat split; auto. symmetry. now apply delete_id.
Qed.

Lemma has_column_with_fecha_carga now df l :
  has_column df l = true -> has_column (with_fecha_carga now df) l = true.
Proof.
  intros H. apply has_column_In. apply has_column_In in H.
  unfold with_fecha_carga, set_series. simpl.
  destruct (has_column df "fecha_carga"); [exact H|].
  apply in_or_app. now left.
Qed.

Lemma views_fit_with_fecha_carga now df v :
  views_fit df = true ->
  v = resumen_por_estado \/ v = calidad_por_periodo ->
  forallb (has_column (with_fecha_carga now df)) (view_columns v) = true.
Proof.
  intros Hfit Hv. apply andb_prop in Hfit as [H1 H2].
  apply forallb_forall. intros l Hl. apply has_column_with_fecha_carga.
  destruct Hv as [-> | ->].
  - exact (proj1 (forallb_forall _ _) H1 l Hl).
  - exact (proj1 (forallb_forall _ _) H2 l Hl).
Qed.

(** On a server where the task owns the views and no other view depends on
    the table, the load of a frame that has the columns of the two views
    succeeds, and leaves such a server. *)
Lemma pg_load_succeeds now df (d : pg_state) tr :
  pg_ready d -> views_fit df = true ->
  exists w, load pg now (Ok df) (@World pg d tr) = (w, Ok tt) /\
            pg_ready (store w).
Proof.
  intros [Ho Hv] Hfit.
  pose proof (views_fit_with_fecha_carga now df resumen_por_estado Hfit
                (or_introl eq_refl)) as F1.
  pose proof (views_fit_with_fecha_carga now df calidad_por_periodo Hfit
                (or_intror eq_refl)) as F2.
  assert (has_column df "semaforo" = true) as Hsem.
  { apply andb_prop in Hfit as [H1 _].
    apply (proj1 (forallb_forall _ _) H1). simpl. auto. }
  pose proof (has_column_with_fecha_carga now df _ Hsem) as Hsem'.
  rewrite load_run. simpl run_query. cbv iota.
  rewrite drop_views_run.
  destruct (pg_drop_view resumen_por_estado d Ho) as (d1 & E1 & O1 & T1 & V1).
  destruct (pg_drop_view calidad_por_periodo d1 O1) as (d2 & E2 & O2 & T2 & V2).
  change (run_ddl pg drop_resumen d) with (pg_ddl drop_resumen d).
  unfold drop_resumen. rewrite E1.
  change (run_ddl pg drop_periodo d1) with (pg_ddl drop_periodo d1).
  unfold drop_periodo. rewrite E2.
  assert (pg_views d2 = ∅) as Hempty.
  { rewrite V2, V1. apply map_eq. intros v. rewrite lookup_empty.
    destruct (decide (v = calidad_por_periodo)) as [->|N1];
      [apply lookup_delete_eq|].
    rewrite lookup_delete_ne by congruence.
    destruct (decide (v = resumen_por_estado)) as [->|N2];
      [apply lookup_delete_eq|].
    rewrite lookup_delete_ne by congruence. now apply Hv. }
  unfold create_views, verify, to_sql, transaction, execute, query, note,
    ret, bind. cbn [store sent run_to_sql run_ddl run_query pg].
  assert (exists d3, pg_to_sql calidad_agua_clean (with_fecha_carga now df)
                               IfExistsReplace false d2
                     = (d3, Ok tt) /\
                     pg_views d3 = ∅ /\ pg_owner d3 = true /\
                     pg_tables d3 !! calidad_agua_clean =
                     Some (with_fecha_carga now df)) as (d3 & E3 & V3 & O3 & T3).
  { unfold pg_to_sql, with_index. destruct (pg_tables d2 !! calidad_agua_clean).
    - destruct (decide (pg_views d2 = ∅)); [|contradiction].
      eexists. repeat split; simpl; auto. apply lookup_insert_eq.
    - eexists. repeat split; simpl; auto. apply lookup_insert_eq. }
  rewrite E3. cbn [store sent].
  unfold pg_ddl at 1. rewrite V3, lookup_empty, T3, F1.
  cbn [store sent pg_views pg_tables].
  unfold pg_ddl at 1. cbn [pg_views pg_tables].
  rewrite lookup_insert_ne by discriminate. rewrite lookup_empty, T3, F2.
  cbn [store sent pg_views pg_tables pg_owner pg_query]. rewrite T3.
  assert (pg_ready
            (PgState (pg_tables d3)
               (<[calidad_por_periodo:=calidad_por_periodo_sql]>
                  (<[resumen_por_estado:=resumen_por_estado_sql]> ∅))
               (pg_owner d3))) as Hready.
  { split; [exact O3|]. intros v N1 N2. simpl.
    rewrite !lookup_insert_ne by congruence. apply lookup_empty. }
  rewrite Hsem.
  cbn [store sent pg_tables pg_views pg_owner pg_query]. rewrite T3, Hsem'.
  eexists. split; [reflexivity | exact Hready].
Qed.

(** On such a server the load of such a frame can always be run twice in
    succession, and the second run ends with the row count and the view
    definitions of the first. *)
Lemma pg_load_twice now1 now2 df (d : pg_state) :
  pg_ready d -> views_fit df = true ->
  exists w1 w2,
    load pg now1 (Ok df) (@World pg d []) = (w1, Ok tt) /\
    load pg now2 (Ok df) w1 = (w2, Ok tt) /\
    row_count pg (store w2) = row_count pg (store w1) /\
    view_definition pg (store w2) resumen_por_estado =
      view_definition pg (store w1) resumen_por_estado /\
    view_definition pg (store w2) calidad_por_periodo =
      view_definition pg (store w1) calidad_por_periodo.
Proof.
  intros Hd Hfit.
  destruct (pg_load_succeeds now1 df d [] Hd Hfit) as (w1 & H1 & R1).
  destruct w1 as [d1 tr1].
  destruct (pg_load_succeeds now2 df d1 tr1 R1 Hfit) as (w2 & H2 & _).
  exists (@World pg d1 tr1), w2.
  destruct (load_result pg pg_lawful _ _ _ _ _ H1) as (T1 & R1' & P1).
  destruct (load_result pg pg_lawful _ _ _ _ _ H2) as (T2 & R2 & P2).
  split; [exact H1|]. split; [exact H2|].
  unfold row_count. rewrite T1, T2, R1', R2, P1, P2.
  change (Some (length (rows (with_fecha_carga now2 df))) =
          Some (length (rows (with_fecha_carga now1 df)))
          /\ Some resumen_por_estado_sql = Some resumen_por_estado_sql
          /\ Some calidad_por_periodo_sql = Some calidad_por_periodo_sql).
  rewrite !with_fecha_carga_length. auto.
Qed.

(** It matters that the task asks for a replacement: on the same server an
    append leaves the rows of both loads in the table. *)
Lemma pg_append_keeps_old_rows t f old (d : pg_state) :
  pg_tables d !! t = Some old ->
  exists d',
    pg_to_sql t f IfExistsAppend false d = (d', Ok tt) /\
    (fun g => length (rows g)) <$> pg_tables d' !! t =
    Some (length (rows old) + length (rows f))%nat.
Proof.
  intros H. unfold pg_to_sql, with_index. rewrite H.
  eexists. split; [reflexivity|]. simpl.
  rewrite lookup_insert_eq. simpl. now rewrite length_app.
Qed.

(** * Further properties *)

(** ** Deduplication *)

Lemma drop_duplicates_from_fixed seen rs :
  pairwise_distinct rs ->
  (forall r, In r rs -> existsb (row_eqb r) seen = false) ->
  drop_duplicates_from seen rs = rs.
Proof.
  revert seen. induction rs as [|x rs IH]; intros seen Hd Hs; [reflexivity|].
  destruct Hd as [Hx Hd]. simpl.
  rewrite (Hs x) by (simpl; auto). f_equal.
  apply IH; [exact Hd|].
  intros r Hr. simpl. rewrite (Hs r) by (simpl; auto).
  rewrite (proj1 (List.Forall_forall _ _) Hx r Hr). reflexivity.
Qed.

Lemma drop_duplicates_from_sublist seen rs :
  sublist (drop_duplicates_from seen rs) rs.
Proof.
  revert seen. induction rs as [|x rs IH]; intros seen; simpl; [constructor|].
  destruct (existsb (row_eqb x) seen).
  - apply sublist_cons, IH.
  - apply sublist_skip, IH.
Qed.

(** X1. [drop_duplicates] keeps a sub-sequence of the rows, in their order,
    leaves a table without equal rows as it is, and so changes nothing when
    it is applied a second time. *)
Theorem drop_duplicates_idempotent :
  forall df,
    sublist (rows (drop_duplicates df)) (rows df) /\
    (pairwise_distinct (rows df) -> drop_duplicates df = df) /\
    drop_duplicates (drop_duplicates df) = drop_duplicates df.
Proof.
  intros df.
  assert (forall f, pairwise_distinct (rows f) -> drop_duplicates f = f) as Hfix.
  { intros [cols rs] Hd. unfold drop_duplicates. simpl in *. f_equal.
    apply drop_duplicates_from_fixed; [exact Hd | reflexivity]. }
  split; [apply drop_duplicates_from_sublist|]. split; [apply Hfix|].
  apply Hfix. simpl. apply drop_duplicates_from_distinct.
Qed.

Lemma drop_duplicates_idempotent_witness :
  pairwise_distinct (rows sample_cleaned) /\
  drop_duplicates sample_cleaned = sample_cleaned.
Proof.
  assert (pairwise_distinct (rows sample_cleaned)) as H.
  { simpl. repeat split; repeat constructor. }
  split; [exact H|].
  exact (proj1 (proj2 (drop_duplicates_idempotent sample_cleaned)) H).
Defined.

Section WithRuntime.

Context {rt : runtime}.

(** ** Normalised labels *)

Lemma normalised_char (a : ascii) :
  let b := lower_ascii (space_to_underscore a) in
  lower_ascii (space_to_underscore b) = b /\
  b <> " "%char /\
  is_upper b = false /\
  (is_space a = false -> is_space b = false).
Proof.
  destruct a as [[] [] [] [] [] [] [] []]; vm_compute;
    repeat split; try discriminate; auto.
Qed.

Lemma lstrip_starts_clean l : starts_clean (lstrip l).
Proof.
  induction l as [|a l IH]; simpl; [exact I|].
  destruct (is_space a) eqn:E; [exact IH | exact E].
Qed.

Lemma lstrip_fixed l : starts_clean l -> lstrip l = l.
Proof. destruct l as [|a l]; simpl; [reflexivity|]. now intros ->. Qed.

Lemma lstrip_suffix l : exists p, l = p ++ lstrip l.
Proof.
  induction l as [|a l [p IH]]; simpl; [now exists []|].
  destruct (is_space a).
  - exists (a :: p). simpl. now f_equal.
  - now exists [].
Qed.

Lemma strip_trimmed l : trimmed (strip l).
Proof.
  unfold strip, trimmed. set (u := lstrip l). set (t := lstrip (rev u)).
  split.
  - destruct (lstrip_suffix (rev u)) as [p Hp]. fold t in Hp.
    assert (u = rev t ++ rev p) as Hu.
    { rewrite <- (rev_involutive u), Hp. apply rev_app_distr. }
    pose proof (lstrip_starts_clean l) as Hc. fold u in Hc.
    destruct (rev t) as [|a s'] eqn:E; [exact I|].
    rewrite Hu in Hc. exact Hc.
  - rewrite rev_involutive. apply lstrip_starts_clean.
Qed.

Lemma strip_fixed l : trimmed l -> strip l = l.
Proof.
  intros [H1 H2]. unfold strip.
  rewrite (lstrip_fixed l H1), (lstrip_fixed (rev l) H2).
  apply rev_involutive.
Qed.

Lemma normalised_trimmed l :
  trimmed l ->
  trimmed (map lower_ascii (map space_to_underscore l)).
Proof.
  assert (forall m, starts_clean m ->
            starts_clean (map lower_ascii (map space_to_underscore m))) as H.
  { intros [|a m]; simpl; [auto|]. apply normalised_char. }
  intros [H1 H2]. split; [now apply H|].
  rewrite <- !map_rev. now apply H.
Qed.

Lemma ascii_char (a : ascii) :
  (nat_of_ascii a <? 128)%nat = true ->
  (nat_of_ascii (space_to_underscore a) <? 128)%nat = true /\
  (nat_of_ascii (lower_ascii a) <? 128)%nat = true.
Proof.
  destruct a as [[] [] [] [] [] [] [] []]; vm_compute; auto.
Qed.

Lemma forallb_lstrip P l : forallb P l = true -> forallb P (lstrip l) = true.
Proof.
  induction l as [|a l IH]; simpl; [auto|].
  destruct (is_space a); [|auto].
  intros H. apply andb_prop in H as [_ H]. auto.
Qed.

Lemma forallb_rev (P : ascii -> bool) l :
  forallb P l = true -> forallb P (rev l) = true.
Proof.
  rewrite !forallb_forall. intros H x Hx. apply H. now apply in_rev.
Qed.

Lemma ascii_only_strip s : ascii_only s = true -> ascii_only (ascii_strip s) = true.
Proof.
  unfold ascii_only, ascii_strip, strip.
  rewrite list_ascii_of_string_of_list_ascii. intros H.
  now apply forallb_rev, forallb_lstrip, forallb_rev, forallb_lstrip.
Qed.

Lemma ascii_only_replace_blank s :
  ascii_only s = true -> ascii_only (replace_blank s) = true.
Proof.
  unfold ascii_only, replace_blank.
  rewrite list_ascii_of_string_of_list_ascii, !forallb_forall.
  intros H x Hx. apply in_map_iff in Hx as (a & <- & Ha).
  now apply ascii_char, H.
Qed.

Lemma ascii_only_lower s : ascii_only s = true -> ascii_only (ascii_lower s) = true.
Proof.
  unfold ascii_only, ascii_lower.
  rewrite list_ascii_of_string_of_list_ascii, !forallb_forall.
  intros H x Hx. apply in_map_iff in Hx as (a & <- & Ha).
  now apply ascii_char, H.
Qed.

(** On an ASCII label every runtime normalises alike. *)
Lemma normalize_name_ascii c :
  ascii_only c = true ->
  normalize_name c = ascii_lower (replace_blank (ascii_strip c)) /\
  ascii_only (normalize_name c) = true.
Proof.
  intros H. unfold normalize_name.
  rewrite (str_strip_ascii c H).
  pose proof (ascii_only_replace_blank _ (ascii_only_strip _ H)) as H'.
  rewrite (str_lower_ascii _ H'). split; [reflexivity|].
  now apply ascii_only_lower.
Qed.

(** X2. A normalised ASCII label is ASCII, has no whitespace at either
    end, no blank and no capital letter, and normalising it again gives the
    same label. *)
Theorem normalize_name_idempotent :
  forall c,
    ascii_only c = true ->
    normalize_name (normalize_name c) = normalize_name c /\
    ascii_only (normalize_name c) = true /\
    trimmed (list_ascii_of_string (normalize_name c)) /\
    (forall a, In a (list_ascii_of_string (normalize_name c)) ->
               a <> " "%char /\ is_upper a = false).
Proof.
  intros c Hc.
  destruct (normalize_name_ascii c Hc) as [E Ha].
  destruct (normalize_name_ascii _ Ha) as [E' _].
  rewrite E'. rewrite E. clear E E' Ha.
  unfold ascii_lower, replace_blank, ascii_strip.
  set (l := strip (list_ascii_of_string c)).
  rewrite !list_ascii_of_string_of_list_ascii.
  set (n := map lower_ascii (map space_to_underscore l)).
  assert (trimmed n) as Hn by (apply normalised_trimmed, strip_trimmed).
  split; [|split; [|split; [exact Hn|]]].
  - rewrite (strip_fixed n Hn). f_equal. unfold n.
    rewrite !map_map. apply map_ext. intros a. apply normalised_char.
  - destruct (normalize_name_ascii c Hc) as [E Ha]. rewrite E in Ha.
    unfold ascii_lower, replace_blank, ascii_strip in Ha.
    rewrite !list_ascii_of_string_of_list_ascii in Ha. exact Ha.
  - intros a Ha. unfold n in Ha. rewrite map_map in Ha.
    apply in_map_iff in Ha as (x & <- & _).
    destruct (normalised_char x) as (_ & H1 & H2 & _). auto.
Qed.

End WithRuntime.

Lemma normalize_name_idempotent_witness :
  ascii_only "  Calidad DQO " = true /\
  normalize_name "  Calidad DQO " = "calidad_dqo" /\
  normalize_name (normalize_name "  Calidad DQO ") =
  normalize_name "  Calidad DQO ".
Proof.
  split; [reflexivity|]. split; [vm_compute; reflexivity|].
  refine (proj1 (normalize_name_idempotent "  Calidad DQO " _)). reflexivity.
Defined.

Section WithRuntime.

Context {rt : runtime}.

(** ** Rounding and the range of the general index *)

Lemma round_half_even_near q :
  (inject_Z (round_half_even q) - q <= 1 # 2 /\
   q - inject_Z (round_half_even q) <= 1 # 2)%Q.
Proof.
  unfold round_half_even.
  pose proof (Qfloor_le q) as H1. pose proof (Qlt_floor q) as H2.
  rewrite inject_Z_plus in H2. change (inject_Z 1) with 1%Q in H2.
  destruct (Qcompare_spec (q - inject_Z (Qfloor q)) (1 # 2)) as [E|E|E].
  - destruct (Z.even (Qfloor q)); rewrite ?inject_Z_plus;
      change (inject_Z 1) with 1%Q; split; lra.
  - split; lra.
  - rewrite inject_Z_plus. change (inject_Z 1) with 1%Q. split; lra.
Qed.

Lemma round_half_even_between (a b : Z) q :
  (inject_Z a <= q)%Q -> (q <= inject_Z b)%Q ->
  a <= round_half_even q <= b.
Proof.
  intros Ha Hb.
  assert (a <= Qfloor q) as Fa.
  { rewrite <- (Qfloor_Z a). now apply Qfloor_resp_le. }
  assert (Qfloor q <= b) as Fb.
  { rewrite <- (Qfloor_Z b). now apply Qfloor_resp_le. }
  pose proof (Qfloor_le q) as H1.
  assert ((0 < q - inject_Z (Qfloor q))%Q -> Qfloor q + 1 <= b) as Hup.
  { intros Hpos. destruct (Z.eq_dec (Qfloor q) b) as [E|E]; [|lia].
    rewrite E in Hpos. lra. }
  unfold round_half_even.
  destruct (Qcompare_spec (q - inject_Z (Qfloor q)) (1 # 2)) as [E|E|E].
  - destruct (Z.even (Qfloor q)); [lia|]. split; [lia|]. apply Hup. lra.
  - lia.
  - split; [lia|]. apply Hup. lra.
Qed.

Lemma round2_near q : (round2 q - q <= 1 # 200 /\ q - round2 q <= 1 # 200)%Q.
Proof.
  unfold round2. rewrite Qred_correct.
  destruct (round_half_even_near (q * 100)) as [H1 H2].
  unfold Qdiv. change (/ 100)%Q with (1 # 100)%Q.
  split; lra.
Qed.

Lemma round2_between q :
  (1 <= q)%Q -> (q <= 4)%Q -> (1 <= round2 q /\ round2 q <= 4)%Q.
Proof.
  intros H1 H4. unfold round2. rewrite Qred_correct.
  destruct (round_half_even_between 100 400 (q * 100)) as [Ha Hb].
  - change (inject_Z 100) with 100%Q. lra.
  - change (inject_Z 400) with 400%Q. lra.
  - rewrite Zle_Qle in Ha, Hb.
    change (inject_Z 100) with 100%Q in Ha.
    change (inject_Z 400) with 400%Q in Hb.
    unfold Qdiv. change (/ 100)%Q with (1 # 100)%Q.
    split; lra.
Qed.

Lemma Qsum_between qs :
  Forall (fun q => 1 <= q /\ q <= 4)%Q qs ->
  (inject_Z (Z.of_nat (length qs)) <= Qsum qs /\
   Qsum qs <= 4 * inject_Z (Z.of_nat (length qs)))%Q.
Proof.
  induction 1 as [|q qs [H1 H4] _ [IH1 IH2]]; simpl length.
  - split; compute; discriminate.
  - rewrite Nat2Z.inj_succ, <- Z.add_1_r, inject_Z_plus.
    change (Qsum (q :: qs)) with (q + Qsum qs)%Q.
    change (inject_Z 1) with 1%Q. split; lra.
Qed.

Lemma mean_between qs m :
  Forall (fun q => 1 <= q /\ q <= 4)%Q qs ->
  mean qs = Some m -> (1 <= m /\ m <= 4)%Q.
Proof.
  intros H Hm. destruct qs as [|q qs]; [discriminate|].
  unfold mean in Hm. inversion Hm; subst m; clear Hm.
  destruct (Qsum_between _ H) as [H1 H2].
  change (q + Qsum qs)%Q with (Qsum (q :: qs)).
  change (S (length qs)) with (length (q :: qs)).
  set (n := inject_Z (Z.of_nat (length (q :: qs)))) in *.
  assert (0 < n)%Q as Hn.
  { unfold n. change 0%Q with (inject_Z 0). rewrite <- Zlt_Qlt. simpl length. lia. }
  split.
  - apply Qle_shift_div_l; [exact Hn|]. fold n. lra.
  - apply Qle_shift_div_r; [exact Hn|]. fold n. lra.
Qed.

Lemma present_codes_range cols r :
  Forall (fun q => 1 <= q /\ q <= 4)%Q (map inject_Z (present_codes cols r)).
Proof.
  apply List.Forall_map. apply List.Forall_forall. intros k Hk.
  unfold present_codes in Hk. apply in_flat_map in Hk as (src & _ & Hk).
  destruct (cell_of cols src r) as [c|]; [|destruct Hk].
  destruct (quality_code c) as [k'|] eqn:E; [|destruct Hk].
  destruct Hk as [<-|[]]. apply quality_code_range in E.
  rewrite !(Zle_Qle _ _) in E. exact E.
Qed.

(** X3. When no label of the source starts, once normalised, with
    [indice_calidad_], the general index of a row of the written table is
    never a text; it is missing exactly when none of the row's categories
    has a known value, and otherwise it is a number between 1 and 4 that
    differs from the exact mean of the codes by at most 0.005. *)
Theorem general_index_between_one_and_four :
  forall df out i r g,
    rectangular df -> no_index_label df ->
    transform_quality_data df = Ok out ->
    rows out !! i = Some r ->
    cell_of (columns out) "indice_calidad_general" r = Some g ->
    match g with
    | NaN => present_codes (columns out) r = []
    | Num q =>
        exists m,
          mean (map inject_Z (present_codes (columns out) r)) = Some m /\
          q = round2 m /\
          (1 <= m <= 4)%Q /\ (1 <= q <= 4)%Q /\
          (q - m <= 1 # 200)%Q /\ (m - q <= 1 # 200)%Q
    | Str _ => False
    end.
Proof.
  intros df out i r g Hrect Hno Hout Hi Hg.
  destruct (transform_stages _ _ Hout) as (mid & _ & Hst).
  assert (g = mean_of_present_codes (columns out) r) as ->.
  { destruct (nonempty (indice_columns mid)) eqn:Hne.
    - destruct (general_index_cell _ _ _ _ _ Hrect Hst Hi Hne)
        as (r3 & Hr3 & Hg' & _).
      rewrite Hg' in Hg. inversion Hg; subst g.
      now apply (general_cell_of_codes df mid out i).
    - rewrite (general_index_absent _ _ _ _ _ Hrect Hno Hst Hi Hne) in Hg.
      discriminate. }
  unfold mean_of_present_codes, round_cell.
  pose proof (present_codes_range (columns out) r) as Hrange.
  destruct (mean (map inject_Z (present_codes (columns out) r))) as [m|] eqn:Hm.
  - exists m. pose proof (mean_between _ _ Hrange Hm) as [M1 M4].
    destruct (round2_between m M1 M4). destruct (round2_near m).
    repeat split; auto.
  - destruct (present_codes (columns out) r); [reflexivity | discriminate].
Qed.

End WithRuntime.

Lemma general_index_between_one_and_four_witness :
  rectangular sample /\ no_index_label sample /\
  transform_quality_data sample = Ok sample_cleaned /\
  exists m,
    mean (map inject_Z
            (present_codes (columns sample_cleaned)
               [Str "Excelente"; Str "Contaminada"; Str "Ags"; Num 1; Num 4;
                Num (5 # 2)])) = Some m /\
    (5 # 2)%Q = round2 m /\
    (1 <= m <= 4)%Q /\ (1 <= (5 # 2) <= 4)%Q /\
    ((5 # 2) - m <= 1 # 200)%Q /\ (m - (5 # 2) <= 1 # 200)%Q.
Proof.
  split; [exact sample_rectangular|].
  split; [exact sample_no_index_label|].
  split; [vm_compute; reflexivity|].
  refine (general_index_between_one_and_four
            sample sample_cleaned 0 _ (Num (5 # 2))
            sample_rectangular sample_no_index_label _ _ _);
    vm_compute; reflexivity.
Defined.

Section WithRuntime.

Context {rt : runtime}.

(** ** The shape of the written table *)

Lemma step_columns_extra l f active df df' :
  step l f active df df' ->
  exists extra, columns df' = columns df ++ extra /\ sublist extra [l] /\
                (forall l', In l' extra -> ~ In l' (columns df)).
Proof.
  intros [Hc _]. rewrite Hc. unfold new_columns.
  assert (exists extra : list string,
            columns df = columns df ++ extra /\ sublist extra [l] /\
            (forall l', In l' extra -> ~ In l' (columns df))) as Hnil.
  { exists []. split; [now rewrite app_nil_r|].
    split; [apply sublist_nil_l | intros l' []]. }
  destruct active; [|exact Hnil].
  destruct (existsb (String.eqb l) (columns df)) eqn:E; [exact Hnil|].
  exists [l]. split; [reflexivity|]. split; [reflexivity|].
  intros l' [<-|[]] Hin.
  apply (has_column_In df l) in Hin. unfold has_column in Hin. congruence.
Qed.

Lemma fill_cell_not_missing c : not_missing (fill_cell (Num 0) c) = true.
Proof. now destruct c. Qed.

(** X4. The table written by a successful transform of a rectangular
    table is rectangular, has no more rows than the source, and its header
    is the normalised source header followed by labels that the source does
    not have, taken in this order from [indice_calidad_dqo],
    [indice_calidad_dbo], [indice_calidad_sst], [indice_calidad_general],
    [semaforo_numerico]. *)
Theorem written_table_shape :
  forall df out,
    rectangular df -> transform_quality_data df = Ok out ->
    rectangular out /\
    (length (rows out) <= length (rows df))%nat /\
    exists extra,
      columns out = map normalize_name (columns df) ++ extra /\
      sublist extra derived_labels /\
      forall l, In l extra -> ~ In l (map normalize_name (columns df)).
Proof.
  intros df out Hrect Hout.
  destruct (transform_stages _ _ Hout) as (mid & _ & Hst). open_stages Hst.
  split; [|split].
  - apply clean_rectangular in Hrect.
    eapply step_rectangular; [exact S5|].
    eapply step_rectangular; [exact S4|].
    eapply step_rectangular; [exact S3|].
    eapply step_rectangular; [exact S2|].
    eapply step_rectangular; [exact S1|]. exact Hrect.
  - rewrite (step_length _ _ _ _ _ S5), (step_length _ _ _ _ _ S4),
      (step_length _ _ _ _ _ S3), (step_length _ _ _ _ _ S2),
      (step_length _ _ _ _ _ S1), rows_clean, !length_map.
    apply sublist_length, drop_duplicates_from_sublist.
  - destruct (step_columns_extra _ _ _ _ _ S1) as (e1 & E1 & B1 & N1).
    destruct (step_columns_extra _ _ _ _ _ S2) as (e2 & E2 & B2 & N2).
    destruct (step_columns_extra _ _ _ _ _ S3) as (e3 & E3 & B3 & N3).
    destruct (step_columns_extra _ _ _ _ _ S4) as (e4 & E4 & B4 & N4).
    destruct (step_columns_extra _ _ _ _ _ S5) as (e5 & E5 & B5 & N5).
    rewrite columns_clean in E1.
    exists (e1 ++ e2 ++ e3 ++ e4 ++ e5). split; [|split].
    + rewrite E5, E4, E3, E2, E1, <- !app_assoc. reflexivity.
    + change derived_labels
        with (["indice_calidad_dqo"] ++ ["indice_calidad_dbo"] ++
              ["indice_calidad_sst"] ++ ["indice_calidad_general"] ++
              ["semaforo_numerico"]).
      repeat apply sublist_app; assumption.
    + intros l Hl Hin. rewrite columns_clean in N1.
      assert (forall cols e, In l cols -> In l (cols ++ e)) as Hgrow
        by (intros; apply in_or_app; now left).
      rewrite !in_app_iff in Hl.
      destruct Hl as [Hl|[Hl|[Hl|[Hl|Hl]]]].
      * now apply (N1 l Hl).
      * apply (N2 l Hl). rewrite E1. auto.
      * apply (N3 l Hl). rewrite E2, E1. auto.
      * apply (N4 l Hl). rewrite E3, E2, E1. auto.
      * apply (N5 l Hl). rewrite E4, E3, E2, E1. auto.
Qed.

End WithRuntime.

Lemma written_table_shape_witness :
  rectangular sample /\
  transform_quality_data sample = Ok sample_cleaned /\
  rectangular sample_cleaned /\
  (length (rows sample_cleaned) <= length (rows sample))%nat /\
  exists extra,
    columns sample_cleaned = map normalize_name (columns sample) ++ extra /\
    sublist extra derived_labels /\
    forall l, In l extra -> ~ In l (map normalize_name (columns sample)).
Proof.
  split; [exact sample_rectangular|].
  split; [vm_compute; reflexivity|].
  apply (written_table_shape sample sample_cleaned sample_rectangular).
  vm_compute; reflexivity.
Defined.

Section WithRuntime.

Context {rt : runtime}.

(** X5. Missing values are filled before the derived columns are
    assigned: in the written table a missing value can stand under one of
    the five derived labels only. Every other cell is the source cell, or
    the number 0 where the source cell was missing. *)
Theorem missing_only_in_derived_columns :
  forall df out i r l c,
    rectangular df -> transform_quality_data df = Ok out ->
    rows out !! i = Some r ->
    ~ In l derived_labels ->
    In c (cells_at (columns out) l r) ->
    not_missing c = true /\
    exists raw c0,
      drop_duplicates_from [] (rows df) !! i = Some raw /\
      In c0 (cells_at (map normalize_name (columns df)) l raw) /\
      c = fill_cell (Num 0) c0.
Proof.
  intros df out i r l c Hrect Hout Hi Hl Hc.
  destruct (transform_stages _ _ Hout) as (mid & _ & Hst).
  destruct (row_history _ _ _ _ _ Hrect Hst Hi)
    as (r0 & r3 & Hr0 & Hr3 & L3 & L5 & P & D & P' & G).
  assert (~ In l ordinal_labels /\ l <> "indice_calidad_general" /\
          l <> "semaforo_numerico") as (Ho & Hg & Hs).
  { unfold derived_labels in Hl. rewrite in_app_iff in Hl. simpl in Hl.
    repeat split; auto; intros ->; apply Hl; auto. }
  rewrite (P' l Hg Hs), (P l Ho), columns_clean in Hc.
  rewrite rows_clean, list_lookup_fmap in Hr0.
  destruct (drop_duplicates_from [] (rows df) !! i) as [raw|] eqn:Hraw;
    [|discriminate].
  simpl in Hr0. inversion Hr0; subst r0; clear Hr0.
  rewrite cells_at_map in Hc. apply in_map_iff in Hc as (c0 & <- & Hc0).
  split; [apply fill_cell_not_missing|]. exists raw, c0. auto.
Qed.

End WithRuntime.

Lemma missing_only_in_derived_columns_witness :
  rectangular sample /\
  transform_quality_data sample = Ok sample_cleaned /\
  ~ In "estado" derived_labels /\
  not_missing (Num 0) = true /\
  exists raw c0,
    drop_duplicates_from [] (rows sample) !! 2%nat = Some raw /\
    In c0 (cells_at (map normalize_name (columns sample)) "estado" raw) /\
    Num 0 = fill_cell (Num 0) c0.
Proof.
  assert (~ In "estado" derived_labels) as Hl.
  { intros H. vm_compute in H. intuition discriminate. }
  split; [exact sample_rectangular|].
  split; [vm_compute; reflexivity|].
  split; [exact Hl|].
  refine (missing_only_in_derived_columns
            sample sample_cleaned 2 [Str ""; Str "zzz"; Num 0; NaN; NaN; NaN]
            "estado" (Num 0) sample_rectangular _ _ Hl _).
  - vm_compute; reflexivity.
  - reflexivity.
  - vm_compute. auto.
Defined.

Section WithRuntime.

Context {rt : runtime}.

(** ** The traffic-light column *)

Lemma step_row_inv l f active df df' i r' :
  step l f active df df' -> rectangular df -> rows df' !! i = Some r' ->
  exists r, rows df !! i = Some r /\ length r = length (columns df) /\
            r' = step_row (columns df) l f active r.
Proof.
  intros Hs Hrect Hi. rewrite (step_lookup _ _ _ _ _ i Hs) in Hi.
  destruct (rows df !! i) as [r|] eqn:Hr; [|discriminate].
  simpl in Hi. inversion Hi. exists r. repeat split; auto.
  eapply (proj1 (List.Forall_forall _ _) Hrect).
  eapply list_elem_of_In, list_elem_of_lookup_2; eauto.
Qed.

Lemma map_cell_semaforo c : map_cell semaforo_map c = semaforo_code c.
Proof.
  destruct c as [| |s]; try reflexivity. simpl. unfold semaforo_map.
  destruct (String.eqb_spec s "VERDE") as [->|H1]; [reflexivity|].
  rewrite lookup_insert_ne by congruence.
  destruct (String.eqb_spec s "AMARILLO") as [->|H2]; [reflexivity|].
  rewrite lookup_insert_ne by congruence.
  destruct (String.eqb_spec s "ROJO") as [->|H3]; [reflexivity|].
  rewrite lookup_singleton_ne by congruence. reflexivity.
Qed.

(** X6. When the written table has a column [semaforo], every row holds
    under [semaforo_numerico] the code of its own traffic-light value:
    1 for VERDE, 2 for AMARILLO, 3 for ROJO, and a missing value for anything
    else, a differently cased word or the 0 of a filled missing value
    included. The traffic-light value itself is left as it was. *)
Theorem semaforo_numerico_is_code_of_semaforo :
  forall df out i r,
    rectangular df -> transform_quality_data df = Ok out ->
    rows out !! i = Some r ->
    has_column out "semaforo" = true ->
    exists c,
      cell_of (columns out) "semaforo" r = Some c /\
      (1 <= count_label (columns out) "semaforo_numerico")%nat /\
      cells_at (columns out) "semaforo_numerico" r =
        repeat (semaforo_code c) (count_label (columns out) "semaforo_numerico") /\
      exists raw c0,
        drop_duplicates_from [] (rows df) !! i = Some raw /\
        cell_of (map normalize_name (columns df)) "semaforo" raw = Some c0 /\
        c = fill_cell (Num 0) c0.
Proof.
  intros df out i r Hrect Hout Hi Hhas.
  destruct (transform_stages _ _ Hout) as (mid & _ & Hst).
  destruct (row_history _ _ _ _ _ Hrect Hst Hi)
    as (r0 & r3 & Hr0 & Hr3 & L3 & L5 & P & D & P' & G).
  open_stages Hst.
  assert (rectangular gen) as Rgen.
  { apply clean_rectangular in Hrect.
    eapply step_rectangular; [exact S4|].
    eapply step_rectangular; [exact S3|].
    eapply step_rectangular; [exact S2|].
    eapply step_rectangular; [exact S1|]. exact Hrect. }
  destruct (step_row_inv _ _ _ _ _ _ _ S5 Rgen Hi) as (r4 & Hr4 & L4 & ->).
  assert (has_column gen "semaforo" = true) as Hgen.
  { rewrite <- (step_has_other _ _ _ _ _ "semaforo" S5); [exact Hhas|discriminate]. }
  pose proof (U5 Hgen) as Hone.
  pose proof (step_other _ _ _ _ _ r4 "semaforo" S5 L4) as Hsame.
  rewrite Hgen in *.
  specialize (Hsame ltac:(discriminate)).
  pose proof (cells_at_length (columns gen) "semaforo" r4 L4) as Hlen.
  rewrite Hone in Hlen.
  destruct (cells_at (columns gen) "semaforo" r4) as [|c [|]] eqn:Hc;
    try discriminate.
  exists c. split; [apply cell_of_cells; exact Hsame|].
  rewrite (step_count_same _ _ _ _ S5). split; [lia|]. split.
  - rewrite (step_same _ _ _ _ _ S5 L4). unfold mapped_cell.
    rewrite Hc. simpl hd. now rewrite map_cell_semaforo.
  - assert (cells_at (columns (clean df)) "semaforo" r0 = [c]) as Hc0.
    { rewrite <- (P "semaforo"), <- (P' "semaforo"), Hsame;
        [reflexivity | discriminate | discriminate |].
      simpl. intros [H|[H|[H|[]]]]; discriminate. }
    rewrite rows_clean, list_lookup_fmap in Hr0.
    destruct (drop_duplicates_from [] (rows df) !! i) as [raw|] eqn:Hraw;
      [|discriminate].
    simpl in Hr0. inversion Hr0; subst r0; clear Hr0.
    rewrite columns_clean, cells_at_map in Hc0.
    destruct (cells_at (map normalize_name (columns df)) "semaforo" raw)
      as [|c0 [|]] eqn:Hraw0; try discriminate.
    simpl in Hc0. inversion Hc0. exists raw, c0.
    split; [reflexivity|]. split; [|reflexivity].
    apply cell_of_cells. exact Hraw0.
Qed.

End WithRuntime.

Lemma semaforo_numerico_is_code_of_semaforo_witness :
  rectangular plain /\
  transform_quality_data plain = Ok plain_cleaned /\
  has_column plain_cleaned "semaforo" = true /\
  exists c,
    cell_of (columns plain_cleaned) "semaforo" [Str "BC"; Num 0; NaN] = Some c /\
    (1 <= count_label (columns plain_cleaned) "semaforo_numerico")%nat /\
    cells_at (columns plain_cleaned) "semaforo_numerico" [Str "BC"; Num 0; NaN] =
      repeat (semaforo_code c)
             (count_label (columns plain_cleaned) "semaforo_numerico") /\
    exists raw c0,
      drop_duplicates_from [] (rows plain) !! 1%nat = Some raw /\
      cell_of (map normalize_name (columns plain)) "semaforo" raw = Some c0 /\
      c = fill_cell (Num 0) c0.
Proof.
  assert (rectangular plain) as Hrect by (repeat constructor).
  split; [exact Hrect|].
  split; [vm_compute; reflexivity|].
  split; [reflexivity|].
  refine (semaforo_numerico_is_code_of_semaforo
            plain plain_cleaned 1 _ Hrect _ _ _);
    vm_compute; reflexivity.
Defined.

Section WithRuntime.

Context {rt : runtime}.

(** ** When the transform succeeds *)

Lemma numeric_values_is_ok cs : is_ok (numeric_values cs) = forallb not_text cs.
Proof.
  induction cs as [|[|q|s] cs IH]; simpl; auto.
  destruct (numeric_values cs); simpl in *; auto.
Qed.

Lemma forallb_flat_map {A B} (p : B -> bool) (f : A -> list B) l :
  forallb p (flat_map f l) = forallb (fun a => forallb p (f a)) l.
Proof.
  induction l as [|a l IH]; simpl; [reflexivity|].
  now rewrite forallb_app, IH.
Qed.

Lemma forallb_eq {A} (p q : A -> bool) l :
  (forall a, In a l -> p a = q a) -> forallb p l = forallb q l.
Proof.
  induction l as [|a l IH]; simpl; intros H; [reflexivity|].
  rewrite (H a) by now left. f_equal. apply IH. intros; apply H; now right.
Qed.

Lemma select_row_is_ok cols labels r :
  is_ok (row_mean (select_row cols labels r)) =
  forallb (fun l => forallb not_text (cells_at cols l r)) labels.
Proof.
  unfold row_mean, select_row.
  rewrite <- forallb_flat_map, <- numeric_values_is_ok.
  now destruct (numeric_values _).
Qed.

Lemma mapM_is_ok {A B} (f : A -> result B) l :
  is_ok (mapM f l) = forallb (fun a => is_ok (f a)) l.
Proof.
  induction l as [|a l IH]; simpl; [reflexivity|].
  destruct (f a); simpl; [|reflexivity].
  rewrite <- IH. now destruct (mapM f l).
Qed.

Lemma add_general_is_ok df :
  is_ok (add_general df) =
  forallb (fun r => is_ok (row_mean (select_row (columns df) (indice_columns df) r)))
          (rows df).
Proof.
  unfold add_general, mean_axis1_round2.
  destruct (indice_columns df) as [|l ls] eqn:E.
  - simpl. symmetry. apply forallb_forall. reflexivity.
  - set (labels := l :: ls).
    transitivity (is_ok (mapM (fun r =>
                    match row_mean (select_row (columns df) labels r) with
                    | Ok o => Ok (round_cell o)
                    | Raise e => Raise e
                    end) (rows df))).
    + now destruct (mapM _ _).
    + rewrite mapM_is_ok. apply forallb_eq. intros r _.
      now destruct (row_mean _).
Qed.

Lemma summary_is_ok df labels :
  is_ok (summary df labels) =
  forallb (fun l => negb (has_column df l) ||
                    (count_label (columns df) l =? 1)%nat) labels.
Proof.
  induction labels as [|l labels IH]; simpl; [reflexivity|].
  destruct (has_column df l); simpl; [|exact IH].
  destruct (count_label (columns df) l =? 1)%nat; simpl; [exact IH | reflexivity].
Qed.

Lemma add_mapped_is_ok d src dst df :
  is_ok (add_mapped d src dst df) = unique_in (columns df) src.
Proof.
  rewrite add_mapped_ok, has_column_count. unfold unique_in.
  destruct (count_label (columns df) src) as [|[|n]]; reflexivity.
Qed.

Lemma forallb_repeat {A} (p : A -> bool) v n :
  p v = true -> forallb p (repeat v n) = true.
Proof. intros H. induction n; simpl; [reflexivity | now rewrite H]. Qed.

Lemma mapped_cell_not_text d cols src r : not_text (mapped_cell d cols src r) = true.
Proof.
  unfold mapped_cell, map_cell.
  destruct (hd NaN _) as [| |s]; try reflexivity. now destruct (d !! s).
Qed.

Lemma step_not_text l f active df df' r l' :
  step l f active df df' -> length r = length (columns df) ->
  (forall r, not_text (f r) = true) ->
  forallb not_text (cells_at (columns df') l' (step_row (columns df) l f active r)) =
  (active && String.eqb l' l) || forallb not_text (cells_at (columns df) l' r).
Proof.
  intros Hs Hlen Hf. destruct (String.eqb_spec l' l) as [->|Hne].
  - destruct active.
    + rewrite (step_same _ _ _ _ _ Hs Hlen). simpl. now apply forallb_repeat.
    + destruct Hs as [-> _]. reflexivity.
  - rewrite (step_other _ _ _ _ _ _ _ Hs Hlen Hne), andb_false_r. reflexivity.
Qed.

Lemma step_count_max l f active df df' l' :
  step l f active df df' ->
  Nat.max 1 (count_label (columns df') l') = Nat.max 1 (count_label (columns df) l').
Proof.
  intros Hs. destruct (String.eqb_spec l' l) as [->|Hne].
  - destruct active.
    + rewrite (step_count_same _ _ _ _ Hs). lia.
    + destruct Hs as [-> _]. reflexivity.
  - now rewrite (step_count_other _ _ _ _ _ _ Hs Hne).
Qed.

Lemma step_columns_new l f active df df' l' :
  step l f active df df' -> In l' (columns df') ->
  In l' (columns df) \/ (active = true /\ l' = l).
Proof.
  intros [Hc _]. rewrite Hc. destruct active; [|auto].
  unfold new_columns. destruct (existsb _ _); [auto|].
  rewrite in_app_iff. simpl. intuition.
Qed.

Lemma step_columns_incl l f active df df' l' :
  step l f active df df' -> In l' (columns df) -> In l' (columns df').
Proof.
  intros Hs Hin. destruct (step_columns_grow _ _ _ _ _ Hs) as [extra ->].
  apply in_or_app. now left.
Qed.

Lemma forallb_by_index {A B} (P : A -> bool) (Q : B -> bool) (l1 : list A) (l2 : list B) :
  length l1 = length l2 ->
  (forall i a b, l1 !! i = Some a -> l2 !! i = Some b -> P a = Q b) ->
  forallb P l1 = forallb Q l2.
Proof.
  revert l2. induction l1 as [|a l1 IH]; intros [|b l2] Hlen H;
    try discriminate; [reflexivity|].
  simpl. rewrite (H 0%nat a b eq_refl eq_refl). f_equal.
  apply IH; [simpl in Hlen; lia|].
  intros i a' b' Ha Hb. exact (H (S i) a' b' Ha Hb).
Qed.

Lemma forallb_same_on {A} (h : A -> bool) (l1 l2 : list A) :
  (forall x, In x l1 -> In x l2 \/ h x = true) ->
  (forall x, In x l2 -> In x l1 \/ h x = true) ->
  forallb h l1 = forallb h l2.
Proof.
  intros H12 H21. apply eq_true_iff_eq. rewrite !forallb_forall.
  split; intros H x Hx.
  - destruct (H21 x Hx); auto.
  - destruct (H12 x Hx); auto.
Qed.

Lemma unique_in_max cols cols' l :
  Nat.max 1 (count_label cols' l) = Nat.max 1 (count_label cols l) ->
  negb (existsb (String.eqb l) cols') || (count_label cols' l =? 1)%nat =
  unique_in cols l.
Proof.
  intros H. pose proof (has_column_count (Frame cols' []) l) as Hh.
  unfold has_column in Hh. simpl in Hh. rewrite Hh. unfold unique_in.
  destruct (count_label cols' l) as [|[|n]], (count_label cols l) as [|[|m]];
    simpl in *; try reflexivity; lia.
Qed.
Section Assignments.

(** The frames of lines 32-61, one assignment after the other, from the
    cleaned frame [c]. *)
Variables c m1 m2 mid gen out : frame.

Hypothesis Rc : rectangular c.
Hypothesis S1 :
  step "indice_calidad_dqo" (mapped_cell quality_map (columns c) "calidad_dqo")
       (has_column c "calidad_dqo") c m1.
Hypothesis S2 :
  step "indice_calidad_dbo" (mapped_cell quality_map (columns m1) "calidad_dbo")
       (has_column m1 "calidad_dbo") m1 m2.
Hypothesis S3 :
  step "indice_calidad_sst" (mapped_cell quality_map (columns m2) "calidad_sst")
       (has_column m2 "calidad_sst") m2 mid.
Hypothesis S4 :
  step "indice_calidad_general" (general_cell (columns mid) (indice_columns mid))
       (nonempty (indice_columns mid)) mid gen.
Hypothesis S5 :
  step "semaforo_numerico" (mapped_cell semaforo_map (columns gen) "semaforo")
       (has_column gen "semaforo") gen out.

Lemma count_dbo_kept :
  count_label (columns m1) "calidad_dbo" = count_label (columns c) "calidad_dbo".
Proof. now apply (step_count_other _ _ _ _ _ _ S1). Qed.

Lemma count_sst_kept :
  count_label (columns m2) "calidad_sst" = count_label (columns c) "calidad_sst".
Proof.
  now rewrite (step_count_other _ _ _ _ _ _ S2), (step_count_other _ _ _ _ _ _ S1).
Qed.

Lemma count_semaforo_kept :
  count_label (columns gen) "semaforo" = count_label (columns c) "semaforo".
Proof.
  now rewrite (step_count_other _ _ _ _ _ _ S4), (step_count_other _ _ _ _ _ _ S3),
    (step_count_other _ _ _ _ _ _ S2), (step_count_other _ _ _ _ _ _ S1).
Qed.

Lemma count_out_max l :
  Nat.max 1 (count_label (columns out) l) = Nat.max 1 (count_label (columns c) l).
Proof.
  now rewrite (step_count_max _ _ _ _ _ l S5), (step_count_max _ _ _ _ _ l S4),
    (step_count_max _ _ _ _ _ l S3), (step_count_max _ _ _ _ _ l S2),
    (step_count_max _ _ _ _ _ l S1).
Qed.

Lemma columns_mid_incl l : In l (columns c) -> In l (columns mid).
Proof.
  intros H. eapply step_columns_incl; [exact S3|].
  eapply step_columns_incl; [exact S2|].
  eapply step_columns_incl; [exact S1|]. exact H.
Qed.

Lemma columns_mid_new l :
  In l (columns mid) -> In l (columns c) \/ assigned_ordinal (columns c) l = true.
Proof.
  intros H.
  pose proof (step_has_other _ _ _ _ _ "calidad_dbo" S1) as H1.
  pose proof (step_has_other _ _ _ _ _ "calidad_sst" S1) as H2.
  pose proof (step_has_other _ _ _ _ _ "calidad_sst" S2) as H3.
  unfold has_column in *. rewrite assigned_ordinal_cases.
  destruct (step_columns_new _ _ _ _ _ _ S3 H) as [Hm2|[Ha ->]].
  - destruct (step_columns_new _ _ _ _ _ _ S2 Hm2) as [Hm1|[Ha ->]].
    + destruct (step_columns_new _ _ _ _ _ _ S1 Hm1) as [Hc|[Ha ->]]; [now left|].
      right. unfold has_column in Ha. now rewrite Ha.
    + right. unfold has_column in Ha. rewrite <- H1, Ha by discriminate.
      reflexivity.
  - right. unfold has_column in Ha. rewrite <- H2, <- H3, Ha by discriminate.
    reflexivity.
Qed.

Lemma mid_cells_not_text i r3 :
  rows mid !! i = Some r3 ->
  exists r0,
    rows c !! i = Some r0 /\
    forall l,
      forallb not_text (cells_at (columns mid) l r3) =
      assigned_ordinal (columns c) l ||
      forallb not_text (cells_at (columns c) l r0).
Proof.
  intros Hi.
  pose proof (step_rectangular _ _ _ _ _ S1 Rc) as R1.
  pose proof (step_rectangular _ _ _ _ _ S2 R1) as R2.
  destruct (step_row_inv _ _ _ _ _ _ _ S3 R2 Hi) as (r2 & Hr2 & L2 & ->).
  destruct (step_row_inv _ _ _ _ _ _ _ S2 R1 Hr2) as (r1 & Hr1 & L1 & ->).
  destruct (step_row_inv _ _ _ _ _ _ _ S1 Rc Hr1) as (r0 & Hr0 & L0 & ->).
  exists r0. split; [exact Hr0|]. intros l.
  rewrite (step_not_text _ _ _ _ _ _ l S3 L2 (mapped_cell_not_text _ _ _)),
    (step_not_text _ _ _ _ _ _ l S2 L1 (mapped_cell_not_text _ _ _)),
    (step_not_text _ _ _ _ _ _ l S1 L0 (mapped_cell_not_text _ _ _)).
  rewrite (step_has_other _ _ _ _ _ "calidad_sst" S2),
    (step_has_other _ _ _ _ _ "calidad_sst" S1),
    (step_has_other _ _ _ _ _ "calidad_dbo" S1) by discriminate.
  rewrite assigned_ordinal_cases. unfold has_column.
  destruct (existsb (String.eqb "calidad_dqo") (columns c)),
    (existsb (String.eqb "calidad_dbo") (columns c)),
    (existsb (String.eqb "calidad_sst") (columns c)),
    (String.eqb l "indice_calidad_dqo"), (String.eqb l "indice_calidad_dbo"),
    (String.eqb l "indice_calidad_sst"); reflexivity.
Qed.

Lemma add_general_numeric :
  is_ok (add_general mid) = forallb (index_text_free (columns c)) (rows c).
Proof.
  rewrite add_general_is_ok. apply forallb_by_index.
  - now rewrite (step_length _ _ _ _ _ S3), (step_length _ _ _ _ _ S2),
      (step_length _ _ _ _ _ S1).
  - intros i r3 r0 Hr3 Hr0.
    destruct (mid_cells_not_text _ _ Hr3) as (r0' & Hr0' & Hcells).
    rewrite Hr0 in Hr0'. inversion Hr0'; subst r0'; clear Hr0'.
    rewrite select_row_is_ok. unfold index_text_free, indice_columns.
    rewrite (forallb_eq _ _ _ (fun l _ => Hcells l)).
    apply forallb_same_on; intros l Hl; apply filter_In in Hl as [Hl Hp].
    + destruct (columns_mid_new _ Hl) as [Hc|Ha].
      * left. apply filter_In. auto.
      * right. now rewrite Ha.
    + left. apply filter_In. split; [now apply columns_mid_incl | exact Hp].
Qed.

Lemma summary_unique_labels :
  is_ok (summary out (indice_columns mid ++ ["indice_calidad_general"])) =
  forallb (unique_in (columns c))
          (List.filter (String.prefix indice_prefix) (columns c)).
Proof.
  rewrite summary_is_ok.
  rewrite (forallb_eq _ (unique_in (columns c)))
    by (intros l _; apply unique_in_max, count_out_max).
  assert (forall l, ~ In l (columns c) -> unique_in (columns c) l = true) as Hnew.
  { intros l Hl. unfold unique_in.
    pose proof (has_column_count c l) as Hh.
    rewrite (has_column_false c l Hl) in Hh.
    destruct (count_label (columns c) l); [reflexivity | discriminate]. }
  assert (forall l, In l (columns c) \/ ~ In l (columns c)) as Hdec.
  { intros l. destruct (in_dec string_dec l (columns c)); auto. }
  apply forallb_same_on; intros l Hl.
  - assert (String.prefix indice_prefix l = true) as Hp.
    { apply in_app_or in Hl as [Hl|[<-|[]]]; [|reflexivity].
      now apply filter_In in Hl. }
    destruct (Hdec l) as [Hc|Hc]; [left; apply filter_In; auto | right; auto].
  - left. apply filter_In in Hl as [Hl Hp]. apply in_or_app. left.
    apply filter_In. split; [now apply columns_mid_incl | exact Hp].
Qed.

End Assignments.
Lemma cell_eqb_not_text a b : cell_eqb a b = true -> not_text a = not_text b.
Proof. destruct a, b; simpl; intros H; try discriminate; reflexivity. Qed.

Lemma row_eqb_not_text cols l r r' :
  row_eqb r r' = true ->
  forallb not_text (cells_at cols l r) = forallb not_text (cells_at cols l r').
Proof.
  revert r r'. induction cols as [|c cols IH]; intros [|x r] [|y r'] H;
    simpl in *; try discriminate; try reflexivity.
  apply andb_prop in H as [Hxy Hr].
  destruct (String.eqb l c); simpl; [|now apply IH].
  rewrite (cell_eqb_not_text _ _ Hxy). f_equal. now apply IH.
Qed.

Lemma index_text_free_eqb cols r r' :
  row_eqb r r' = true -> index_text_free cols r = index_text_free cols r'.
Proof.
  intros H. unfold index_text_free. apply forallb_eq. intros l _.
  now rewrite (row_eqb_not_text cols l r r' H).
Qed.

Lemma index_text_free_fill cols r :
  index_text_free cols (map (fill_cell (Num 0)) r) = index_text_free cols r.
Proof.
  unfold index_text_free. apply forallb_eq. intros l _. f_equal.
  rewrite cells_at_map. induction (cells_at cols l r) as [|x cs IH];
    simpl; [reflexivity|].
  rewrite IH. now destruct x.
Qed.

Lemma forallb_drop_duplicates (P : list cell -> bool) rs :
  (forall r r', row_eqb r r' = true -> P r = P r') ->
  forallb P (drop_duplicates_from [] rs) = forallb P rs.
Proof.
  intros HP. apply eq_true_iff_eq. rewrite !forallb_forall. split; intros H r Hr.
  - pose proof (drop_duplicates_from_covers [] rs r Hr) as Hex.
    simpl in Hex. apply existsb_exists in Hex as (r' & Hin & Heq).
    rewrite (HP _ _ Heq). now apply H.
  - apply H. eapply drop_duplicates_from_incl; eauto.
Qed.

Lemma index_text_free_clean df :
  forallb (index_text_free (columns (clean df))) (rows (clean df)) =
  forallb (index_text_free (columns (clean df))) (rows df).
Proof.
  rewrite rows_clean. generalize (columns (clean df)). intros cols.
  transitivity (forallb (index_text_free cols)
                        (drop_duplicates_from [] (rows df))).
  - induction (drop_duplicates_from [] (rows df)) as [|r rs IH];
      simpl; [reflexivity|].
    now rewrite index_text_free_fill, IH.
  - apply forallb_drop_duplicates, index_text_free_eqb.
Qed.

(** X7. The transform of a rectangular table ends normally exactly when
    the normalised header has each of [calidad_dqo], [calidad_dbo],
    [calidad_sst], [semaforo] and every label starting with
    [indice_calidad_] at most once, and no row of the source holds a text
    under a label starting with [indice_calidad_] (an ordinal label that the
    transform assigns over the source's own column does not count). *)
Theorem transform_succeeds_exactly_when :
  forall df,
    rectangular df ->
    is_ok (transform_quality_data df) =
    labels_fit (map normalize_name (columns df)) &&
    forallb (index_text_free (map normalize_name (columns df))) (rows df).
Proof.
  intros df Hrect. pose proof (clean_rectangular _ Hrect) as Rc.
  rewrite <- columns_clean, <- index_text_free_clean.
  unfold transform_quality_data, add_indices, rbind.
  set (c := clean df) in *. clearbody c.
  unfold labels_fit, mapped_sources, ordinal_pairs, map, fst, app.
  unfold forallb at 1.
  pose proof (add_mapped_is_ok quality_map "calidad_dqo" "indice_calidad_dqo" c) as E1.
  destruct (add_mapped quality_map "calidad_dqo" "indice_calidad_dqo" c)
    as [m1|e] eqn:H1; simpl in E1; rewrite <- E1; [|reflexivity].
  apply add_mapped_step in H1 as [S1 _].
  pose proof (add_mapped_is_ok quality_map "calidad_dbo" "indice_calidad_dbo" m1) as E2.
  unfold unique_in in E2. rewrite (count_dbo_kept _ _ S1) in E2.
  fold (unique_in (columns c) "calidad_dbo") in E2.
  destruct (add_mapped quality_map "calidad_dbo" "indice_calidad_dbo" m1)
    as [m2|e] eqn:H2; simpl in E2; rewrite <- E2; [|reflexivity].
  apply add_mapped_step in H2 as [S2 _].
  pose proof (add_mapped_is_ok quality_map "calidad_sst" "indice_calidad_sst" m2) as E3.
  unfold unique_in in E3. rewrite (count_sst_kept _ _ _ S1 S2) in E3.
  fold (unique_in (columns c) "calidad_sst") in E3.
  destruct (add_mapped quality_map "calidad_sst" "indice_calidad_sst" m2)
    as [mid|e] eqn:H3; simpl in E3; rewrite <- E3; [|reflexivity].
  apply add_mapped_step in H3 as [S3 _].
  pose proof (add_general_numeric _ _ _ _ Rc S1 S2 S3) as E4.
  destruct (add_general mid) as [gen|e] eqn:H4; simpl in E4; rewrite <- E4;
    [|now rewrite andb_false_r].
  apply add_general_step in H4 as [S4 _].
  pose proof (add_mapped_is_ok semaforo_map "semaforo" "semaforo_numerico" gen) as E5.
  unfold unique_in in E5. rewrite (count_semaforo_kept _ _ _ _ _ S1 S2 S3 S4) in E5.
  fold (unique_in (columns c) "semaforo") in E5.
  unfold add_semaforo.
  destruct (add_mapped semaforo_map "semaforo" "semaforo_numerico" gen)
    as [out|e] eqn:H5; simpl in E5; rewrite <- E5; [|reflexivity].
  apply add_mapped_step in H5 as [S5 _].
  pose proof (summary_unique_labels _ _ _ _ _ _ S1 S2 S3 S4 S5) as E6.
  rewrite <- E6. simpl.
  now destruct (summary out _).
Qed.

End WithRuntime.

Lemma transform_succeeds_exactly_when_witness :
  rectangular two_semaforos /\
  is_ok (transform_quality_data two_semaforos) = false /\
  labels_fit (map normalize_name (columns two_semaforos)) = false /\
  is_ok (transform_quality_data two_semaforos) =
  labels_fit (map normalize_name (columns two_semaforos)) &&
  forallb (index_text_free (map normalize_name (columns two_semaforos)))
          (rows two_semaforos).
Proof.
  assert (rectangular two_semaforos) as Hrect by (repeat constructor).
  split; [exact Hrect|].
  split; [vm_compute; reflexivity|].
  split; [vm_compute; reflexivity|].
  exact (transform_succeeds_exactly_when two_semaforos Hrect).
Defined.

Section WithRuntime.

Context {rt : runtime}.

(** ** What the transform raises *)

Lemma add_mapped_raises d src dst df e :
  add_mapped d src dst df = Raise e ->
  e = LabelNotUnique src /\ (2 <= count_label (columns df) src)%nat.
Proof.
  unfold add_mapped, get_series. rewrite has_column_count.
  destruct (count_label (columns df) src) as [|[|n]]; simpl; try discriminate.
  intros [= <-]. split; [reflexivity | lia].
Qed.

Lemma numeric_values_raises cs e : numeric_values cs = Raise e -> e = MeanTypeError.
Proof.
  induction cs as [|[|q|s] cs IH]; simpl; try discriminate; auto.
  - destruct (numeric_values cs); [discriminate|]. intros [= <-]. now apply IH.
  - now intros [= <-].
Qed.

Lemma mapM_raises {A B} (f : A -> result B) l e :
  mapM f l = Raise e -> exists a, In a l /\ f a = Raise e.
Proof.
  induction l as [|a l IH]; simpl; [discriminate|].
  destruct (f a) as [b|e'] eqn:Ha.
  - destruct (mapM f l); [discriminate|]. intros [= <-].
    destruct (IH eq_refl) as (x & Hx & Hfx). eauto.
  - intros [= <-]. eauto.
Qed.

Lemma add_general_raises df e : add_general df = Raise e -> e = MeanTypeError.
Proof.
  unfold add_general, mean_axis1_round2.
  destruct (indice_columns df); [discriminate|].
  destruct (mapM _ _) eqn:Hm; [discriminate|]. intros [= <-].
  apply mapM_raises in Hm as (r & _ & Hr). unfold row_mean in Hr.
  destruct (numeric_values _) eqn:Hn; [discriminate|].
  inversion Hr; subst. now apply numeric_values_raises in Hn.
Qed.

Lemma summary_raises df labels e :
  summary df labels = Raise e ->
  exists l, e = FormatTypeError l /\ In l labels /\
            (2 <= count_label (columns df) l)%nat.
Proof.
  induction labels as [|l labels IH]; simpl; [discriminate|].
  rewrite has_column_count.
  destruct (count_label (columns df) l) as [|[|n]] eqn:Hc; simpl.
  - intros H. destruct (IH H) as (l' & ? & ? & ?). eauto.
  - intros H. destruct (IH H) as (l' & ? & ? & ?). eauto.
  - intros [= <-]. exists l. rewrite Hc. repeat split; auto. lia.
Qed.

Lemma forallb_false_exists {A} (p : A -> bool) l :
  forallb p l = false -> exists x, In x l /\ p x = false.
Proof.
  induction l as [|a l IH]; simpl; [discriminate|].
  destruct (p a) eqn:Ha; simpl.
  - intros H. destruct (IH H) as (x & ? & ?). eauto.
  - eauto.
Qed.

(** X8. The transform of a rectangular table raises in three ways only.
    It raises for a label that is not unique when one of [calidad_dqo],
    [calidad_dbo], [calidad_sst], [semaforo] occurs twice or more in the
    normalised header; it raises from the row mean when some row of the
    source holds a text under a label starting with [indice_calidad_]; and
    it raises from the closing summary, after the table was written, when a
    label starting with [indice_calidad_] occurs twice or more. *)
Theorem transform_raises_in_three_ways :
  forall df e,
    rectangular df ->
    transform_quality_data df = Raise e ->
    let cols := map normalize_name (columns df) in
    match e with
    | LabelNotUnique l =>
        In l mapped_sources /\ (2 <= count_label cols l)%nat
    | MeanTypeError =>
        exists r, In r (rows df) /\ index_text_free cols r = false
    | FormatTypeError l =>
        String.prefix indice_prefix l = true /\ (2 <= count_label cols l)%nat /\
        is_ok (cleaned df) = true
    | _ => False
    end.
Proof.
  intros df e Hrect. pose proof (clean_rectangular _ Hrect) as Rc.
  intros H cols. subst cols. rewrite <- columns_clean.
  pose proof (index_text_free_clean df) as Hrows. revert H.
  unfold transform_quality_data, cleaned, add_indices, rbind.
  set (c := clean df) in *. clearbody c.
  destruct (add_mapped quality_map "calidad_dqo" "indice_calidad_dqo" c)
    as [m1|e1] eqn:H1.
  2: { intros [= <-]. apply add_mapped_raises in H1 as [-> Hc].
       split; [simpl; auto | exact Hc]. }
  pose proof H1 as S1. apply add_mapped_step in S1 as [S1 _].
  destruct (add_mapped quality_map "calidad_dbo" "indice_calidad_dbo" m1)
    as [m2|e2] eqn:H2.
  2: { intros [= <-]. apply add_mapped_raises in H2 as [-> Hc].
       rewrite (count_dbo_kept _ _ S1) in Hc.
       split; [simpl; auto | exact Hc]. }
  pose proof H2 as S2. apply add_mapped_step in S2 as [S2 _].
  destruct (add_mapped quality_map "calidad_sst" "indice_calidad_sst" m2)
    as [mid|e3] eqn:H3.
  2: { intros [= <-]. apply add_mapped_raises in H3 as [-> Hc].
       rewrite (count_sst_kept _ _ _ S1 S2) in Hc.
       split; [simpl; auto | exact Hc]. }
  pose proof H3 as S3. apply add_mapped_step in S3 as [S3 _].
  pose proof (add_general_numeric _ _ _ _ Rc S1 S2 S3) as E4.
  destruct (add_general mid) as [gen|e4] eqn:H4.
  2: { intros [= <-]. apply add_general_raises in H4 as ->.
       simpl in E4. rewrite Hrows in E4. symmetry in E4.
       apply forallb_false_exists in E4. exact E4. }
  pose proof H4 as S4. apply add_general_step in S4 as [S4 _].
  unfold add_semaforo.
  destruct (add_mapped semaforo_map "semaforo" "semaforo_numerico" gen)
    as [out|e5] eqn:H5.
  2: { intros [= <-]. apply add_mapped_raises in H5 as [-> Hc].
       rewrite (count_semaforo_kept _ _ _ _ _ S1 S2 S3 S4) in Hc.
       split; [simpl; auto | exact Hc]. }
  pose proof H5 as S5. apply add_mapped_step in S5 as [S5 _].
  destruct (summary out _) as [[]|e6] eqn:H6; [discriminate|].
  intros [= <-]. apply summary_raises in H6 as (l & -> & Hl & Hc).
  split; [|split; [|reflexivity]].
  - apply in_app_or in Hl as [Hl|[<-|[]]]; [|reflexivity].
    now apply filter_In in Hl.
  - pose proof (count_out_max _ _ _ _ _ _ S1 S2 S3 S4 S5 l). lia.
Qed.

End WithRuntime.

Lemma transform_raises_in_three_ways_witness :
  rectangular two_semaforos /\
  transform_quality_data two_semaforos = Raise (LabelNotUnique "semaforo") /\
  In "semaforo" mapped_sources /\
  (2 <= count_label (map normalize_name (columns two_semaforos)) "semaforo")%nat.
Proof.
  assert (rectangular two_semaforos) as Hrect by (repeat constructor).
  split; [exact Hrect|].
  split; [vm_compute; reflexivity|].
  apply (transform_raises_in_three_ways
           two_semaforos (LabelNotUnique "semaforo") Hrect).
  vm_compute; reflexivity.
Defined.

(** ** The load time *)

Lemma with_fecha_carga_step now df :
  step "fecha_carga" (fun _ => now) true df (with_fecha_carga now df).
Proof.
  split; [reflexivity|].
  unfold with_fecha_carga, set_series. simpl.
  replace (repeat now (length (rows df))) with (map (fun _ : list cell => now) (rows df)).
  - apply (zip_rows_map (set_cell (columns df) "fecha_carga") (fun _ => now)).
  - induction (rows df) as [|r rs IH]; simpl; [reflexivity | now rewrite IH].
Qed.

(** X9. The table sent to the database is the table read from the parquet
    file with the load time under [fecha_carga] in every row: the column is
    appended when the table has none and overwritten otherwise, and no other
    cell, label or row changes. *)
Theorem load_time_in_every_row :
  forall now df i r,
    rectangular df ->
    rows (with_fecha_carga now df) !! i = Some r ->
    let out := with_fecha_carga now df in
    rectangular out /\
    length (rows out) = length (rows df) /\
    count_label (columns out) "fecha_carga" =
      Nat.max 1 (count_label (columns df) "fecha_carga") /\
    cells_at (columns out) "fecha_carga" r =
      repeat now (count_label (columns out) "fecha_carga") /\
    exists r0,
      rows df !! i = Some r0 /\
      forall l, l <> "fecha_carga" ->
                cells_at (columns out) l r = cells_at (columns df) l r0 /\
                count_label (columns out) l = count_label (columns df) l.
Proof.
  intros now df i r Hrect Hi out.
  pose proof (with_fecha_carga_step now df) as Hs. fold out in Hs, Hi.
  destruct (step_row_inv _ _ _ _ _ _ _ Hs Hrect Hi) as (r0 & Hr0 & L0 & ->).
  split; [now apply (step_rectangular _ _ _ _ _ Hs)|].
  split; [now apply (step_length _ _ _ _ _ Hs)|].
  split; [now apply (step_count_same _ _ _ _ Hs)|].
  split.
  - now rewrite (step_same _ _ _ _ _ Hs L0), (step_count_same _ _ _ _ Hs).
  - exists r0. split; [exact Hr0|]. intros l Hl. split.
    + now apply (step_other _ _ _ _ _ _ _ Hs L0).
    + now apply (step_count_other _ _ _ _ _ _ Hs).
Qed.

Lemma load_time_in_every_row_witness :
  let now := Str "2025-11-23 06:00:00" in
  let out := with_fecha_carga now plain_cleaned in
  rectangular plain_cleaned /\
  rectangular out /\
  length (rows out) = length (rows plain_cleaned) /\
  count_label (columns out) "fecha_carga" =
    Nat.max 1 (count_label (columns plain_cleaned) "fecha_carga") /\
  cells_at (columns out) "fecha_carga" [Str "BC"; Num 0; NaN; now] =
    repeat now (count_label (columns out) "fecha_carga") /\
  exists r0,
    rows plain_cleaned !! 1%nat = Some r0 /\
    forall l, l <> "fecha_carga" ->
              cells_at (columns out) l [Str "BC"; Num 0; NaN; now] =
                cells_at (columns plain_cleaned) l r0 /\
              count_label (columns out) l = count_label (columns plain_cleaned) l.
Proof.
  intros now out.
  assert (rectangular plain_cleaned) as Hrect by (repeat constructor).
  split; [exact Hrect|].
  apply (load_time_in_every_row now plain_cleaned 1 _ Hrect).
  reflexivity.
Defined.

(** ** A load that fails *)

Section LoadFailures.

Variable B : backend.
Hypothesis HB : lawful B.

(** Once the replacement has succeeded, the table keeps the new rows
    whatever happens to the views and to the checks. *)
Lemma table_after_to_sql now df (w0 w : world B) res :
  bind B (to_sql B calidad_agua_clean (with_fecha_carga now df)
            IfExistsReplace false) (fun _ =>
    bind B (create_views B) (fun _ => verify B df)) w0 = (w, res) ->
  existsb is_create_view (sent w0) = false ->
  existsb is_create_view (sent w) = true ->
  stored_table B (store w) calidad_agua_clean = Some (with_fecha_carga now df).
Proof.
  unfold create_views, verify, to_sql, transaction, execute, query, note,
    ret, bind. simpl.
  destruct (run_to_sql B _ _ _ _ (store w0)) as [d1 [[]|e1]] eqn:H1; simpl.
  2: { intros H H0. inversion H; subst. simpl.
       rewrite existsb_app, H0. simpl. discriminate. }
  apply (to_sql_replaces B HB) in H1.
  destruct (run_ddl B (CreateView _ _) d1) as [d2|e2] eqn:H2; simpl.
  2: { intros H _ _. inversion H; subst. exact H1. }
  apply (create_view_defines B HB) in H2 as (_ & _ & T2).
  destruct (run_ddl B (CreateView _ _) d2) as [d3|e3] eqn:H3; simpl.
  2: { intros H _ _. inversion H; subst. exact H1. }
  apply (create_view_defines B HB) in H3 as (_ & _ & T3).
  assert (stored_table B d3 calidad_agua_clean = Some (with_fecha_carga now df))
    as Hfinal by (now rewrite T3, T2).
  destruct (run_query B (SelectCount _) d3) as [c|e4]; simpl.
  2: { intros H _ _. inversion H; subst. exact Hfinal. }
  destruct (has_column df "semaforo"); simpl.
  - destruct (run_query B (SelectSemaforoStats _) d3); simpl;
      intros H _ _; inversion H; subst; exact Hfinal.
  - intros H _ _. inversion H; subst. exact Hfinal.
Qed.

End LoadFailures.

(** X10. A load is not undone when it fails. If the task ends without
    having sent the replacement of the table, the database is in the state it
    had before the task. But if it ends, normally or not, after having sent a
    [CREATE VIEW], then on a server that honours replacement and view
    creation the table already holds the new rows: a failure while the views
    are created or checked leaves the new table in place. *)
Theorem failed_load_is_not_undone :
  forall (B : backend) now parquet d w res,
    lawful B ->
    load B now parquet (World d []) = (w, res) ->
    (existsb is_to_sql (sent w) = false -> is_ok res = false /\ store w = d) /\
    (existsb is_create_view (sent w) = true ->
     exists df,
       parquet = Ok df /\
       stored_table B (store w) calidad_agua_clean = Some (with_fecha_carga now df)).
Proof.
  intros B now parquet d w res HB Hload.
  destruct parquet as [df|e0].
  2: { rewrite load_unreadable in Hload. inversion Hload; subst. simpl.
       split; [auto | discriminate]. }
  rewrite load_run in Hload. simpl in Hload.
  destruct (run_query B SelectVersion d) as [a|e1].
  2: { inversion Hload; subst. simpl. split; [auto | discriminate]. }
  destruct (drop_views B (World d [SelectVersion])) as [w2 [[]|e2]] eqn:Hdrop.
  - apply drop_views_success in Hdrop. simpl in Hdrop. split.
    + intros Hno. exfalso.
      apply after_to_sql in Hload as (rest & Hsent & _).
      rewrite Hsent, existsb_app in Hno. simpl in Hno.
      rewrite orb_true_r in Hno. discriminate.
    + intros Hcv. exists df. split; [reflexivity|].
      apply (table_after_to_sql B HB now df w2 w res Hload); [|exact Hcv].
      now rewrite Hdrop.
  - inversion Hload; subst. apply drop_views_failure in Hdrop as [Hstore Hsent].
    split; [auto|]. simpl in Hsent.
    destruct Hsent as [-> | ->]; discriminate.
Qed.

(** X10 on the server, which checks the columns of a view: the cleaned
    sample has no column [semaforo], so the first view is refused; the old
    views are gone and the table holds the new rows. *)
Lemma failed_load_is_not_undone_witness :
  let now := Str "2025-11-23 06:00:00" in
  let run := load pg now (Ok sample_cleaned) (@World pg pg_before []) in
  lawful pg /\
  is_ok (snd run) = false /\
  existsb is_create_view (sent (fst run)) = true /\
  view_definition pg (store (fst run)) resumen_por_estado = None /\
  view_definition pg (store (fst run)) calidad_por_periodo = None /\
  exists df,
    Ok sample_cleaned = Ok df /\
    stored_table pg (store (fst run)) calidad_agua_clean =
      Some (with_fecha_carga now df).
Proof.
  intros now run.
  assert (existsb is_create_view (sent (fst run)) = true) as Hcv
    by (vm_compute; reflexivity).
  split; [exact pg_lawful|].
  split; [vm_compute; reflexivity|].
  split; [exact Hcv|].
  split; [vm_compute; reflexivity|].
  split; [vm_compute; reflexivity|].
  exact (proj2 (failed_load_is_not_undone pg _ _ _ (fst run) (snd run)
                  pg_lawful (surjective_pairing run)) Hcv).
Defined.

(** ** The statements of a successful load *)

(** X11. A load that ends normally has sent, in this order: the
    connection check, the two drops, the replacement of the table by the
    frame with the load time, the two view definitions, the row count and,
    only when the frame read from the parquet file has a column [semaforo],
    the traffic-light statistics; nothing else. *)
Theorem successful_load_statements :
  forall (B : backend) now df d tr w,
    load B now (Ok df) (World d tr) = (w, Ok tt) ->
    sent w = tr ++ load_statements now df.
Proof. intros B now df d tr w. apply load_sent. Qed.

(** X11 on the server: the cleaned monitoring data carries every column of
    the two views, the load ends normally, and the statistics are asked
    for. *)
Lemma successful_load_statements_witness :
  let now := Str "2025-11-23 06:00:00" in
  let run := load pg now (Ok monitoring_cleaned) (@World pg pg_before []) in
  snd run = Ok tt /\
  sent (fst run) = [] ++ load_statements now monitoring_cleaned /\
  existsb (fun s => match s with SelectSemaforoStats _ => true | _ => false end)
          (sent (fst run)) = true.
Proof.
  intros now run.
  assert (snd run = Ok tt) as H by (vm_compute; reflexivity).
  split; [exact H|].
  assert (run = (fst run, Ok tt)) as E
    by (rewrite <- H; apply surjective_pairing).
  split; [|vm_compute; reflexivity].
  exact (successful_load_statements pg _ _ _ _ _ E).
Defined.

(** ** What the two ways of reading have in common *)

Section ReadShape.

Variable na : string -> bool.
Variable number : string -> option Q.
Variable buffer_lines : nat -> nat.











End ReadShape.




(** ** The files of the transform task *)

Lemma temp_file_not_raw : temp_file <> RAW_FILE.
Proof. apply String.eqb_neq. vm_compute. reflexivity. Qed.

Lemma csv_not_raw : TRANSFORMED_FILE_CSV <> RAW_FILE.
Proof. apply String.eqb_neq. vm_compute. reflexivity. Qed.

Lemma parquet_not_raw : TRANSFORMED_FILE_PARQUET <> RAW_FILE.
Proof. apply String.eqb_neq. vm_compute. reflexivity. Qed.

Lemma temp_file_not_csv : temp_file <> TRANSFORMED_FILE_CSV.
Proof. apply String.eqb_neq. vm_compute. reflexivity. Qed.

Lemma temp_file_not_parquet : temp_file <> TRANSFORMED_FILE_PARQUET.
Proof. apply String.eqb_neq. vm_compute. reflexivity. Qed.

Lemma parquet_not_csv : TRANSFORMED_FILE_PARQUET <> TRANSFORMED_FILE_CSV.
Proof. apply String.eqb_neq. vm_compute. reflexivity. Qed.

Lemma cleaned_raises df e :
  cleaned df = Raise e -> transform_quality_data df = Raise e.
Proof.
  unfold transform_quality_data, cleaned, rbind.
  destruct (add_indices (clean df)) as [mid|]; [|auto].
  destruct (add_general mid) as [gen|]; [|auto].
  destruct (add_semaforo gen) as [o|]; [discriminate | auto].
Qed.

Section TaskFiles.

Context {rt : runtime} {dk : disk}.

Variable parse_csv : string -> result frame.
Variable parse_csv_chunked : nat -> string -> result frame.
Variable to_csv : frame -> string.
Variable to_parquet : frame -> result string.

Local Opaque temp_file TRANSFORMED_FILE_CSV TRANSFORMED_FILE_PARQUET RAW_FILE.

(** A write changes at most the file it writes, whether it fails or not. *)
Lemma write_file_other p bytes (fs fs' : file_system) res q :
  write_file p bytes fs = (fs', res) -> q <> p -> fs' !! q = fs !! q.
Proof.
  intros H Hq. destruct res as [[]|e].
  - apply write_file_ok in H. subst fs'. unfold file_system in *.
    apply lookup_insert_ne. congruence.
  - now apply (write_file_failed p bytes fs fs' e q).
Qed.

Lemma write_file_done p bytes (fs fs' : file_system) :
  write_file p bytes fs = (fs', Ok tt) -> fs' !! p = Some bytes.
Proof.
  intros H. apply write_file_ok in H. subst fs'. unfold file_system in *.
  apply lookup_insert_eq.
Qed.

Lemma remove_file_other p (fs fs' : file_system) res q :
  remove_file p fs = (fs', res) -> q <> p -> fs' !! q = fs !! q.
Proof.
  intros H Hq. destruct res as [[]|e].
  - apply remove_file_ok in H. subst fs'. unfold file_system in *.
    apply lookup_delete_ne. congruence.
  - apply remove_file_failed in H. now subst fs'.
Qed.

(** The function on files, by the outcome of the function on frames and of
    the write of line 67. *)
Lemma transform_quality_data_at_run input output (fs : file_system) :
  transform_quality_data_at parse_csv to_csv input output fs =
  match read_csv_at parse_csv input fs with
  | Raise e => (fs, Raise e)
  | Ok df =>
      match cleaned df with
      | Raise e => (fs, Raise e)
      | Ok out =>
          match write_file output (to_csv out) fs with
          | (fs', Raise e) => (fs', Raise e)
          | (fs', Ok _) =>
              match transform_quality_data df with
              | Ok _ => (fs', Ok output)
              | Raise e => (fs', Raise e)
              end
          end
      end
  end.
Proof. reflexivity. Qed.

(** The task, by what the raw file holds and by what the disk answers. *)
Lemma transform_run (fs : file_system) :
  transform parse_csv parse_csv_chunked to_csv to_parquet fs =
  match fs !! RAW_FILE with
  | None => (fs, Raise (FileNotFoundError RAW_FILE))
  | Some bytes =>
      match raw_frame parse_csv parse_csv_chunked bytes with
      | Raise e => (fs, Raise e)
      | Ok df =>
          match write_file temp_file (to_csv df) fs with
          | (fs1, Raise e) => (fs1, Raise e)
          | (fs1, Ok _) =>
              match parse_csv (to_csv df) with
              | Raise e => (fs1, Raise e)
              | Ok df' =>
                  match cleaned df' with
                  | Raise e => (fs1, Raise e)
                  | Ok out =>
                      match write_file TRANSFORMED_FILE_CSV (to_csv out) fs1 with
                      | (fs2, Raise e) => (fs2, Raise e)
                      | (fs2, Ok _) =>
                          match transform_quality_data df' with
                          | Raise e => (fs2, Raise e)
                          | Ok _ =>
                              match parse_csv (to_csv out) with
                              | Raise e => (fs2, Raise e)
                              | Ok df_transformed =>
                                  match to_parquet df_transformed with
                                  | Raise e => (fs2, Raise e)
                                  | Ok bytes' =>
                                      match write_file TRANSFORMED_FILE_PARQUET
                                                       bytes' fs2 with
                                      | (fs3, Raise e) => (fs3, Raise e)
                                      | (fs3, Ok _) =>
                                          match remove_file temp_file fs3 with
                                          | (fs4, Raise e) => (fs4, Raise e)
                                          | (fs4, Ok _) => (fs4, Ok tt)
                                          end
                                      end
                                  end
                              end
                          end
                      end
                  end
              end
          end
      end
  end.
Proof.
  unfold transform, getsize, raw_frame.
  unfold read_csv_at at 1. unfold read_csv_chunked_at.
  destruct (fs !! RAW_FILE) as [bytes|] eqn:Hraw; [|reflexivity].
  cbn [fmap option_fmap option_map].
  destruct (if (size_threshold <? N.of_nat (String.length bytes))%N
            then parse_csv_chunked chunk_size bytes
            else parse_csv bytes) as [df|]; [|reflexivity].
  destruct (write_file temp_file (to_csv df) fs) as [fs1 [[]|e1]] eqn:W1;
    [|reflexivity].
  rewrite transform_quality_data_at_run. unfold read_csv_at.
  rewrite (write_file_done _ _ _ _ W1).
  destruct (parse_csv (to_csv df)) as [df'|]; [|reflexivity].
  destruct (cleaned df') as [out|]; [|reflexivity].
  destruct (write_file TRANSFORMED_FILE_CSV (to_csv out) fs1)
    as [fs2 [[]|e2]] eqn:W2; [|reflexivity].
  destruct (transform_quality_data df'); [|reflexivity].
  now rewrite (write_file_done _ _ _ _ W2).
Qed.

(** What a run leaves of a path, when the writes and the removal leave
    it. *)
Lemma transform_keeps (fs : file_system) p :
  p <> temp_file -> p <> TRANSFORMED_FILE_CSV -> p <> TRANSFORMED_FILE_PARQUET ->
  fst (transform parse_csv parse_csv_chunked to_csv to_parquet fs) !! p = fs !! p.
Proof.
  intros Ht Hc Hp. rewrite transform_run.
  destruct (fs !! RAW_FILE) as [bytes|]; [|reflexivity].
  destruct (raw_frame _ _ bytes) as [df|]; [|reflexivity].
  destruct (write_file temp_file (to_csv df) fs) as [fs1 r1] eqn:W1.
  pose proof (write_file_other _ _ _ _ _ p W1 Ht) as K1.
  destruct r1 as [[]|]; [|exact K1].
  destruct (parse_csv (to_csv df)) as [df'|]; [|exact K1].
  destruct (cleaned df') as [out|]; [|exact K1].
  destruct (write_file TRANSFORMED_FILE_CSV (to_csv out) fs1) as [fs2 r2] eqn:W2.
  pose proof (write_file_other _ _ _ _ _ p W2 Hc) as K2.
  rewrite K1 in K2.
  destruct r2 as [[]|]; [|exact K2].
  destruct (transform_quality_data df'); [|exact K2].
  destruct (parse_csv (to_csv out)) as [dft|]; [|exact K2].
  destruct (to_parquet dft) as [bytes'|]; [|exact K2].
  destruct (write_file TRANSFORMED_FILE_PARQUET bytes' fs2) as [fs3 r3] eqn:W3.
  pose proof (write_file_other _ _ _ _ _ p W3 Hp) as K3.
  rewrite K2 in K3.
  destruct r3 as [[]|]; [|exact K3].
  destruct (remove_file temp_file fs3) as [fs4 r4] eqn:W4.
  pose proof (remove_file_other _ _ _ _ p W4 Ht) as K4.
  rewrite K3 in K4.
  destruct r4 as [[]|]; exact K4.
Qed.

End TaskFiles.

Section WithDisk.

Context {rt : runtime} {dk : disk}.

(** X13. Whatever pandas reads and writes, and whether the disk takes the
    writes or refuses them, a run of the transform task changes nothing but
    the temporary file, the cleaned CSV file and the parquet file: every
    other path, the raw file among them, holds after the run what it held
    before. When the raw file is missing the task raises without writing
    anything. *)
Theorem transform_task_writes_three_files :
  forall parse_csv parse_csv_chunked to_csv to_parquet (fs : file_system),
    let run := transform parse_csv parse_csv_chunked to_csv to_parquet fs in
    (forall p, p <> temp_file -> p <> TRANSFORMED_FILE_CSV ->
               p <> TRANSFORMED_FILE_PARQUET -> fst run !! p = fs !! p) /\
    fst run !! RAW_FILE = fs !! RAW_FILE /\
    (fs !! RAW_FILE = None -> run = (fs, Raise (FileNotFoundError RAW_FILE))).
Proof.
  intros parse_csv parse_csv_chunked to_csv to_parquet fs run.
  assert (forall p, p <> temp_file -> p <> TRANSFORMED_FILE_CSV ->
                    p <> TRANSFORMED_FILE_PARQUET -> fst run !! p = fs !! p) as H
    by (intros; now apply transform_keeps).
  split; [exact H|]. split.
  - apply H; intros E; symmetry in E; revert E.
    + apply temp_file_not_raw.
    + apply csv_not_raw.
    + apply parquet_not_raw.
  - intros Hnone. unfold run. rewrite transform_run.
    unfold file_system in *. now rewrite Hnone.
Qed.

End WithDisk.

Lemma transform_task_writes_three_files_witness :
  let run := transform (reads_always plain) (reads_always_chunked plain)
                       writes_header writes_parquet raw_present in
  RAW_FILE <> temp_file /\ RAW_FILE <> TRANSFORMED_FILE_CSV /\
  RAW_FILE <> TRANSFORMED_FILE_PARQUET /\
  fst run !! RAW_FILE = raw_present !! RAW_FILE /\
  snd run = Ok tt.
Proof.
  intros run.
  assert (RAW_FILE <> temp_file) as H1
    by (apply String.eqb_neq; vm_compute; reflexivity).
  assert (RAW_FILE <> TRANSFORMED_FILE_CSV) as H2
    by (apply String.eqb_neq; vm_compute; reflexivity).
  assert (RAW_FILE <> TRANSFORMED_FILE_PARQUET) as H3
    by (apply String.eqb_neq; vm_compute; reflexivity).
  repeat (split; [assumption|]).
  split; [|vm_compute; reflexivity].
  exact (proj1 (transform_task_writes_three_files
                  (reads_always plain) (reads_always_chunked plain)
                  writes_header writes_parquet raw_present)
               RAW_FILE H1 H2 H3).
Defined.

Section WithDisk.

Context {rt : runtime} {dk : disk}.

(** X14. When the transform task ends normally, the temporary file is
    gone, the cleaned CSV file holds the table that
    [transform_quality_data] makes of the temporary copy of the raw table,
    and the parquet file holds what is read back from that CSV file: the
    loaded table has been written to CSV and parsed twice since the raw file
    was read. *)
Theorem transform_task_success :
  forall parse_csv parse_csv_chunked to_csv to_parquet (fs fs' : file_system),
    transform parse_csv parse_csv_chunked to_csv to_parquet fs = (fs', Ok tt) ->
    exists bytes df df' out df_transformed bytes',
      fs !! RAW_FILE = Some bytes /\
      raw_frame parse_csv parse_csv_chunked bytes = Ok df /\
      parse_csv (to_csv df) = Ok df' /\
      transform_quality_data df' = Ok out /\
      parse_csv (to_csv out) = Ok df_transformed /\
      to_parquet df_transformed = Ok bytes' /\
      fs' !! temp_file = None /\
      fs' !! TRANSFORMED_FILE_CSV = Some (to_csv out) /\
      fs' !! TRANSFORMED_FILE_PARQUET = Some bytes'.
Proof.
  intros parse_csv parse_csv_chunked to_csv to_parquet fs fs'.
  rewrite transform_run.
  destruct (fs !! RAW_FILE) as [bytes|]; [|discriminate].
  destruct (raw_frame _ _ bytes) as [df|] eqn:Hdf; [|discriminate].
  destruct (write_file temp_file (to_csv df) fs) as [fs1 [[]|]] eqn:W1;
    [|discriminate].
  destruct (parse_csv (to_csv df)) as [df'|] eqn:Hdf'; [|discriminate].
  destruct (cleaned df') as [out|] eqn:Hc; [|discriminate].
  destruct (write_file TRANSFORMED_FILE_CSV (to_csv out) fs1)
    as [fs2 [[]|]] eqn:W2; [|discriminate].
  destruct (transform_quality_data df') as [out'|] eqn:Ht; [|discriminate].
  assert (out' = out) as ->
    by (apply transform_cleaned in Ht; congruence).
  destruct (parse_csv (to_csv out)) as [dft|] eqn:Hdft; [|discriminate].
  destruct (to_parquet dft) as [bytes'|] eqn:Hpq; [|discriminate].
  destruct (write_file TRANSFORMED_FILE_PARQUET bytes' fs2)
    as [fs3 [[]|]] eqn:W3; [|discriminate].
  destruct (remove_file temp_file fs3) as [fs4 [[]|]] eqn:W4; [|discriminate].
  intros [= <-]. exists bytes, df, df', out, dft, bytes'.
  repeat (split; [auto; fail|]).
  apply remove_file_ok in W4. apply write_file_ok in W3, W2. subst.
  unfold file_system in *.
  split; [apply lookup_delete_eq|]. split.
  - rewrite lookup_delete_ne by apply temp_file_not_csv.
    rewrite lookup_insert_ne by apply parquet_not_csv.
    apply lookup_insert_eq.
  - rewrite lookup_delete_ne by apply temp_file_not_parquet.
    apply lookup_insert_eq.
Qed.

End WithDisk.

Lemma transform_task_success_witness :
  let run := transform (reads_always plain) (reads_always_chunked plain)
                       writes_header writes_parquet raw_present in
  snd run = Ok tt /\
  fst run !! temp_file = None /\
  fst run !! TRANSFORMED_FILE_CSV = Some "estado,semaforo,semaforo_numerico" /\
  exists bytes df df' out df_transformed bytes',
    raw_present !! RAW_FILE = Some bytes /\
    raw_frame (reads_always plain) (reads_always_chunked plain) bytes = Ok df /\
    reads_always plain (writes_header df) = Ok df' /\
    transform_quality_data df' = Ok out /\
    reads_always plain (writes_header out) = Ok df_transformed /\
    writes_parquet df_transformed = Ok bytes' /\
    fst run !! temp_file = None /\
    fst run !! TRANSFORMED_FILE_CSV = Some (writes_header out) /\
    fst run !! TRANSFORMED_FILE_PARQUET = Some bytes'.
Proof.
  intros run.
  assert (snd run = Ok tt) as H by (vm_compute; reflexivity).
  split; [exact H|].
  split; [vm_compute; reflexivity|].
  split; [vm_compute; reflexivity|].
  assert (run = (fst run, Ok tt)) as E
    by (rewrite <- H; apply surjective_pairing).
  exact (transform_task_success _ _ _ _ _ _ E).
Defined.

Section WithDisk.

Context {rt : runtime} {dk : disk}.

(** X15. When the transform task raises, nothing is cleaned up. If the
    raw file could not be read, nothing was written. If the write of the
    temporary file fails, the disk is as that write left it. Otherwise the
    temporary copy of the raw table is left behind, and the run stopped

    - before line 67, with nothing else written;
    - in the write of the cleaned CSV file, as that write left the disk;
    - in the summary, in reading the CSV file back or in building the
      parquet bytes, with the new CSV file beside the parquet file of before
      the run;
    - in the write of the parquet file, as that write left the disk; or
    - in the removal of the temporary file, with both new files in place. *)
Theorem failed_transform_task_leaves_files :
  forall parse_csv parse_csv_chunked to_csv to_parquet (fs fs' : file_system) e,
    transform parse_csv parse_csv_chunked to_csv to_parquet fs = (fs', Raise e) ->
    match fs !! RAW_FILE with
    | None => fs' = fs
    | Some bytes =>
        match raw_frame parse_csv parse_csv_chunked bytes with
        | Raise _ => fs' = fs
        | Ok df =>
            match write_file temp_file (to_csv df) fs with
            | (fs1, Raise _) => fs' = fs1
            | (fs1, Ok _) =>
                fs1 = <[temp_file := to_csv df]> fs /\
                fs' !! temp_file = Some (to_csv df) /\
                match parse_csv (to_csv df) with
                | Raise _ => fs' = fs1
                | Ok df' =>
                    match cleaned df' with
                    | Raise _ => fs' = fs1
                    | Ok out =>
                        match write_file TRANSFORMED_FILE_CSV (to_csv out) fs1 with
                        | (fs2, Raise _) => fs' = fs2
                        | (fs2, Ok _) =>
                            fs2 = <[TRANSFORMED_FILE_CSV := to_csv out]> fs1 /\
                            fs' !! TRANSFORMED_FILE_CSV = Some (to_csv out) /\
                            (fs' = fs2 \/
                             exists df_transformed bytes',
                               transform_quality_data df' = Ok out /\
                               parse_csv (to_csv out) = Ok df_transformed /\
                               to_parquet df_transformed = Ok bytes' /\
                               match write_file TRANSFORMED_FILE_PARQUET
                                                bytes' fs2 with
                               | (fs3, Raise _) => fs' = fs3
                               | (fs3, Ok _) =>
                                   fs' = <[TRANSFORMED_FILE_PARQUET := bytes']> fs2
                               end)
                        end
                    end
                end
            end
        end
    end.
Proof.
  intros parse_csv parse_csv_chunked to_csv to_parquet fs fs' e.
  rewrite transform_run.
  destruct (fs !! RAW_FILE) as [bytes|]; [|now intros [= <-]].
  destruct (raw_frame _ _ bytes) as [df|] eqn:Hdf; [|now intros [= <-]].
  destruct (write_file temp_file (to_csv df) fs) as [fs1 [[]|]] eqn:W1;
    [|now intros [= <-]].
  pose proof (write_file_done _ _ _ _ W1) as T1.
  pose proof (write_file_ok _ _ _ _ W1) as E1.
  destruct (parse_csv (to_csv df)) as [df'|]; [|now intros [= <- <-]].
  destruct (cleaned df') as [out|] eqn:Hc; [|now intros [= <- <-]].
  destruct (write_file TRANSFORMED_FILE_CSV (to_csv out) fs1)
    as [fs2 r2] eqn:W2.
  pose proof (write_file_other _ _ _ _ _ temp_file W2 temp_file_not_csv) as T2.
  rewrite T1 in T2.
  destruct r2 as [[]|]; [|now intros [= <- <-]].
  pose proof (write_file_done _ _ _ _ W2) as C2.
  pose proof (write_file_ok _ _ _ _ W2) as E2.
  destruct (transform_quality_data df') as [out'|] eqn:Ht;
    [|intros [= <- <-]; auto 6].
  assert (out' = out) as ->
    by (apply transform_cleaned in Ht; congruence).
  destruct (parse_csv (to_csv out)) as [dft|] eqn:Hdft;
    [|intros [= <- <-]; auto 6].
  destruct (to_parquet dft) as [bytes'|] eqn:Hpq; [|intros [= <- <-]; auto 6].
  destruct (write_file TRANSFORMED_FILE_PARQUET bytes' fs2) as [fs3 r3] eqn:W3.
  pose proof (write_file_other _ _ _ _ _ temp_file W3 temp_file_not_parquet) as T3.
  assert (TRANSFORMED_FILE_CSV <> TRANSFORMED_FILE_PARQUET) as Hcp
    by (intros E; symmetry in E; revert E; apply parquet_not_csv).
  pose proof (write_file_other _ _ _ _ _ TRANSFORMED_FILE_CSV W3 Hcp) as C3.
  rewrite T2 in T3. rewrite C2 in C3.
  destruct r3 as [[]|].
  - pose proof (write_file_ok _ _ _ _ W3) as E3.
    destruct (remove_file temp_file fs3) as [fs4 [[]|]] eqn:W4; [discriminate|].
    apply remove_file_failed in W4. subst fs4.
    intros [= <- <-]. repeat (split; [assumption|]).
    right. exists dft, bytes'. rewrite W3. auto.
  - intros [= <- <-]. repeat (split; [assumption|]).
    right. exists dft, bytes'. rewrite W3. auto.
Qed.

End WithDisk.

(** X15 on two runs: one on a disk that takes every write, where the
    cleaning raises and leaves the temporary file; one on a disk without
    room, where the first write fails and leaves an empty temporary
    file. *)
Lemma failed_transform_task_leaves_files_witness :
  let run := transform (reads_always two_semaforos)
                       (reads_always_chunked two_semaforos)
                       writes_header writes_parquet raw_present in
  let run' := @transform ascii_runtime full_disk
                       (reads_always plain) (reads_always_chunked plain)
                       writes_header writes_parquet raw_present in
  (snd run = Raise (LabelNotUnique "semaforo") /\
   fst run !! temp_file = Some "estado,semaforo,Semaforo" /\
   fst run = <[temp_file := "estado,semaforo,Semaforo"]> raw_present) /\
  (snd run' = Raise (OSError "No space left on device") /\
   fst run' = <[temp_file := EmptyString]> raw_present).
Proof.
  intros run run'.
  assert (snd run = Raise (LabelNotUnique "semaforo")) as H
    by (vm_compute; reflexivity).
  assert (run = (fst run, Raise (LabelNotUnique "semaforo"))) as E
    by (rewrite <- H; apply surjective_pairing).
  assert (snd run' = Raise (OSError "No space left on device")) as H'
    by (vm_compute; reflexivity).
  assert (run' = (fst run', Raise (OSError "No space left on device"))) as E'
    by (rewrite <- H'; apply surjective_pairing).
  split.
  - split; [exact H|].
    destruct (failed_transform_task_leaves_files _ _ _ _ _ _ _ E)
      as (E1 & T & Hfs).
    split; [exact T|]. exact (eq_trans Hfs E1).
  - split; [exact H'|].
    exact (@failed_transform_task_leaves_files ascii_runtime full_disk
             _ _ _ _ _ _ _ E').
Defined.

(** ** Files that both ways of reading read alike *)

(** X16. The frame the task goes on with is the frame of a whole read
    whenever the raw file has at most 5 MiB or at most 10000 records: the
    two ways of reading can differ only on a file that is above both
    bounds. *)
Theorem small_files_are_read_alike :
  forall na number buffer_lines f,
    (file_size f <= size_threshold)%N \/ (length (records f) <= chunk_size)%nat ->
    read_raw na number buffer_lines f = read_csv na number buffer_lines f.
Proof.
  intros na number buffer_lines f H. unfold read_raw.
  destruct (N.ltb_spec size_threshold (file_size f)) as [Hbig|Hsmall];
    [|reflexivity].
  destruct H as [H|H]; [lia|].
  unfold read_csv_chunked, read_csv. f_equal.
  destruct (records f) as [|rec recs] eqn:E; [reflexivity|].
  rewrite chunks_short; [|discriminate | exact H].
  simpl. apply app_nil_r.
Qed.

Lemma small_files_are_read_alike_witness :
  (file_size small_file <= size_threshold)%N /\
  read_raw empty_field integer_literal pandas_buffer_lines small_file =
  read_csv empty_field integer_literal pandas_buffer_lines small_file.
Proof.
  assert (file_size small_file <= size_threshold)%N as H
    by (apply N.leb_le; vm_compute; reflexivity).
  split; [exact H|].
  apply small_files_are_read_alike. left. exact H.
Defined.

Section WithRuntime.

Context {rt : runtime}.

(** ** Row by row *)

Lemma steps_agree l f1 f2 a1 a2 d1 d1' d2 d2' i j (x : list cell) :
  step l f1 a1 d1 d1' -> step l f2 a2 d2 d2' ->
  columns d1 = columns d2 -> a1 = a2 -> (forall r, f1 r = f2 r) ->
  rows d1 !! i = Some x -> rows d2 !! j = Some x ->
  columns d1' = columns d2' /\
  exists y, rows d1' !! i = Some y /\ rows d2' !! j = Some y.
Proof.
  intros S1 S2 Hc Ha Hf H1 H2. subst a2. split.
  - destruct S1 as [-> _], S2 as [-> _]. now rewrite Hc.
  - rewrite (step_lookup _ _ _ _ _ i S1), (step_lookup _ _ _ _ _ j S2), H1, H2.
    simpl. eexists. split; [reflexivity|].
    unfold step_row. rewrite Hc. destruct a1; [|reflexivity]. now rewrite Hf.
Qed.

Lemma has_column_columns d1 d2 l :
  columns d1 = columns d2 -> has_column d1 l = has_column d2 l.
Proof. unfold has_column. now intros ->. Qed.

(** X17. The transform works row by row: the cleaned row of a record
    depends on the record and on the normalised header only. Two source
    tables whose headers normalise alike get the same written header, and a
    record that both keep is written as the same row, whatever the other
    records of either table are. *)
Theorem cleaned_row_depends_on_its_record_only :
  forall df1 df2 out1 out2 i j r,
    map normalize_name (columns df1) = map normalize_name (columns df2) ->
    transform_quality_data df1 = Ok out1 ->
    transform_quality_data df2 = Ok out2 ->
    drop_duplicates_from [] (rows df1) !! i = Some r ->
    drop_duplicates_from [] (rows df2) !! j = Some r ->
    columns out1 = columns out2 /\
    exists x, rows out1 !! i = Some x /\ rows out2 !! j = Some x.
Proof.
  intros df1 df2 out1 out2 i j r Hcols H1 H2 Hi Hj.
  destruct (transform_stages _ _ H1) as (mid1 & _ & [a1 b1 g1 Ha1 Hb1 Hc1 Hd1 He1 _]).
  destruct (transform_stages _ _ H2) as (mid2 & _ & [a2 b2 g2 Ha2 Hb2 Hc2 Hd2 He2 _]).
  apply add_mapped_step in Ha1 as [Sa1 _]. apply add_mapped_step in Ha2 as [Sa2 _].
  apply add_mapped_step in Hb1 as [Sb1 _]. apply add_mapped_step in Hb2 as [Sb2 _].
  apply add_mapped_step in Hc1 as [Sc1 _]. apply add_mapped_step in Hc2 as [Sc2 _].
  apply add_general_step in Hd1 as [Sd1 _]. apply add_general_step in Hd2 as [Sd2 _].
  apply add_mapped_step in He1 as [Se1 _]. apply add_mapped_step in He2 as [Se2 _].
  assert (columns (clean df1) = columns (clean df2)) as C0
    by (now rewrite !columns_clean).
  assert (rows (clean df1) !! i = Some (map (fill_cell (Num 0)) r)) as R1
    by (now rewrite rows_clean, list_lookup_fmap, Hi).
  assert (rows (clean df2) !! j = Some (map (fill_cell (Num 0)) r)) as R2
    by (now rewrite rows_clean, list_lookup_fmap, Hj).
  destruct (steps_agree _ _ _ _ _ _ _ _ _ i j _ Sa1 Sa2 C0
              (has_column_columns _ _ _ C0)
              ltac:(intros; now rewrite C0) R1 R2) as (Ca & ya & Ya1 & Ya2).
  destruct (steps_agree _ _ _ _ _ _ _ _ _ i j _ Sb1 Sb2 Ca
              (has_column_columns _ _ _ Ca)
              ltac:(intros; now rewrite Ca) Ya1 Ya2) as (Cb & yb & Yb1 & Yb2).
  destruct (steps_agree _ _ _ _ _ _ _ _ _ i j _ Sc1 Sc2 Cb
              (has_column_columns _ _ _ Cb)
              ltac:(intros; now rewrite Cb) Yb1 Yb2) as (Cc & yc & Yc1 & Yc2).
  assert (indice_columns mid1 = indice_columns mid2) as Ci
    by (unfold indice_columns; now rewrite Cc).
  destruct (steps_agree _ _ _ _ _ _ _ _ _ i j _ Sd1 Sd2 Cc
              ltac:(now rewrite Ci)
              ltac:(intros; now rewrite Cc, Ci) Yc1 Yc2) as (Cd & yd & Yd1 & Yd2).
  exact (steps_agree _ _ _ _ _ _ _ _ _ i j _ Se1 Se2 Cd
           (has_column_columns _ _ _ Cd)
           ltac:(intros; now rewrite Cd) Yd1 Yd2).
Qed.

End WithRuntime.

Lemma cleaned_row_depends_on_its_record_only_witness :
  map normalize_name (columns sample) = map normalize_name (columns sample_one) /\
  transform_quality_data sample = Ok sample_cleaned /\
  transform_quality_data sample_one = Ok sample_one_cleaned /\
  columns sample_cleaned = columns sample_one_cleaned /\
  exists x, rows sample_cleaned !! 1%nat = Some x /\
            rows sample_one_cleaned !! 0%nat = Some x.
Proof.
  split; [vm_compute; reflexivity|].
  split; [vm_compute; reflexivity|].
  split; [vm_compute; reflexivity|].
  refine (cleaned_row_depends_on_its_record_only
            sample sample_one sample_cleaned sample_one_cleaned 1 0
            [Str "Buena calidad"; NaN; Str "BC"] _ _ _ _ _);
    vm_compute; reflexivity.
Defined.